(** * Shift-assignment engine of timeplan-manager: embedding and properties

    Shallow embedding of the class [ScheduleGenerator] (the scheduler module
    that follows the export helpers in [src/lib/data-export.ts]) together
    with the type declarations of [src/types/index.ts].

    Conventions of the embedding.
    - Time-of-day values stay the ["HH:MM"] strings of the source and are
      read through [timeToMinutes] / written through [minutesToTime].  The
      embedding covers strings made of decimal digits around one colon; on
      other strings JavaScript computes with [NaN], which is not modelled.
    - JavaScript numbers that may be fractional (hours) are exact rationals
      ([Qc]); minute offsets and head counts are integers ([Z]).
    - A calendar date ["YYYY-MM-DD"] is represented by its day number (a
      [Z]); [new Date(weekStart); setDate(getDate() + i); toISOString()] is
      the addition of [i].  Time-zone effects of [Date] are not modelled.
    - Shift and schedule [id] labels and [weekEnd] are never read by the
      engine and are left out of the records.
    - Mutable objects ([weeklyHours], the rotation tracker, the usage
      counters, [this.pharmacyRules]) are threaded explicitly: a function
      that writes one returns its new value.
    - [createShiftAssignments] is embedded through the fragments the
      properties below are about (the daily hour target of a part-time
      pharmacist, the pattern choice under unmet requirements and the two
      loops that give the full-time pharmacists their patterns); as a
      whole it is a parameter of the week generation ([assignmentStrategy]),
      and so are the outcomes of [Math.random] and of the two re-timing
      passes of the first pass ([Oracle.t]).  The week-level results
      therefore hold whatever these return.
    - [console.log] calls have no counterpart. *)

From stdpp Require Import gmap strings list fin_maps pretty sorting.
From Stdlib Require Import Ascii QArith Qcanon Lqa.

Open Scope Z_scope.

(* ===================================================================== *)
(** * Part I.  The embedding                                              *)
(* ===================================================================== *)

(** ** JavaScript built-ins used by the scheduler *)

Module Js.

(** [Number(s)] on a string of decimal digits. *)
Definition digit (c : ascii) : Z := Z.of_nat (nat_of_ascii c) - 48.

Fixpoint parseDigits (acc : Z) (s : string) : Z :=
  match s with
  | EmptyString => acc
  | String c rest => parseDigits (10 * acc + digit c) rest
  end.

Definition Number (s : string) : Z := parseDigits 0 s.

(** [s.split(':')]. *)
Fixpoint splitColon (cur : string) (s : string) : list string :=
  match s with
  | EmptyString => [String.rev cur]
  | String c rest =>
      if Ascii.eqb c ":"%char
      then String.rev cur :: splitColon EmptyString rest
      else splitColon (String c cur) rest
  end.

Definition split (s : string) : list string := splitColon EmptyString s.

(** [n.toString()] for an integer [n]. *)
Definition toString (n : Z) : string := pretty n.

(** [s.padStart(2, '0')]. *)
Definition padStart2 (s : string) : string :=
  match String.length s with
  | O => "00"
  | S O => String "0" s
  | _ => s
  end.

(** [Math.floor] and [Math.round] (ties go up) on a rational. *)
Definition floor (q : Qc) : Z := Qnum (this q) / Zpos (Qden (this q)).
Definition round (q : Qc) : Z := floor (q + Q2Qc (1 # 2))%Qc.

Definition ofZ (z : Z) : Qc := Q2Qc (inject_Z z).

(** [Math.max] of two numbers. *)
Definition max (a b : Qc) : Qc := if bool_decide (a < b)%Qc then b else a.

(** [x.toFixed(1)]: sign, then the nearest tenth of the magnitude, ties
    to the larger one.  (A double that is not itself a decimal tie may
    round differently from the rational it approximates.) *)
Definition toFixed1 (q : Qc) : string :=
  let neg := bool_decide (q < 0)%Qc in
  let x := if neg then (- q)%Qc else q in
  let n := floor (x * ofZ 10 + Q2Qc (1 # 2))%Qc in
  (if neg then "-" else "") +:+ pretty (n / 10) +:+ "." +:+ pretty (n mod 10).

(** Digits of the fractional part [r / d] (with [0 <= r < d]), at most
    [fuel] of them, stopping when the expansion ends. *)
Fixpoint fracDigits (fuel : nat) (r d : Z) : string :=
  match fuel with
  | O => ""
  | S fuel' =>
      if bool_decide (r = 0) then ""
      else pretty ((10 * r) / d) +:+ fracDigits fuel' ((10 * r) mod d) d
  end.

(** [`${x}`] for a number: integers print in decimal; a fractional value
    prints its decimal expansion (cut after 16 places when it does not
    end, where a double prints its shortest round-trip form). *)
Definition numberToString (q : Qc) : string :=
  let n := Qnum (this q) in
  let d := Zpos (Qden (this q)) in
  if bool_decide (d = 1) then pretty n
  else
    let neg := bool_decide (n < 0) in
    let a := Z.abs n in
    (if neg then "-" else "") +:+ pretty (a / d) +:+ "." +:+ fracDigits 16 (a mod d) d.

(** A JavaScript object used as a string-keyed dictionary: the own
    properties in creation order.  Assigning to an existing key keeps its
    position. *)
Definition obj (V : Type) : Type := list (string * V).

Fixpoint get {V : Type} (k : string) (o : obj V) : option V :=
  match o with
  | [] => None
  | (k', v) :: rest => if bool_decide (k' = k) then Some v else get k rest
  end.

Fixpoint set {V : Type} (k : string) (v : V) (o : obj V) : obj V :=
  match o with
  | [] => [(k, v)]
  | (k', v') :: rest =>
      if bool_decide (k' = k) then (k, v) :: rest else (k', v') :: set k v rest
  end.

(** [Object.entries]: keys that are array indices (canonical decimal below
    [2^32 - 1]) are enumerated first, in ascending numeric order; the other
    keys follow in creation order. *)
Definition arrayIndex (k : string) : option Z :=
  let n := Number k in
  if bool_decide (k = pretty n ∧ 0 <= n < 4294967295) then Some n else None.

Definition indexLe {V : Type} (a b : string * V) : Prop :=
  Number a.1 <= Number b.1.

#[global] Instance indexLe_dec {V : Type} : RelDecision (@indexLe V).
Proof. intros a b. unfold indexLe. apply _. Defined.

Definition entries {V : Type} (o : obj V) : list (string * V) :=
  merge_sort indexLe (filter (fun kv => is_Some (arrayIndex kv.1)) o)
  ++ filter (fun kv => ¬ is_Some (arrayIndex kv.1)) o.

End Js.

(** ** Time utilities *)

(** [timeToMinutes]: [const [hours, minutes] = timeString.split(':').map(Number);
    return hours * 60 + minutes]. *)
Definition timeToMinutes (timeString : string) : Z :=
  let parts := Js.Number <$> Js.split timeString in
  let hours := nth 0 parts 0 in
  let minutes := nth 1 parts 0 in
  hours * 60 + minutes.

(** [minutesToTime]: [Math.floor(minutes / 60)] and [minutes % 60] (the
    remainder takes the sign of [minutes]), each padded to two characters. *)
Definition minutesToTime (minutes : Z) : string :=
  let hours := minutes / 60 in
  let mins := Z.rem minutes 60 in
  Js.padStart2 (Js.toString hours) +:+ ":" +:+ Js.padStart2 (Js.toString mins).

(** [calculateShiftHours]: both strings are parsed as times of 2000-01-01
    and the difference is returned in hours. *)
Definition calculateShiftHours (startTime endTime : string) : Qc :=
  (Js.ofZ (timeToMinutes endTime - timeToMinutes startTime) / Js.ofZ 60)%Qc.

(** ** Data model ([src/types/index.ts]) *)

Module SubShift.
Record t := mk { startTime : string; endTime : string }.
End SubShift.

Module FixedShiftPattern.
Record t := mk {
  id : string;
  name : string;
  shortForm : option string;
  morningShift : SubShift.t;
  afternoonShift : SubShift.t }.
End FixedShiftPattern.

Module StaffingRequirement.
Record t := mk {
  id : string;
  startTime : string;
  endTime : string;
  requiredPharmacists : Z }.
End StaffingRequirement.

Module PharmacyRules.
Record t := mk {
  id : string;
  name : string;
  openingTime : string;
  closingTime : string;
  breakStartTime : string;
  breakEndTime : string;
  maxHoursPerShift : Qc;
  maxHoursPerDay : Qc;
  fixedShiftPatterns : option (list FixedShiftPattern.t);
  staffingRequirements : list StaffingRequirement.t }.
End PharmacyRules.

Module FixedDayPattern.
Record t := mk { dayOfWeek : string; patternId : string }.
End FixedDayPattern.

Module Pharmacist.
Record t := mk {
  id : string;
  name : string;
  email : string;
  weeklyHours : Qc;
  freeDay : string;
  freeSaturdayWeek : option Z;
  isActive : bool;
  fixedDayPatterns : option (list FixedDayPattern.t) }.
End Pharmacist.

Inductive ShiftType := morning | afternoon | full.

#[global] Instance ShiftType_eq_dec : EqDecision ShiftType.
Proof. solve_decision. Defined.

Definition shiftTypeName (ty : ShiftType) : string :=
  match ty with morning => "morning" | afternoon => "afternoon" | full => "full" end.

Module Shift.
Record t := mk {
  pharmacistId : string;
  date : Z;
  startTime : string;
  endTime : string;
  type : ShiftType;
  isBreakTime : bool;
  patternId : option string }.
End Shift.

Module Schedule.
Record t := mk {
  weekStart : Z;
  shifts : list Shift.t;
  warnings : option (gmap Z (list string)) }.
End Schedule.

(** ** Validator ([validateSchedule]) *)

Record InsufficientPeriod := mkPeriod { start : Z; end_ : Z; minCount : Z }.

(** The [Set] filled by [dayShifts.forEach] at one check time: the ids of
    the pharmacists whose shift satisfies
    [shiftStart <= checkTime && shiftEnd > checkTime]. *)
Definition pharmacistIdsWorking (dayShifts : list Shift.t) (checkTime : Z) : gset string :=
  foldl (fun acc shift =>
           let shiftStart := timeToMinutes (Shift.startTime shift) in
           let shiftEnd := timeToMinutes (Shift.endTime shift) in
           if bool_decide (shiftStart <= checkTime ∧ shiftEnd > checkTime)
           then acc ∪ {[ Shift.pharmacistId shift ]}
           else acc)
        ∅ dayShifts.

(** State of the scan of one requirement: the closed periods
    ([insufficientPeriods]) and the open one ([currentPeriod]). *)
Definition coverageState : Type := list InsufficientPeriod * option InsufficientPeriod.

(** Body of [for (let checkTime = reqStart; checkTime < reqEnd; checkTime += 30)]. *)
Definition coverageStep (dayShifts : list Shift.t) (required reqEnd : Z)
    (st : coverageState) (checkTime : Z) : coverageState :=
  let '(insufficientPeriods, currentPeriod) := st in
  let pharmacistsWorking := Z.of_nat (size (pharmacistIdsWorking dayShifts checkTime)) in
  if bool_decide (pharmacistsWorking < required) then
    let periodEnd := Z.min (checkTime + 30) reqEnd in
    match currentPeriod with
    | Some p =>
        (insufficientPeriods,
         Some (mkPeriod (start p) periodEnd
                 (if bool_decide (pharmacistsWorking < minCount p)
                  then pharmacistsWorking else minCount p)))
    | None =>
        (insufficientPeriods, Some (mkPeriod checkTime periodEnd pharmacistsWorking))
    end
  else
    match currentPeriod with
    | Some p => (insufficientPeriods ++ [p], None)
    | None => (insufficientPeriods, None)
    end.

(** The [for] loop itself; [fuel] bounds the number of iterations. *)
Fixpoint coverageLoop (fuel : nat) (dayShifts : list Shift.t) (required reqEnd : Z)
    (checkTime : Z) (st : coverageState) : coverageState :=
  match fuel with
  | O => st
  | S fuel' =>
      if bool_decide (checkTime < reqEnd)
      then coverageLoop fuel' dayShifts required reqEnd (checkTime + 30)
             (coverageStep dayShifts required reqEnd st checkTime)
      else st
  end.

(** The loop followed by "don't forget the last period". *)
Definition insufficientPeriodsOf (dayShifts : list Shift.t) (requirement : StaffingRequirement.t)
    : list InsufficientPeriod :=
  let reqStart := timeToMinutes (StaffingRequirement.startTime requirement) in
  let reqEnd := timeToMinutes (StaffingRequirement.endTime requirement) in
  let required := StaffingRequirement.requiredPharmacists requirement in
  let '(insufficientPeriods, currentPeriod) :=
    coverageLoop (Z.to_nat (reqEnd - reqStart)) dayShifts required reqEnd reqStart ([], None) in
  match currentPeriod with
  | Some p => insufficientPeriods ++ [mkPeriod (start p) (Z.min (end_ p) reqEnd) (minCount p)]
  | None => insufficientPeriods
  end.

Definition coverageMessage (periodStart periodEnd minCount required reqStart reqEnd : Z) : string :=
  "Insufficient coverage " +:+ minutesToTime periodStart +:+ "-" +:+ minutesToTime periodEnd
  +:+ ": " +:+ Js.toString minCount +:+ "/" +:+ Js.toString required
  +:+ " (requirement: " +:+ minutesToTime reqStart +:+ "-" +:+ minutesToTime reqEnd +:+ ")".

(** [insufficientPeriods.forEach]: one message per period that is not
    empty after clipping to the requirement. *)
Definition reportPeriod (requirement : StaffingRequirement.t) (period : InsufficientPeriod)
    : list string :=
  let reqStart := timeToMinutes (StaffingRequirement.startTime requirement) in
  let reqEnd := timeToMinutes (StaffingRequirement.endTime requirement) in
  let required := StaffingRequirement.requiredPharmacists requirement in
  let periodStart := Z.max (start period) reqStart in
  let periodEnd := Z.min (end_ period) reqEnd in
  if bool_decide (periodStart < periodEnd)
  then [coverageMessage periodStart periodEnd (minCount period) required reqStart reqEnd]
  else [].

Definition requirementWarnings (dayShifts : list Shift.t) (requirement : StaffingRequirement.t)
    : list string :=
  flat_map (reportPeriod requirement) (insufficientPeriodsOf dayShifts requirement).

(** [this.pharmacists.find(p => p.id === id)] then [pharmacist?.name || id]. *)
Definition displayName (pharmacists : list Pharmacist.t) (pharmacistId : string) : string :=
  match list_find (fun p => Pharmacist.id p = pharmacistId) pharmacists with
  | Some (_, p) =>
      if bool_decide (Pharmacist.name p = "") then pharmacistId else Pharmacist.name p
  | None => pharmacistId
  end.

Definition tooShortMessage (who : string) (ty : ShiftType) (shiftHours : Qc) : string :=
  "Shift too short: " +:+ who +:+ " has a " +:+ shiftTypeName ty +:+ " shift of "
  +:+ Js.toFixed1 shiftHours +:+ "h (minimum: 2h)".

Definition exceedsShiftMessage (who : string) (shiftHours maxHours : Qc) : string :=
  "Shift exceeds max hours: " +:+ who +:+ " works " +:+ Js.toFixed1 shiftHours
  +:+ "h (max: " +:+ Js.numberToString maxHours +:+ "h)".

Definition exceedsDayMessage (who : string) (totalHours maxHours : Qc) : string :=
  "Daily hours exceeded: " +:+ who +:+ " works " +:+ Js.toFixed1 totalHours
  +:+ "h (max: " +:+ Js.numberToString maxHours +:+ "h)".

(** The warnings one shift contributes in the second [dayShifts.forEach]. *)
Definition shiftWarnings (rules : PharmacyRules.t) (pharmacists : list Pharmacist.t)
    (shift : Shift.t) : list string :=
  let shiftHours := calculateShiftHours (Shift.startTime shift) (Shift.endTime shift) in
  let who := displayName pharmacists (Shift.pharmacistId shift) in
  (if bool_decide ((Shift.type shift = morning ∨ Shift.type shift = afternoon)
                   ∧ (shiftHours < Js.ofZ 2)%Qc)
   then [tooShortMessage who (Shift.type shift) shiftHours] else [])
  ++
  (if bool_decide (PharmacyRules.maxHoursPerShift rules < shiftHours)%Qc
   then [exceedsShiftMessage who shiftHours (PharmacyRules.maxHoursPerShift rules)] else []).

(** Body of the second [dayShifts.forEach]: the running
    [pharmacistDailyHours] object and the warnings pushed so far. *)
Definition shiftCheckStep (rules : PharmacyRules.t) (pharmacists : list Pharmacist.t)
    (st : Js.obj Qc * list string) (shift : Shift.t) : Js.obj Qc * list string :=
  let '(pharmacistDailyHours, dayWarnings) := st in
  let pid := Shift.pharmacistId shift in
  let initialised :=
    match Js.get pid pharmacistDailyHours with
    | Some h => if bool_decide (h = 0%Qc) then Js.set pid 0%Qc pharmacistDailyHours
                else pharmacistDailyHours
    | None => Js.set pid 0%Qc pharmacistDailyHours
    end in
  let shiftHours := calculateShiftHours (Shift.startTime shift) (Shift.endTime shift) in
  let updated :=
    Js.set pid (default 0%Qc (Js.get pid initialised) + shiftHours)%Qc initialised in
  (updated, dayWarnings ++ shiftWarnings rules pharmacists shift).

(** [Object.entries(pharmacistDailyHours).forEach]. *)
Definition dailyHoursWarning (rules : PharmacyRules.t) (pharmacists : list Pharmacist.t)
    (entry : string * Qc) : list string :=
  let '(pharmacistId, totalHours) := entry in
  if bool_decide (PharmacyRules.maxHoursPerDay rules < totalHours)%Qc
  then [exceedsDayMessage (displayName pharmacists pharmacistId) totalHours
          (PharmacyRules.maxHoursPerDay rules)]
  else [].

(** The [dayWarnings] array built for the day dated [dateStr]. *)
Definition dayWarningsOf (rules : PharmacyRules.t) (pharmacists : list Pharmacist.t)
    (shifts : list Shift.t) (dateStr : Z) : list string :=
  let dayShifts := filter (fun shift => Shift.date shift = dateStr) shifts in
  let coverage :=
    flat_map (requirementWarnings dayShifts) (PharmacyRules.staffingRequirements rules) in
  let '(pharmacistDailyHours, dayWarnings) :=
    foldl (shiftCheckStep rules pharmacists) ([], coverage) dayShifts in
  dayWarnings ++ flat_map (dailyHoursWarning rules pharmacists) (Js.entries pharmacistDailyHours).

Definition workdays : list Z := [1; 2; 3; 4; 5; 6].

(** Date of the day with index [dayIndex] in the week starting [weekStart]. *)
Definition dateOfDay (weekStart : Z) (dayIndex : nat) : Z := weekStart + Z.of_nat dayIndex.

(** [validateSchedule]: a day enters the [warnings] object only when its
    list is not empty. *)
Definition validateShifts (rules : PharmacyRules.t) (pharmacists : list Pharmacist.t)
    (weekStart : Z) (shifts : list Shift.t) : gmap Z (list string) :=
  foldl (fun warnings dayIndex =>
           let dateStr := dateOfDay weekStart dayIndex in
           let dayWarnings := dayWarningsOf rules pharmacists shifts dateStr in
           if bool_decide (0 < length dayWarnings)%nat
           then <[ dateStr := dayWarnings ]> warnings
           else warnings)
        ∅ (seq 0 (length workdays)).

Definition validateSchedule (rules : PharmacyRules.t) (pharmacists : list Pharmacist.t)
    (schedule : Schedule.t) : gmap Z (list string) :=
  validateShifts rules pharmacists (Schedule.weekStart schedule) (Schedule.shifts schedule).

(** [Object.values(warnings).reduce((sum, w) => sum + w.length, 0)]. *)
Definition warningCount (warnings : gmap Z (list string)) : nat :=
  map_fold (fun _ dayWarnings sum => (sum + length dayWarnings)%nat) 0%nat warnings.

(** [Object.values(warnings).some(dayWarnings => dayWarnings.length > 0)]. *)
Definition hasWarnings (warnings : gmap Z (list string)) : bool :=
  bool_decide (map_Exists (fun _ dayWarnings => (0 < length dayWarnings)%nat) warnings).

(** ** The generator object

    [new ScheduleGenerator(pharmacists, pharmacyRules)] keeps the active
    pharmacists and a reference to the caller's rules object. *)

Module ScheduleGenerator.
Record t := mk {
  pharmacists : list Pharmacist.t;
  pharmacyRules : PharmacyRules.t }.
End ScheduleGenerator.

Definition newScheduleGenerator (pharmacists : list Pharmacist.t) (pharmacyRules : PharmacyRules.t)
    : ScheduleGenerator.t :=
  ScheduleGenerator.mk (filter (fun p => Pharmacist.isActive p = true) pharmacists) pharmacyRules.

Definition dayNames : list string :=
  ["Monday"; "Tuesday"; "Wednesday"; "Thursday"; "Friday"; "Saturday"].

Definition dayNameOf (dayIndex : nat) : string := nth dayIndex dayNames "".

(** [isFreeDay]: the legacy [freeDay] field, or a [FREE_DAY] entry of
    [fixedDayPatterns] for that day. *)
Definition isFreeDay (pharmacist : Pharmacist.t) (dayName : string) : bool :=
  if bool_decide (Pharmacist.freeDay pharmacist = dayName) then true
  else
    match Pharmacist.fixedDayPatterns pharmacist with
    | Some fixedDayPatterns =>
        existsb (fun p => bool_decide (FixedDayPattern.patternId p = "FREE_DAY"
                                       ∧ FixedDayPattern.dayOfWeek p = dayName))
                fixedDayPatterns
    | None => false
    end.

(** Whether the pharmacist has Saturday off in week [weekNumber]:
    [dayName === 'Saturday' && ph.freeSaturdayWeek === weekNumber]. *)
Definition saturdayOff (pharmacist : Pharmacist.t) (dayName : string) (weekNumber : Z) : bool :=
  bool_decide (dayName = "Saturday")
  && bool_decide (Pharmacist.freeSaturdayWeek pharmacist = Some weekNumber).

(** ** Shift synthesizer ([generateDayShifts]) *)

Module Assignment.
Record t := mk {
  pharmacist : Pharmacist.t;
  shiftType : ShiftType;
  startTime : string;
  endTime : string;
  patternId : option string }.
End Assignment.

Definition mkShift (pharmacist : Pharmacist.t) (dateStr : Z) (startTime endTime : string)
    (ty : ShiftType) (patternId : option string) : Shift.t :=
  Shift.mk (Pharmacist.id pharmacist) dateStr startTime endTime ty false patternId.

(** Branch [shiftType === 'morning'].  [None] is the early [return] of the
    callback (no shift, no deduction). *)
Definition synthMorning (rules : PharmacyRules.t) (dateStr : Z) (a : Assignment.t)
    : option (list Shift.t * Qc) :=
  let pharmacist := Assignment.pharmacist a in
  let startTime := Assignment.startTime a in
  let endTime := Assignment.endTime a in
  let actualStartTime := startTime in
  let shiftHours := calculateShiftHours startTime endTime in
  let adjusted : option (string * Qc) :=
    if bool_decide (shiftHours < Js.ofZ 2)%Qc then
      let startMinutes := timeToMinutes startTime in
      let minEndMinutes := startMinutes + 2 * 60 in
      let closingMinutes := timeToMinutes (PharmacyRules.closingTime rules) in
      if bool_decide (minEndMinutes <= closingMinutes) then
        Some (minutesToTime minEndMinutes, Js.ofZ 2)
      else
        let openingMinutes := timeToMinutes (PharmacyRules.openingTime rules) in
        let minEndFromOpening := openingMinutes + 2 * 60 in
        if bool_decide (minEndFromOpening <= closingMinutes) then
          Some (minutesToTime minEndFromOpening, Js.ofZ 2)
        else None
    else Some (endTime, shiftHours) in
  match adjusted with
  | Some (actualEndTime, shiftHours') =>
      Some ([mkShift pharmacist dateStr actualStartTime actualEndTime morning
               (Assignment.patternId a)],
            shiftHours')
  | None => None
  end.

(** Branch [shiftType === 'afternoon']. *)
Definition synthAfternoon (rules : PharmacyRules.t) (dateStr : Z) (a : Assignment.t)
    : option (list Shift.t * Qc) :=
  let pharmacist := Assignment.pharmacist a in
  let startTime := Assignment.startTime a in
  let endTime := Assignment.endTime a in
  let shiftHours := calculateShiftHours startTime endTime in
  let adjusted : option (string * string * Qc) :=
    if bool_decide (shiftHours < Js.ofZ 2)%Qc then
      let startMinutes := timeToMinutes startTime in
      let minEndMinutes := startMinutes + 2 * 60 in
      let closingMinutes := timeToMinutes (PharmacyRules.closingTime rules) in
      if bool_decide (minEndMinutes <= closingMinutes) then
        Some (startTime, minutesToTime minEndMinutes, Js.ofZ 2)
      else
        let minStartMinutes := closingMinutes - 2 * 60 in
        let breakEndMinutes := timeToMinutes (PharmacyRules.breakEndTime rules) in
        if bool_decide (minStartMinutes >= breakEndMinutes) then
          Some (minutesToTime minStartMinutes, PharmacyRules.closingTime rules, Js.ofZ 2)
        else None
    else Some (startTime, endTime, shiftHours) in
  match adjusted with
  | Some (actualStartTime, actualEndTime, shiftHours') =>
      Some ([mkShift pharmacist dateStr actualStartTime actualEndTime afternoon
               (Assignment.patternId a)],
            shiftHours')
  | None => None
  end.

(** Branch [shiftType === 'full']: the day is split at the pharmacy break. *)
Definition synthFull (rules : PharmacyRules.t) (dateStr : Z) (a : Assignment.t)
    : list Shift.t * Qc :=
  let pharmacist := Assignment.pharmacist a in
  let startTime := Assignment.startTime a in
  let endTime := Assignment.endTime a in
  let patternId := Assignment.patternId a in
  let morningStart := timeToMinutes startTime in
  let morningEnd := timeToMinutes (PharmacyRules.breakStartTime rules) in
  let morningHours := (Js.ofZ (morningEnd - morningStart) / Js.ofZ 60)%Qc in
  let afternoonStart := timeToMinutes (PharmacyRules.breakEndTime rules) in
  let afternoonEnd := timeToMinutes endTime in
  let afternoonHours := (Js.ofZ (afternoonEnd - afternoonStart) / Js.ofZ 60)%Qc in
  let isPartTime := bool_decide (Pharmacist.weeklyHours pharmacist < Js.ofZ 40)%Qc in
  let morningShift :=
    mkShift pharmacist dateStr startTime (PharmacyRules.breakStartTime rules) morning patternId in
  let afternoonShift :=
    mkShift pharmacist dateStr (PharmacyRules.breakEndTime rules) endTime afternoon patternId in
  let '(shifts1, total1) :=
    if bool_decide (Js.ofZ 2 <= morningHours)%Qc then ([morningShift], morningHours)
    else if isPartTime && bool_decide (0 < morningHours)%Qc
         then ([morningShift], Js.max (Js.ofZ 2) morningHours)
         else ([], 0%Qc) in
  let '(shifts2, total2) :=
    if bool_decide (Js.ofZ 2 <= afternoonHours)%Qc
    then (shifts1 ++ [afternoonShift], (total1 + afternoonHours)%Qc)
    else if isPartTime && bool_decide (0 < afternoonHours)%Qc
         then (shifts1 ++ [afternoonShift], (total1 + Js.max (Js.ofZ 2) afternoonHours)%Qc)
         else (shifts1, total1) in
  if isPartTime && bool_decide (total2 = 0%Qc) then
    let openingMinutes := timeToMinutes (PharmacyRules.openingTime rules) in
    let minEndMinutes := openingMinutes + 2 * 60 in
    let closingMinutes := timeToMinutes (PharmacyRules.closingTime rules) in
    if bool_decide (minEndMinutes <= closingMinutes)
    then (shifts2 ++ [mkShift pharmacist dateStr (PharmacyRules.openingTime rules)
                        (minutesToTime minEndMinutes) morning patternId],
          Js.ofZ 2)
    else (shifts2, total2)
  else (shifts2, total2).

(** The shifts created for one assignment and the hours counted for them
    ([totalShiftHours]). *)
Definition synthesize (rules : PharmacyRules.t) (dateStr : Z) (a : Assignment.t)
    : option (list Shift.t * Qc) :=
  match Assignment.shiftType a with
  | morning => synthMorning rules dateStr a
  | afternoon => synthAfternoon rules dateStr a
  | full => Some (synthFull rules dateStr a)
  end.

(** Body of [shiftAssignments.forEach]: push the shifts, then deduct the
    hours of the shifts actually created from [weeklyHours]. *)
Definition synthStep (rules : PharmacyRules.t) (dateStr : Z)
    (st : list Shift.t * gmap string Qc) (a : Assignment.t) : list Shift.t * gmap string Qc :=
  let '(shifts, weeklyHours) := st in
  match synthesize rules dateStr a with
  | Some (created, totalShiftHours) =>
      (shifts ++ created,
       if bool_decide (0 < totalShiftHours)%Qc
       then alter (fun h => (h - totalShiftHours)%Qc)
              (Pharmacist.id (Assignment.pharmacist a)) weeklyHours
       else weeklyHours)
  | None => (shifts, weeklyHours)
  end.

(** [generateDayShifts] after [createShiftAssignments] has returned
    [shiftAssignments]. *)
Definition generateDayShifts (rules : PharmacyRules.t) (dateStr : Z)
    (shiftAssignments : list Assignment.t) (weeklyHours : gmap string Qc)
    : list Shift.t * gmap string Qc :=
  foldl (synthStep rules dateStr) ([], weeklyHours) shiftAssignments.

(** ** Part-time allocator: the daily hour target
    ([createShiftAssignments], part-time loop) *)

(** [pharmacist.freeDay || pharmacist.fixedDayPatterns?.some(p => p.patternId === 'FREE_DAY')]
    used as a condition: a non-empty [freeDay] string is truthy. *)
Definition hasFreeDay (pharmacist : Pharmacist.t) : bool :=
  if bool_decide (Pharmacist.freeDay pharmacist ≠ "") then true
  else
    match Pharmacist.fixedDayPatterns pharmacist with
    | Some fixedDayPatterns =>
        existsb (fun p => bool_decide (FixedDayPattern.patternId p = "FREE_DAY")) fixedDayPatterns
    | None => false
    end.

Definition workingDaysPerWeek (pharmacist : Pharmacist.t) : Z :=
  if hasFreeDay pharmacist then 5 else 6.

Definition isPartTime (pharmacist : Pharmacist.t) : bool :=
  bool_decide (Pharmacist.weeklyHours pharmacist < Js.ofZ 40)%Qc.

Definition isFullTime (pharmacist : Pharmacist.t) : bool :=
  bool_decide (Js.ofZ 40 <= Pharmacist.weeklyHours pharmacist)%Qc.

(** The [partTimeWorkingDaysRemaining] ledger as
    [generateWeekScheduleWithRotation] creates it. *)
Definition initialWorkingDaysRemaining (pharmacists : list Pharmacist.t) : gmap string Z :=
  foldl (fun acc pharmacist =>
           <[ Pharmacist.id pharmacist := workingDaysPerWeek pharmacist ]> acc)
        ∅ (filter (fun p => isPartTime p = true) pharmacists).

(** The [weeklyHours] ledger as [generateWeekScheduleWithRotation] creates it. *)
Definition initialWeeklyHours (pharmacists : list Pharmacist.t) : gmap string Qc :=
  foldl (fun acc pharmacist =>
           <[ Pharmacist.id pharmacist := Pharmacist.weeklyHours pharmacist ]> acc)
        ∅ pharmacists.

(** [hoursToAssignToday] as computed from the four numbers it depends on,
    including the final "ensure minimum assignment" guard. *)
Definition hoursToAssign (weeklyHoursTotal : Qc) (workingDaysPerWeek : Z)
    (remainingHours : Qc) (remainingWorkingDays : Z) : Qc :=
  let dailyHoursTarget := (weeklyHoursTotal / Js.ofZ workingDaysPerWeek)%Qc in
  let hoursToAssignToday :=
    if bool_decide (remainingWorkingDays = 1) then remainingHours
    else
      let hoursNeededForRemainingDays :=
        (dailyHoursTarget * Js.ofZ (remainingWorkingDays - 1))%Qc in
      if bool_decide (hoursNeededForRemainingDays + dailyHoursTarget <= remainingHours)%Qc
      then dailyHoursTarget
      else if bool_decide (hoursNeededForRemainingDays < remainingHours)%Qc
      then (remainingHours - hoursNeededForRemainingDays)%Qc
      else Js.max (Q2Qc (1 # 2)) (remainingHours / Js.ofZ remainingWorkingDays)%Qc in
  if bool_decide (hoursToAssignToday < Q2Qc (1 # 10))%Qc then Q2Qc (1 # 2)
  else hoursToAssignToday.

(** The same for a pharmacist and the two ledgers:
    [weeklyHours[pharmacist.id] ?? pharmacist.weeklyHours] and
    [partTimeWorkingDaysRemaining?.[pharmacist.id] ?? workingDaysPerWeek]. *)
Definition hoursToAssignToday (pharmacist : Pharmacist.t) (weeklyHours : gmap string Qc)
    (partTimeWorkingDaysRemaining : option (gmap string Z)) : Qc :=
  let remainingHours :=
    default (Pharmacist.weeklyHours pharmacist) (weeklyHours !! Pharmacist.id pharmacist) in
  let remainingWorkingDays :=
    default (workingDaysPerWeek pharmacist)
      (partTimeWorkingDaysRemaining ≫= fun ledger => ledger !! Pharmacist.id pharmacist) in
  hoursToAssign (Pharmacist.weeklyHours pharmacist) (workingDaysPerWeek pharmacist)
    remainingHours remainingWorkingDays.

(** ** Pattern assigner: choice under unmet requirements
    ([createShiftAssignments], full-time loop) *)

Definition requirementKey (req : StaffingRequirement.t) : string :=
  StaffingRequirement.startTime req +:+ "-" +:+ StaffingRequirement.endTime req.

(** [createCoverageTracker]. *)
Definition createCoverageTracker (rules : PharmacyRules.t) : gmap string Qc :=
  foldl (fun tracker req => <[ requirementKey req := 0%Qc ]> tracker)
        ∅ (PharmacyRules.staffingRequirements rules).

(** Minutes of [sub] that fall inside the requirement window, when the
    overlap is not empty. *)
Definition overlapMinutes (sub : SubShift.t) (req : StaffingRequirement.t) : option Z :=
  let reqStart := timeToMinutes (StaffingRequirement.startTime req) in
  let reqEnd := timeToMinutes (StaffingRequirement.endTime req) in
  let overlapStart := Z.max (timeToMinutes (SubShift.startTime sub)) reqStart in
  let overlapEnd := Z.min (timeToMinutes (SubShift.endTime sub)) reqEnd in
  if bool_decide (overlapStart < overlapEnd) then Some (overlapEnd - overlapStart) else None.

(** [updateCoverageTracker]: per requirement, the fraction of its window
    covered by the morning and by the afternoon sub-shift is added. *)
Definition updateCoverageTracker (rules : PharmacyRules.t) (coverageTracker : gmap string Qc)
    (pattern : FixedShiftPattern.t) : gmap string Qc :=
  foldl (fun tracker req =>
           let key := requirementKey req in
           let reqStart := timeToMinutes (StaffingRequirement.startTime req) in
           let reqEnd := timeToMinutes (StaffingRequirement.endTime req) in
           let add (sub : SubShift.t) (t : gmap string Qc) : gmap string Qc :=
             match overlapMinutes sub req with
             | Some overlap =>
                 alter (fun c => c + (Js.ofZ overlap / Js.ofZ (reqEnd - reqStart))
                                      * Js.ofZ 100 / Js.ofZ 100)%Qc key t
             | None => t
             end in
           add (FixedShiftPattern.afternoonShift pattern)
             (add (FixedShiftPattern.morningShift pattern) tracker))
        coverageTracker (PharmacyRules.staffingRequirements rules).

(** [coverageTracker[key] < req.requiredPharmacists]. *)
Definition isUnmet (coverageTracker : gmap string Qc) (req : StaffingRequirement.t) : bool :=
  match coverageTracker !! requirementKey req with
  | Some c => bool_decide (c < Js.ofZ (StaffingRequirement.requiredPharmacists req))%Qc
  | None => false
  end.

(** [unmetRequirements]. *)
Definition unmetRequirements (rules : PharmacyRules.t) (coverageTracker : gmap string Qc)
    : list StaffingRequirement.t :=
  filter (fun req => isUnmet coverageTracker req = true)
         (PharmacyRules.staffingRequirements rules).

(** [patternHelpsWithRequirement]: a sub-shift overlaps the window. *)
Definition patternHelpsWithRequirement (pattern : FixedShiftPattern.t)
    (requirement : StaffingRequirement.t) : bool :=
  let reqStart := timeToMinutes (StaffingRequirement.startTime requirement) in
  let reqEnd := timeToMinutes (StaffingRequirement.endTime requirement) in
  let morningStart := timeToMinutes (SubShift.startTime (FixedShiftPattern.morningShift pattern)) in
  let morningEnd := timeToMinutes (SubShift.endTime (FixedShiftPattern.morningShift pattern)) in
  let morningHelps := bool_decide (morningStart < reqEnd ∧ morningEnd > reqStart) in
  let afternoonStart := timeToMinutes (SubShift.startTime (FixedShiftPattern.afternoonShift pattern)) in
  let afternoonEnd := timeToMinutes (SubShift.endTime (FixedShiftPattern.afternoonShift pattern)) in
  let afternoonHelps := bool_decide (afternoonStart < reqEnd ∧ afternoonEnd > reqStart) in
  morningHelps || afternoonHelps.

(** [calculatePatternCoveragePercentage]: the covered share of the window
    in percent, rounded ([0 / 0] is [NaN] in the source and [0] here). *)
Definition calculatePatternCoveragePercentage (pattern : FixedShiftPattern.t)
    (requirement : StaffingRequirement.t) : Z :=
  let reqStart := timeToMinutes (StaffingRequirement.startTime requirement) in
  let reqEnd := timeToMinutes (StaffingRequirement.endTime requirement) in
  let reqDuration := reqEnd - reqStart in
  let totalCoverage :=
    default 0 (overlapMinutes (FixedShiftPattern.morningShift pattern) requirement)
    + default 0 (overlapMinutes (FixedShiftPattern.afternoonShift pattern) requirement) in
  Js.round ((Js.ofZ totalCoverage / Js.ofZ reqDuration) * Js.ofZ 100)%Qc.

(** [Math.max(...patternUsageCount)] for a non-empty array of counts. *)
Definition maxUsage (patternUsageCount : list Z) : Z :=
  match patternUsageCount with
  | [] => 0
  | c :: rest => foldl Z.max c rest
  end.

(** The score of [testPattern] (at position [testIndex]): rounded coverage
    percentages over the unmet requirements it helps with, plus the
    balance bonus. *)
Definition patternScore (unmet : list StaffingRequirement.t) (patternUsageCount : list Z)
    (testPattern : FixedShiftPattern.t) (testIndex : nat) : Z :=
  let score :=
    foldl (fun score req =>
             if patternHelpsWithRequirement testPattern req
             then score + calculatePatternCoveragePercentage testPattern req
             else score)
          0 unmet in
  let usageCount := default 0 (patternUsageCount !! testIndex) in
  let balanceBonus := (maxUsage patternUsageCount - usageCount) * 10 in
  score + balanceBonus.

(** State of [patterns.forEach((testPattern, testIndex) => ...)]:
    [bestPattern], [bestScore] and [patternIndex]. *)
Definition bestChoice : Type := FixedShiftPattern.t * Z * nat.

Definition scoreStep (unmet : list StaffingRequirement.t) (patternUsageCount : list Z)
    (st : bestChoice) (indexed : nat * FixedShiftPattern.t) : bestChoice :=
  let '(bestPattern, bestScore, patternIndex) := st in
  let '(testIndex, testPattern) := indexed in
  let score := patternScore unmet patternUsageCount testPattern testIndex in
  if bool_decide (score > bestScore) then (testPattern, score, testIndex) else st.

(** The branch [if (unmetRequirements.length > 0)]: starting from the
    rotation's [pattern = patterns[patternIndex]] with [bestScore = 0]. *)
Definition choosePatternForUnmet (patterns : list FixedShiftPattern.t)
    (unmet : list StaffingRequirement.t) (patternUsageCount : list Z)
    (pattern : FixedShiftPattern.t) (patternIndex : nat) : bestChoice :=
  foldl (scoreStep unmet patternUsageCount) (pattern, 0, patternIndex)
        (imap (fun i p => (i, p)) patterns).

(** ** Day orchestrator of the rotation path ([getAvailablePharmacists]) *)

Definition dayOrder : list string :=
  ["Monday"; "Tuesday"; "Wednesday"; "Thursday"; "Friday"; "Saturday"; "Sunday"].

(** [array.indexOf(x)], [-1] when absent. *)
Definition indexOf (x : string) (l : list string) : Z :=
  match list_find (fun y => y = x) l with
  | Some (i, _) => Z.of_nat i
  | None => -1
  end.

(** [a.freeDay || a.fixedDayPatterns?.find(p => p.patternId === 'FREE_DAY')?.dayOfWeek || 'Monday']. *)
Definition freeDayForSort (pharmacist : Pharmacist.t) : string :=
  if bool_decide (Pharmacist.freeDay pharmacist ≠ "") then Pharmacist.freeDay pharmacist
  else
    match Pharmacist.fixedDayPatterns pharmacist
          ≫= list_find (fun p => FixedDayPattern.patternId p = "FREE_DAY") with
    | Some (_, p) =>
        if bool_decide (FixedDayPattern.dayOfWeek p ≠ "") then FixedDayPattern.dayOfWeek p
        else "Monday"
    | None => "Monday"
    end.

Definition freeDayDistance (dayName : string) (pharmacist : Pharmacist.t) : Z :=
  Z.abs (indexOf (freeDayForSort pharmacist) dayOrder - indexOf dayName dayOrder).

(** The filter callback of [getAvailablePharmacists]. *)
Definition availableInRotation (dayName : string) (weekNumber : Z)
    (weeklyHours : gmap string Qc) (pharmacist : Pharmacist.t) : bool :=
  if isFreeDay pharmacist dayName then false
  else if saturdayOff pharmacist dayName weekNumber then false
  else if isFullTime pharmacist then
    let hoursLeft := default 0%Qc (weeklyHours !! Pharmacist.id pharmacist) in
    let daysWorked :=
      Js.floor ((Pharmacist.weeklyHours pharmacist - hoursLeft) / Js.ofZ 8)%Qc in
    let daysLeft := 5 - daysWorked in
    if bool_decide (daysLeft <= 0) then false
    else if bool_decide (hoursLeft < Js.ofZ 8)%Qc then false
    else true
  else true.

(** [Array.prototype.sort] (stable) with the comparator
    [bDistance - aDistance]: larger distances first. *)
Fixpoint insertByDistance (dayName : string) (x : Pharmacist.t) (l : list Pharmacist.t)
    : list Pharmacist.t :=
  match l with
  | [] => [x]
  | y :: rest =>
      if bool_decide (freeDayDistance dayName y <= freeDayDistance dayName x)
      then x :: y :: rest
      else y :: insertByDistance dayName x rest
  end.

Definition sortByDistance (dayName : string) (l : list Pharmacist.t) : list Pharmacist.t :=
  foldr (insertByDistance dayName) [] l.

Definition getAvailablePharmacists (g : ScheduleGenerator.t) (dayName : string)
    (weekNumber : Z) (weeklyHours : gmap string Qc) : list Pharmacist.t :=
  sortByDistance dayName
    (filter (fun p => availableInRotation dayName weekNumber weeklyHours p = true)
            (ScheduleGenerator.pharmacists g)).

(** ** Rotation week and warning resolver
    ([generateWeekScheduleWithRotation], [tryResolveWarnings]) *)

Module TrackerEntry.
Record t := mk {
  pharmacist : Pharmacist.t;
  patternIndex : nat;
  dailyPatterns : list string }.
End TrackerEntry.

(** What [createShiftAssignments] is given and what it leaves behind: it
    reads the rules, the available pharmacists, the day and the
    [weeklyHours] ledger, and updates the rotation tracker and the
    [partTimeWorkingDaysRemaining] ledger in place. *)
Definition assignmentStrategy : Type :=
  PharmacyRules.t → list Pharmacist.t → gmap string TrackerEntry.t → nat → string →
  gmap string Qc → gmap string Z →
  list Assignment.t * gmap string TrackerEntry.t * gmap string Z.

Module WeekState.
Record t := mk {
  shifts : list Shift.t;
  weeklyHours : gmap string Qc;
  patternRotationTracker : gmap string TrackerEntry.t;
  partTimeWorkingDaysRemaining : gmap string Z }.
End WeekState.

(** One iteration of the day loop of [generateWeekScheduleWithRotation]. *)
Definition rotationDay (createShiftAssignments : assignmentStrategy)
    (g : ScheduleGenerator.t) (weekStart weekNumber : Z)
    (st : WeekState.t) (dayIndex : nat) : WeekState.t :=
  let dayName := dayNameOf dayIndex in
  let availablePharmacists :=
    getAvailablePharmacists g dayName weekNumber (WeekState.weeklyHours st) in
  if bool_decide (length availablePharmacists < 3)%nat then st
  else
    let '(shiftAssignments, tracker, daysRemaining) :=
      createShiftAssignments (ScheduleGenerator.pharmacyRules g) availablePharmacists
        (WeekState.patternRotationTracker st) dayIndex dayName
        (WeekState.weeklyHours st) (WeekState.partTimeWorkingDaysRemaining st) in
    let '(dayShifts, weeklyHours) :=
      generateDayShifts (ScheduleGenerator.pharmacyRules g) (dateOfDay weekStart dayIndex)
        shiftAssignments (WeekState.weeklyHours st) in
    WeekState.mk (WeekState.shifts st ++ dayShifts) weeklyHours tracker daysRemaining.

Definition generateWeekScheduleWithRotation (createShiftAssignments : assignmentStrategy)
    (g : ScheduleGenerator.t) (weekStart weekNumber : Z)
    (patternRotationTracker : gmap string TrackerEntry.t) : Schedule.t :=
  let initial :=
    WeekState.mk [] (initialWeeklyHours (ScheduleGenerator.pharmacists g))
      patternRotationTracker
      (initialWorkingDaysRemaining (ScheduleGenerator.pharmacists g)) in
  let final :=
    foldl (rotationDay createShiftAssignments g weekStart weekNumber) initial
          (seq 0 (length workdays)) in
  Schedule.mk weekStart (WeekState.shifts final) None.

(** [pharmacist.id.split('').reduce((h, c) => h + c.charCodeAt(0), 0)]. *)
Fixpoint charCodeSum (s : string) : nat :=
  match s with
  | EmptyString => 0%nat
  | String c rest => (nat_of_ascii c + charCodeSum rest)%nat
  end.

Definition isReassignable (pharmacist : Pharmacist.t) : bool :=
  match Pharmacist.fixedDayPatterns pharmacist with
  | None => true
  | Some l => bool_decide (length l = 0%nat)
  end.

(** The rotation tracker built for attempt number [attempt]. *)
Definition rotationTrackerFor (pharmacists reassignablePharmacists : list Pharmacist.t)
    (patternCount attempt : nat) : gmap string TrackerEntry.t :=
  foldl (fun acc pharmacist =>
           let found :=
             list_find (fun p => Pharmacist.id p = Pharmacist.id pharmacist)
                       reassignablePharmacists in
           let startIndex :=
             match found with
             | Some (pharmacistIndex, _) =>
                 let patternOffset :=
                   ((attempt / length reassignablePharmacists) mod patternCount)%nat in
                 ((pharmacistIndex + patternOffset + attempt) mod patternCount)%nat
             | None => (charCodeSum (Pharmacist.id pharmacist) mod patternCount)%nat
             end in
           <[ Pharmacist.id pharmacist := TrackerEntry.mk pharmacist startIndex [] ]> acc)
        ∅ pharmacists.

(** The attempt loop: [attempts] are the attempt numbers still to try,
    [bestSchedule] / [bestWarningCount] the best candidate so far. *)
Fixpoint resolveLoop (test : nat → Schedule.t) (count : Schedule.t → nat)
    (attempts : list nat) (bestSchedule : option Schedule.t) (bestWarningCount : nat)
    : option Schedule.t * nat :=
  match attempts with
  | [] => (bestSchedule, bestWarningCount)
  | attempt :: rest =>
      let testSchedule := test attempt in
      let testWarningCount := count testSchedule in
      if bool_decide (testWarningCount < bestWarningCount)%nat then
        if bool_decide (testWarningCount = 0%nat) then (Some testSchedule, testWarningCount)
        else resolveLoop test count rest (Some testSchedule) testWarningCount
      else resolveLoop test count rest bestSchedule bestWarningCount
  end.

(** [tryResolveWarnings]; [None] is [null]. *)
Definition tryResolveWarnings (createShiftAssignments : assignmentStrategy)
    (g : ScheduleGenerator.t) (weekStart weekNumber : Z)
    (originalSchedule : Schedule.t) (originalWarnings : gmap Z (list string))
    : option Schedule.t :=
  match PharmacyRules.fixedShiftPatterns (ScheduleGenerator.pharmacyRules g) with
  | None => None
  | Some patterns =>
      if bool_decide (length patterns = 0%nat) then None
      else
        let originalWarningCount := warningCount originalWarnings in
        let reassignablePharmacists :=
          filter (fun p => isReassignable p = true) (ScheduleGenerator.pharmacists g) in
        let maxAttempts :=
          Nat.min (length patterns * length reassignablePharmacists * 2) 50 in
        let test attempt :=
          generateWeekScheduleWithRotation createShiftAssignments g weekStart weekNumber
            (rotationTrackerFor (ScheduleGenerator.pharmacists g) reassignablePharmacists
               (length patterns) attempt) in
        let count s :=
          warningCount (validateSchedule (ScheduleGenerator.pharmacyRules g)
                          (ScheduleGenerator.pharmacists g) s) in
        fst (resolveLoop test count (seq 0 maxAttempts) None originalWarningCount)
  end.

Definition withWarnings (schedule : Schedule.t) (warnings : gmap Z (list string)) : Schedule.t :=
  Schedule.mk (Schedule.weekStart schedule) (Schedule.shifts schedule) (Some warnings).

(** Body of the week loop of [generateSchedule] once [generateWeekSchedule]
    has returned [schedule]: validate, try to resolve, re-validate, store. *)
Definition finishWeek (createShiftAssignments : assignmentStrategy)
    (g : ScheduleGenerator.t) (weekStart weekNumber : Z) (schedule : Schedule.t) : Schedule.t :=
  let validate :=
    validateSchedule (ScheduleGenerator.pharmacyRules g) (ScheduleGenerator.pharmacists g) in
  let warnings := validate schedule in
  if hasWarnings warnings then
    match tryResolveWarnings createShiftAssignments g weekStart weekNumber schedule warnings with
    | Some bestSchedule => withWarnings bestSchedule (validate bestSchedule)
    | None => withWarnings schedule warnings
    end
  else withWarnings schedule warnings.

(** ** Break adaptation ([adaptBreakDuration]) *)

Definition setBreakEndTime (rules : PharmacyRules.t) (breakEndTime : string) : PharmacyRules.t :=
  PharmacyRules.mk (PharmacyRules.id rules) (PharmacyRules.name rules)
    (PharmacyRules.openingTime rules) (PharmacyRules.closingTime rules)
    (PharmacyRules.breakStartTime rules) breakEndTime
    (PharmacyRules.maxHoursPerShift rules) (PharmacyRules.maxHoursPerDay rules)
    (PharmacyRules.fixedShiftPatterns rules) (PharmacyRules.staffingRequirements rules).

(** [date.toTimeString().slice(0, 5)] for the time [minutes] after the
    midnight of 2000-01-01: the clock wraps at 24 hours. *)
Definition clockTime (minutes : Z) : string := minutesToTime (minutes mod 1440).

(** [adaptBreakDuration] writes [this.pharmacyRules.breakEndTime]; the
    result is the rules object after the call. *)
Definition adaptBreakDuration (rules : PharmacyRules.t) : PharmacyRules.t :=
  let breakStart := timeToMinutes (PharmacyRules.breakStartTime rules) in
  let breakDurationHours :=
    calculateShiftHours (PharmacyRules.breakStartTime rules) (PharmacyRules.breakEndTime rules) in
  if bool_decide (breakDurationHours < Q2Qc (1 # 2))%Qc then
    setBreakEndTime rules (clockTime (breakStart + 30))
  else if bool_decide (Q2Qc (5 # 2) < breakDurationHours)%Qc then
    setBreakEndTime rules (clockTime (breakStart + 150))
  else rules.

(** ** First-pass week generation ([generateWeekSchedule]) *)

(** What the first pass takes from outside the arithmetic modelled here:
    - the two shuffles [[...xs].sort(() => Math.random() - 0.5)] of each
      retry of each day (arguments: day index, retry number);
    - the start and end times that [adjustPartTimeShiftsForWarnings] and
      [adjustPartTimeHours] write into the shift objects they are given
      (argument: position of the shift in the array).  Both passes only
      assign [startTime] / [endTime] of existing shifts and return a copy
      of the array; the second one computes with fractional minutes. *)
Module Oracle.
Record t := mk {
  shufflePharmacists : nat → nat → list Pharmacist.t → list Pharmacist.t;
  shufflePatterns : nat → nat → list FixedShiftPattern.t → list FixedShiftPattern.t;
  timesForWarnings : list Shift.t → Z → list string → nat → string * string;
  timesForHours : list Shift.t → Z → nat → string * string }.
End Oracle.

Definition setTimes (shift : Shift.t) (times : string * string) : Shift.t :=
  Shift.mk (Shift.pharmacistId shift) (Shift.date shift) times.1 times.2
    (Shift.type shift) (Shift.isBreakTime shift) (Shift.patternId shift).

Definition adjustPartTimeShiftsForWarnings (o : Oracle.t) (dayShifts : list Shift.t)
    (dateStr : Z) (warnings : list string) : list Shift.t :=
  imap (fun i shift => setTimes shift (Oracle.timesForWarnings o dayShifts dateStr warnings i))
       dayShifts.

Definition adjustPartTimeHours (o : Oracle.t) (shifts : list Shift.t) (weekStart : Z)
    : list Shift.t :=
  imap (fun i shift => setTimes shift (Oracle.timesForHours o shifts weekStart i)) shifts.

(** The filter of step 1: active, not on a free day, not on Saturday
    rotation. *)
Definition availableOn (g : ScheduleGenerator.t) (dayName : string) (weekNumber : Z)
    : list Pharmacist.t :=
  filter (fun ph =>
            (if negb (Pharmacist.isActive ph) then false
             else if isFreeDay ph dayName then false
             else if saturdayOff ph dayName weekNumber then false
             else true) = true)
         (ScheduleGenerator.pharmacists g).

(** [patternUsage[ph]?.[pattern] || 0] and [patternUsage[ph][pattern] = v]. *)
Definition usageOf (patternUsage : gmap string (gmap string Z)) (ph pattern : string) : Z :=
  default 0 (patternUsage !! ph ≫= fun perPattern => perPattern !! pattern).

Definition setUsage (patternUsage : gmap string (gmap string Z)) (ph pattern : string) (v : Z)
    : gmap string (gmap string Z) :=
  <[ ph := <[ pattern := v ]> (default ∅ (patternUsage !! ph)) ]> patternUsage.

Definition initialPatternUsage (g : ScheduleGenerator.t) : gmap string (gmap string Z) :=
  foldl (fun acc pharmacist =>
           <[ Pharmacist.id pharmacist :=
                foldl (fun perPattern pattern =>
                         <[ FixedShiftPattern.id pattern := 0 ]> perPattern)
                      ∅
                      (default [] (PharmacyRules.fixedShiftPatterns
                                     (ScheduleGenerator.pharmacyRules g))) ]> acc)
        ∅ (ScheduleGenerator.pharmacists g).

(** The morning and afternoon shift literals created for a pattern. *)
Definition patternShifts (dateStr : Z) (ph : Pharmacist.t) (pattern : FixedShiftPattern.t)
    : list Shift.t :=
  [ mkShift ph dateStr
      (SubShift.startTime (FixedShiftPattern.morningShift pattern))
      (SubShift.endTime (FixedShiftPattern.morningShift pattern))
      morning (Some (FixedShiftPattern.id pattern));
    mkShift ph dateStr
      (SubShift.startTime (FixedShiftPattern.afternoonShift pattern))
      (SubShift.endTime (FixedShiftPattern.afternoonShift pattern))
      afternoon (Some (FixedShiftPattern.id pattern)) ].

(** Step 2: split the available pharmacists into those with a usable fixed
    pattern for the day and the remaining ones. *)
Definition fixedPatternFor (rules : PharmacyRules.t) (dayName : string) (ph : Pharmacist.t)
    : option FixedShiftPattern.t :=
  match Pharmacist.fixedDayPatterns ph
        ≫= list_find (fun p => FixedDayPattern.dayOfWeek p = dayName) with
  | Some (_, fixedPattern) =>
      if bool_decide (FixedDayPattern.patternId fixedPattern ≠ "FREE_DAY") then
        snd <$> (PharmacyRules.fixedShiftPatterns rules
                 ≫= list_find (fun p => FixedShiftPattern.id p
                                          = FixedDayPattern.patternId fixedPattern))
      else None
  | None => None
  end.

Definition fixedAssignmentsOf (rules : PharmacyRules.t) (dayName : string)
    (availablePharmacists : list Pharmacist.t) : list (Pharmacist.t * FixedShiftPattern.t) :=
  omap (fun ph => (fun pattern => (ph, pattern)) <$> fixedPatternFor rules dayName ph)
       availablePharmacists.

Definition remainingPharmacistsOf (rules : PharmacyRules.t) (dayName : string)
    (availablePharmacists : list Pharmacist.t) : list Pharmacist.t :=
  filter (fun ph => fixedPatternFor rules dayName ph = None) availablePharmacists.

(** The pattern given to [ph] in one retry: the first shuffled pattern used
    fewer than twice by [ph], else the least used one ([reduce] keeps the
    earlier pattern on ties).  [None] only for an empty pattern array. *)
Definition leastUsed (patternUsage : gmap string (gmap string Z)) (ph : Pharmacist.t)
    (shuffledPatterns : list FixedShiftPattern.t) : option FixedShiftPattern.t :=
  match shuffledPatterns with
  | [] => None
  | first :: rest =>
      Some (foldl (fun min p =>
                     let minCount := usageOf patternUsage (Pharmacist.id ph)
                                       (FixedShiftPattern.id min) in
                     let pCount := usageOf patternUsage (Pharmacist.id ph)
                                     (FixedShiftPattern.id p) in
                     if bool_decide (pCount < minCount) then p else min)
                  first rest)
  end.

Definition assignedPatternFor (patternUsage : gmap string (gmap string Z)) (ph : Pharmacist.t)
    (shuffledPatterns : list FixedShiftPattern.t) : option FixedShiftPattern.t :=
  match list_find (fun pattern =>
                     usageOf patternUsage (Pharmacist.id ph) (FixedShiftPattern.id pattern) < 2)
                  shuffledPatterns with
  | Some (_, pattern) => Some pattern
  | None => leastUsed patternUsage ph shuffledPatterns
  end.

(** State of one retry: the day's shifts so far and the usage counters. *)
Definition retryState : Type := list Shift.t * gmap string (gmap string Z).

Definition pushPattern (dateStr : Z) (st : retryState) (ph : Pharmacist.t)
    (pattern : FixedShiftPattern.t) : retryState :=
  let '(dayShifts, patternUsage) := st in
  (dayShifts ++ patternShifts dateStr ph pattern,
   setUsage patternUsage (Pharmacist.id ph) (FixedShiftPattern.id pattern)
     (usageOf patternUsage (Pharmacist.id ph) (FixedShiftPattern.id pattern) + 1)).

(** The shifts of one retry: the shuffled remaining pharmacists first, the
    fixed assignments after them. *)
Definition retryShifts (dateStr : Z) (patternUsage : gmap string (gmap string Z))
    (shuffledPharmacists : list Pharmacist.t) (shuffledPatterns : list FixedShiftPattern.t)
    (fixedAssignments : list (Pharmacist.t * FixedShiftPattern.t)) : retryState :=
  let afterRemaining :=
    foldl (fun st ph =>
             match assignedPatternFor st.2 ph shuffledPatterns with
             | Some pattern => pushPattern dateStr st ph pattern
             | None => st
             end)
          ([], patternUsage) shuffledPharmacists in
  foldl (fun st fa => pushPattern dateStr st fa.1 fa.2) afterRemaining fixedAssignments.

(** "Reset pattern usage for remaining pharmacists in this retry". *)
Definition resetUsage (shifts : list Shift.t) (patterns : list FixedShiftPattern.t)
    (remainingPharmacists : list Pharmacist.t)
    (fixedAssignments : list (Pharmacist.t * FixedShiftPattern.t))
    (patternUsage : gmap string (gmap string Z)) : gmap string (gmap string Z) :=
  foldl (fun usage ph =>
           foldl (fun usage pattern =>
                    let hasFixed :=
                      existsb (fun fa => bool_decide (Pharmacist.id fa.1 = Pharmacist.id ph))
                              fixedAssignments in
                    if hasFixed then usage
                    else
                      let previousCount :=
                        length (filter (fun s => Shift.pharmacistId s = Pharmacist.id ph
                                                 ∧ Shift.patternId s
                                                   = Some (FixedShiftPattern.id pattern))
                                       shifts) in
                      setUsage usage (Pharmacist.id ph) (FixedShiftPattern.id pattern)
                        (Z.of_nat previousCount))
                 usage patterns)
        patternUsage remainingPharmacists.

Module DayBest.
Record t := mk {
  bestDayShifts : list Shift.t;
  bestWarnings : list string;
  patternUsage : gmap string (gmap string Z) }.
End DayBest.

(** The retry loop [for (let retry = 0; retry < maxRetries; retry++)] of
    one day; [retries] are the retry numbers still to run. *)
Fixpoint retryLoop (o : Oracle.t) (g : ScheduleGenerator.t) (weekStart : Z) (dayIndex : nat)
    (shifts : list Shift.t) (patterns : list FixedShiftPattern.t)
    (remainingPharmacists : list Pharmacist.t)
    (fixedAssignments : list (Pharmacist.t * FixedShiftPattern.t))
    (retries : list nat) (best : DayBest.t) : DayBest.t :=
  match retries with
  | [] => best
  | retry :: rest =>
      let dateStr := dateOfDay weekStart dayIndex in
      let shuffledPharmacists := Oracle.shufflePharmacists o dayIndex retry remainingPharmacists in
      let shuffledPatterns := Oracle.shufflePatterns o dayIndex retry patterns in
      let '(dayShifts, usage) :=
        retryShifts dateStr (DayBest.patternUsage best) shuffledPharmacists shuffledPatterns
          fixedAssignments in
      let warnings :=
        validateShifts (ScheduleGenerator.pharmacyRules g) (ScheduleGenerator.pharmacists g)
          weekStart (shifts ++ dayShifts) in
      let dayWarnings := default [] (warnings !! dateStr) in
      if bool_decide (length dayWarnings = 0%nat) then
        DayBest.mk dayShifts (DayBest.bestWarnings best) usage
      else
        let kept :=
          if bool_decide (retry = 0%nat
                          ∨ (length dayWarnings < length (DayBest.bestWarnings best))%nat)
          then DayBest.mk dayShifts dayWarnings usage
          else DayBest.mk (DayBest.bestDayShifts best) (DayBest.bestWarnings best) usage in
        retryLoop o g weekStart dayIndex shifts patterns remainingPharmacists fixedAssignments
          rest
          (DayBest.mk (DayBest.bestDayShifts kept) (DayBest.bestWarnings kept)
             (resetUsage shifts patterns remainingPharmacists fixedAssignments usage))
  end.

(** "Update pattern usage for the selected assignment": one more use for
    every (pharmacist, pattern) pair that occurs in the day's shifts. *)
Definition countDayPatterns (bestDayShifts : list Shift.t)
    (patternUsage : gmap string (gmap string Z)) : gmap string (gmap string Z) :=
  let pairs :=
    remove_dups
      (omap (fun shift =>
               match Shift.patternId shift with
               | Some patternId =>
                   if bool_decide (patternId ≠ "")
                   then Some (Shift.pharmacistId shift, patternId) else None
               | None => None
               end)
            bestDayShifts) in
  foldl (fun usage pair => setUsage usage pair.1 pair.2 (usageOf usage pair.1 pair.2 + 1))
        patternUsage pairs.

(** One iteration of the day loop of [generateWeekSchedule]. *)
Definition firstPassDay (o : Oracle.t) (g : ScheduleGenerator.t) (weekStart weekNumber : Z)
    (st : list Shift.t * gmap string (gmap string Z)) (dayIndex : nat)
    : list Shift.t * gmap string (gmap string Z) :=
  let '(shifts, patternUsage) := st in
  let rules := ScheduleGenerator.pharmacyRules g in
  let dayName := dayNameOf dayIndex in
  let dateStr := dateOfDay weekStart dayIndex in
  let availablePharmacists := availableOn g dayName weekNumber in
  if bool_decide (length availablePharmacists < 3)%nat then st
  else
    let fixedAssignments := fixedAssignmentsOf rules dayName availablePharmacists in
    let remainingPharmacists := remainingPharmacistsOf rules dayName availablePharmacists in
    let patterns := default [] (PharmacyRules.fixedShiftPatterns rules) in
    if bool_decide (length patterns = 0%nat) then st
    else
      let best :=
        retryLoop o g weekStart dayIndex shifts patterns remainingPharmacists fixedAssignments
          (seq 0 50) (DayBest.mk [] [] patternUsage) in
      let bestDayShifts :=
        if bool_decide (0 < length (DayBest.bestWarnings best))%nat
        then adjustPartTimeShiftsForWarnings o (DayBest.bestDayShifts best) dateStr
               (DayBest.bestWarnings best)
        else DayBest.bestDayShifts best in
      (shifts ++ bestDayShifts, countDayPatterns bestDayShifts (DayBest.patternUsage best)).

Definition generateWeekSchedule (o : Oracle.t) (g : ScheduleGenerator.t)
    (weekStart weekNumber : Z) : Schedule.t :=
  let '(shifts, _) :=
    foldl (firstPassDay o g weekStart weekNumber) ([], initialPatternUsage g)
          (seq 0 (length workdays)) in
  Schedule.mk weekStart (adjustPartTimeHours o shifts weekStart) None.

(** The week as [generateSchedule] produces it: first pass, then the
    validation and resolution of [finishWeek]. *)
Definition generateWeek (o : Oracle.t) (createShiftAssignments : assignmentStrategy)
    (g : ScheduleGenerator.t) (weekStart weekNumber : Z) : Schedule.t :=
  finishWeek createShiftAssignments g weekStart weekNumber
    (generateWeekSchedule o g weekStart weekNumber).

(** ** Top level ([generateSchedule])

    [weekStartDate] is the Monday computed from [startDate]; the result is
    the array of schedules together with the generator object as the call
    leaves it (its rules object is the one the caller passed in). *)
Definition generateSchedule (o : Oracle.t) (createShiftAssignments : assignmentStrategy)
    (g : ScheduleGenerator.t) (weeks : nat) (weekStartDate : Z)
    : list Schedule.t * ScheduleGenerator.t :=
  let g' :=
    ScheduleGenerator.mk (ScheduleGenerator.pharmacists g)
      (adaptBreakDuration (ScheduleGenerator.pharmacyRules g)) in
  (map (fun week =>
          let weekStart := weekStartDate + Z.of_nat week * 7 in
          let weekNumber := Z.of_nat week in
          generateWeek o createShiftAssignments g' weekStart weekNumber)
       (seq 0 weeks),
   g').

(** ** Reference definitions, written from the specification

    These follow the wording of the specification, not the code; Part II
    compares them with the embedding above. *)

(** The requirement window cut into 30-minute steps. *)
Definition sampleTimes (reqStart reqEnd : Z) : list Z :=
  (fun k => reqStart + 30 * Z.of_nat k) <$> seq 0 (Z.to_nat ((reqEnd - reqStart + 29) / 30)).

(** Number of distinct worker ids whose shift [[start, end)] contains [t]. *)
Definition distinctWorkersAt (dayShifts : list Shift.t) (t : Z) : Z :=
  Z.of_nat (size (list_to_set
    (Shift.pharmacistId <$>
       filter (fun s => timeToMinutes (Shift.startTime s) <= t < timeToMinutes (Shift.endTime s))
              dayShifts) : gset string)).

(** Maximal runs of consecutive elements that satisfy [P]. *)
Fixpoint maximalRuns {A : Type} (P : A → bool) (l : list A) : list (list A) :=
  match l with
  | [] => []
  | x :: rest =>
      if P x then
        match rest with
        | y :: _ =>
            if P y then
              match maximalRuns P rest with
              | run :: runs => (x :: run) :: runs
              | [] => [[x]]
              end
            else [x] :: maximalRuns P rest
        | [] => [[x]]
        end
      else maximalRuns P rest
  end.

(** Smallest count observed in a run of samples (time, count). *)
Definition runMinCount (first : Z * Z) (others : list (Z * Z)) : Z :=
  foldl (fun m s => Z.min m s.2) first.2 others.

(** The warning of one under-staffed run: from its first step to the end
    of its last step, clipped to the requirement. *)
Definition runWarning (requirement : StaffingRequirement.t) (run : list (Z * Z)) : list string :=
  let reqStart := timeToMinutes (StaffingRequirement.startTime requirement) in
  let reqEnd := timeToMinutes (StaffingRequirement.endTime requirement) in
  match run with
  | [] => []
  | first :: others =>
      let lastStep := (List.last others first).1 in
      [coverageMessage (Z.max first.1 reqStart) (Z.min (lastStep + 30) reqEnd)
         (runMinCount first others) (StaffingRequirement.requiredPharmacists requirement)
         reqStart reqEnd]
  end.

(** Coverage warnings of one requirement as the specification words them. *)
Definition specCoverageWarnings (dayShifts : list Shift.t) (requirement : StaffingRequirement.t)
    : list string :=
  let reqStart := timeToMinutes (StaffingRequirement.startTime requirement) in
  let reqEnd := timeToMinutes (StaffingRequirement.endTime requirement) in
  let required := StaffingRequirement.requiredPharmacists requirement in
  let samples := (fun t => (t, distinctWorkersAt dayShifts t)) <$> sampleTimes reqStart reqEnd in
  flat_map (runWarning requirement)
           (maximalRuns (fun s => bool_decide (s.2 < required)) samples).

(** The daily hour target as claim C4 words it (without any final guard). *)
Definition specHoursTarget (weeklyHours : Qc) (workingDaysPerWeek : Z)
    (remainingHours : Qc) (remainingWorkingDays : Z) : Qc :=
  let dailyTarget := (weeklyHours / Js.ofZ workingDaysPerWeek)%Qc in
  let restOfWeek := (dailyTarget * Js.ofZ (remainingWorkingDays - 1))%Qc in
  if decide (remainingWorkingDays = 1) then remainingHours
  else if decide (dailyTarget + restOfWeek <= remainingHours)%Qc then dailyTarget
  else if decide (0 < remainingHours - restOfWeek)%Qc then (remainingHours - restOfWeek)%Qc
  else Js.max (Q2Qc (1 # 2)) (remainingHours / Js.ofZ remainingWorkingDays)%Qc.

(** ** Auxiliary notions used in the proofs about the coverage scan *)

(** A sample is a check time with the head count observed at it. *)
Definition sampleAt (dayShifts : list Shift.t) (t : Z) : Z * Z :=
  (t, distinctWorkersAt dayShifts t).

(** The period opened by an under-staffed sample, and a period extended
    by the next under-staffed sample. *)
Definition newPeriod (reqEnd : Z) (s : Z * Z) : InsufficientPeriod :=
  mkPeriod s.1 (Z.min (s.1 + 30) reqEnd) s.2.

Definition extendPeriod (reqEnd : Z) (p : InsufficientPeriod) (s : Z * Z) : InsufficientPeriod :=
  mkPeriod (start p) (Z.min (s.1 + 30) reqEnd)
    (if bool_decide (s.2 < minCount p) then s.2 else minCount p).

(** [coverageStep] on a sample whose count is already known. *)
Definition sampleStep (required reqEnd : Z) (st : coverageState) (s : Z * Z) : coverageState :=
  if bool_decide (s.2 < required) then
    (st.1, Some (match st.2 with
                 | Some p => extendPeriod reqEnd p s
                 | None => newPeriod reqEnd s
                 end))
  else
    match st.2 with
    | Some p => (st.1 ++ [p], None)
    | None => (st.1, None)
    end.

(** The closed periods of a final scan state. *)
Definition closePeriods (reqEnd : Z) (st : coverageState) : list InsufficientPeriod :=
  match st.2 with
  | Some p => st.1 ++ [mkPeriod (start p) (Z.min (end_ p) reqEnd) (minCount p)]
  | None => st.1
  end.

(** The period of one run of under-staffed samples. *)
Definition runPeriod (reqEnd : Z) (run : list (Z * Z)) : list InsufficientPeriod :=
  match run with
  | [] => []
  | first :: others => [foldl (extendPeriod reqEnd) (newPeriod reqEnd first) others]
  end.

(** A period that lies inside the requirement window and is not empty. *)
Definition goodPeriod (reqStart reqEnd : Z) (p : InsufficientPeriod) : Prop :=
  reqStart <= start p ∧ start p < end_ p ∧ end_ p <= reqEnd.

(** The periods produced from a scan state with open period [p], in terms
    of the runs of the samples still to come: when the next sample is
    under-staffed the first run continues [p]. *)
Definition headIs {A : Type} (P : A → bool) (l : list A) : bool :=
  match l with
  | x :: _ => P x
  | [] => false
  end.

Definition periodsWithOpen (reqEnd : Z) (p : InsufficientPeriod) (continues : bool)
    (runs : list (list (Z * Z))) : list InsufficientPeriod :=
  if continues then
    match runs with
    | run :: runs' => foldl (extendPeriod reqEnd) p run :: flat_map (runPeriod reqEnd) runs'
    | [] => [p]
    end
  else p :: flat_map (runPeriod reqEnd) runs.

(** The [pharmacistDailyHours] object after the per-shift loop. *)
Definition dailyHoursOf (rules : PharmacyRules.t) (pharmacists : list Pharmacist.t)
    (dayShifts : list Shift.t) : Js.obj Qc :=
  (foldl (shiftCheckStep rules pharmacists) ([], []) dayShifts).1.

(** The update of [pharmacistDailyHours] by one shift (first component
    of [shiftCheckStep]). *)
Definition hoursStep (obj : Js.obj Qc) (shift : Shift.t) : Js.obj Qc :=
  let pid := Shift.pharmacistId shift in
  let initialised :=
    match Js.get pid obj with
    | Some h => if bool_decide (h = 0%Qc) then Js.set pid 0%Qc obj else obj
    | None => Js.set pid 0%Qc obj
    end in
  Js.set pid (default 0%Qc (Js.get pid initialised)
              + calculateShiftHours (Shift.startTime shift) (Shift.endTime shift))%Qc
         initialised.

(** Two warning maps with the same keys whose lists agree up to order. *)
Definition sameUpToOrder (m1 m2 : gmap Z (list string)) : Prop :=
  ∀ d, option_Forall2 Permutation (m1 !! d) (m2 !! d).

(** Length of a shift in minutes. *)
Definition shiftMinutes (shift : Shift.t) : Z :=
  timeToMinutes (Shift.endTime shift) - timeToMinutes (Shift.startTime shift).

(** ** Further parts of the scheduler *)

(** Hours of a shift, and the hours a pharmacist works over a list of
    shifts (reference notions for the validator's daily total). *)
Definition shiftHoursOf (shift : Shift.t) : Qc :=
  calculateShiftHours (Shift.startTime shift) (Shift.endTime shift).

Definition hoursWorked (pharmacistId : string) (dayShifts : list Shift.t) : Qc :=
  foldl (fun total shift => (total + shiftHoursOf shift)%Qc) 0%Qc
        (filter (fun shift => Shift.pharmacistId shift = pharmacistId) dayShifts).

(** *** Patterns for a requirement ([findBestPatternForRequirement]) *)

(** [morningCovers], [afternoonCovers] and [fullCovers]: the morning part,
    the afternoon part, or the span from the start of the morning part to
    the end of the afternoon part contains the requirement window. *)
Definition morningCovers (pattern : FixedShiftPattern.t) (requirement : StaffingRequirement.t)
    : bool :=
  let reqStart := timeToMinutes (StaffingRequirement.startTime requirement) in
  let reqEnd := timeToMinutes (StaffingRequirement.endTime requirement) in
  let morningStart := timeToMinutes (SubShift.startTime (FixedShiftPattern.morningShift pattern)) in
  let morningEnd := timeToMinutes (SubShift.endTime (FixedShiftPattern.morningShift pattern)) in
  bool_decide (morningStart <= reqStart ∧ morningEnd >= reqEnd).

Definition afternoonCovers (pattern : FixedShiftPattern.t) (requirement : StaffingRequirement.t)
    : bool :=
  let reqStart := timeToMinutes (StaffingRequirement.startTime requirement) in
  let reqEnd := timeToMinutes (StaffingRequirement.endTime requirement) in
  let afternoonStart :=
    timeToMinutes (SubShift.startTime (FixedShiftPattern.afternoonShift pattern)) in
  let afternoonEnd := timeToMinutes (SubShift.endTime (FixedShiftPattern.afternoonShift pattern)) in
  bool_decide (afternoonStart <= reqStart ∧ afternoonEnd >= reqEnd).

Definition fullCovers (pattern : FixedShiftPattern.t) (requirement : StaffingRequirement.t)
    : bool :=
  let reqStart := timeToMinutes (StaffingRequirement.startTime requirement) in
  let reqEnd := timeToMinutes (StaffingRequirement.endTime requirement) in
  let morningStart := timeToMinutes (SubShift.startTime (FixedShiftPattern.morningShift pattern)) in
  let afternoonEnd := timeToMinutes (SubShift.endTime (FixedShiftPattern.afternoonShift pattern)) in
  bool_decide (morningStart <= reqStart ∧ afternoonEnd >= reqEnd).

Definition morningHoursOf (pattern : FixedShiftPattern.t) : Qc :=
  calculateShiftHours (SubShift.startTime (FixedShiftPattern.morningShift pattern))
                      (SubShift.endTime (FixedShiftPattern.morningShift pattern)).

Definition afternoonHoursOf (pattern : FixedShiftPattern.t) : Qc :=
  calculateShiftHours (SubShift.startTime (FixedShiftPattern.afternoonShift pattern))
                      (SubShift.endTime (FixedShiftPattern.afternoonShift pattern)).

(** The score one iteration of the loop of [findBestPatternForRequirement]
    computes for [pattern]; [None] is the [continue] of a pattern that does
    not cover the requirement. *)
Definition requirementFitScore (requirement : StaffingRequirement.t) (remainingHours : Qc)
    (pattern : FixedShiftPattern.t) : option Z :=
  if negb (morningCovers pattern requirement) && negb (afternoonCovers pattern requirement)
     && negb (fullCovers pattern requirement)
  then None
  else
    let score :=
      if fullCovers pattern requirement then 100
      else if afternoonCovers pattern requirement then 70
      else if morningCovers pattern requirement then 50
      else 0 in
    let morningHours := morningHoursOf pattern in
    let afternoonHours := afternoonHoursOf pattern in
    let fullHours := (morningHours + afternoonHours)%Qc in
    let fit :=
      if bool_decide (fullHours <= remainingHours)%Qc then 20
      else if bool_decide (afternoonHours <= remainingHours)%Qc then 10
      else if bool_decide (morningHours <= remainingHours)%Qc then 5
      else -50 in
    Some (score + fit).

(** [findBestPatternForRequirement]: [bestPattern] starts as [null] with
    [bestScore = 0]. *)
Definition findBestPatternForRequirement (requirement : StaffingRequirement.t)
    (patterns : list FixedShiftPattern.t) (remainingHours : Qc) : option FixedShiftPattern.t :=
  (foldl (fun (best : option FixedShiftPattern.t * Z) pattern =>
            match requirementFitScore requirement remainingHours pattern with
            | Some score => if bool_decide (score > best.2) then (Some pattern, score) else best
            | None => best
            end)
         (None, 0) patterns).1.

(** *** Filling requirements with part-time pharmacists
    ([validateAndFillStaffingRequirements]) *)

(** [assignmentStart < requirementEnd && assignmentEnd > requirementStart]. *)
Definition hasOverlap (requirement : StaffingRequirement.t) (assignment : Assignment.t) : bool :=
  let assignmentStart := timeToMinutes (Assignment.startTime assignment) in
  let assignmentEnd := timeToMinutes (Assignment.endTime assignment) in
  let requirementStart := timeToMinutes (StaffingRequirement.startTime requirement) in
  let requirementEnd := timeToMinutes (StaffingRequirement.endTime requirement) in
  bool_decide (assignmentStart < requirementEnd ∧ assignmentEnd > requirementStart).

(** "Determine shift type based on time": the two comparisons are
    comparisons of the time strings. *)
Definition fillShiftType (rules : PharmacyRules.t) (requirement : StaffingRequirement.t)
    : ShiftType :=
  if String.ltb (StaffingRequirement.startTime requirement) (PharmacyRules.breakStartTime rules)
  then morning
  else if String.ltb (PharmacyRules.breakEndTime rules) (StaffingRequirement.endTime requirement)
  then afternoon
  else full.

(** [assignments.some(a => a.pharmacist.id === pharmacist.id)]. *)
Definition isAssigned (assignments : list Assignment.t) (pharmacist : Pharmacist.t) : bool :=
  existsb (fun a => bool_decide (Pharmacist.id (Assignment.pharmacist a) = Pharmacist.id pharmacist))
          assignments.

(** Body of [staffingRequirements.forEach]: the [assignments] array after
    the requirement has been handled. *)
Definition fillRequirement (rules : PharmacyRules.t) (partTimePharmacists : list Pharmacist.t)
    (assignments : list Assignment.t) (requirement : StaffingRequirement.t)
    : list Assignment.t :=
  let pharmacistsWorking :=
    Z.of_nat (length (filter (fun a => hasOverlap requirement a = true) assignments)) in
  if bool_decide (pharmacistsWorking < StaffingRequirement.requiredPharmacists requirement) then
    let needed := StaffingRequirement.requiredPharmacists requirement - pharmacistsWorking in
    let availablePharmacists :=
      filter (fun pharmacist => isAssigned assignments pharmacist = false) partTimePharmacists in
    assignments
    ++ ((fun pharmacist =>
           Assignment.mk pharmacist (fillShiftType rules requirement)
             (StaffingRequirement.startTime requirement)
             (StaffingRequirement.endTime requirement) None)
        <$> take (Z.to_nat needed) availablePharmacists)
  else assignments.

Definition validateAndFillStaffingRequirements (rules : PharmacyRules.t)
    (assignments : list Assignment.t) (partTimePharmacists : list Pharmacist.t)
    : list Assignment.t :=
  foldl (fillRequirement rules partTimePharmacists) assignments
        (PharmacyRules.staffingRequirements rules).

(** *** Best pattern for a pharmacist ([findBestPatternForPharmacist]) *)

(** [calculatePatternCoverageScore]: 10 for every requirement the pattern
    helps with. *)
Definition calculatePatternCoverageScore (rules : PharmacyRules.t) (pattern : FixedShiftPattern.t)
    : Z :=
  foldl (fun score req => if patternHelpsWithRequirement pattern req then score + 10 else score)
        0 (PharmacyRules.staffingRequirements rules).

(** The score of one element of [patternScores]. *)
Definition pharmacistPatternScore (rules : PharmacyRules.t) (coverageTracker : gmap string Qc)
    (alreadyAssignedPatterns : list FixedShiftPattern.t) (pattern : FixedShiftPattern.t) : Qc :=
  let fromRequirements :=
    foldl (fun (score : Qc) req =>
             let currentCoverage := default 0%Qc (coverageTracker !! requirementKey req) in
             let needed :=
               (Js.ofZ (StaffingRequirement.requiredPharmacists req) - currentCoverage)%Qc in
             if patternHelpsWithRequirement pattern req && bool_decide (0 < needed)%Qc then
               let coveragePercentage := calculatePatternCoveragePercentage pattern req in
               let baseScore := (needed * Js.ofZ 100)%Qc in
               let coverageBonus := (Js.ofZ coveragePercentage / Js.ofZ 100 * Js.ofZ 50)%Qc in
               (score + (baseScore + coverageBonus))%Qc
             else score)
          0%Qc (unmetRequirements rules coverageTracker) in
  let patternUsageCount :=
    Z.of_nat (length (filter (fun p => FixedShiftPattern.id p = FixedShiftPattern.id pattern)
                             alreadyAssignedPatterns)) in
  let varietyBonus := Z.max 0 (3 - patternUsageCount) * 50 in
  let coverageScore := calculatePatternCoverageScore rules pattern in
  let closingMinutes := timeToMinutes (PharmacyRules.closingTime rules) in
  let afternoonEnd := timeToMinutes (SubShift.endTime (FixedShiftPattern.afternoonShift pattern)) in
  let closingPenalty := if bool_decide (afternoonEnd < closingMinutes) then -200 else 0 in
  (fromRequirements + Js.ofZ varietyBonus + Js.ofZ coverageScore + Js.ofZ closingPenalty)%Qc.

(** [array.sort((a, b) => b.score - a.score)]: a stable sort, highest
    score first. *)
Fixpoint insertByScore {A : Type} (score : A → Qc) (x : A) (l : list A) : list A :=
  match l with
  | [] => [x]
  | y :: rest =>
      if bool_decide (score y <= score x)%Qc then x :: y :: rest
      else y :: insertByScore score x rest
  end.

Definition sortByScore {A : Type} (score : A → Qc) (l : list A) : list A :=
  foldr (insertByScore score) [] l.

(** [findBestPatternForPharmacist]; [None] stands for the [TypeError]
    raised by [patternScores[0].pattern] on an empty pattern array. *)
Definition findBestPatternForPharmacist (rules : PharmacyRules.t)
    (patterns : list FixedShiftPattern.t) (coverageTracker : gmap string Qc)
    (alreadyAssignedPatterns : list FixedShiftPattern.t) : option FixedShiftPattern.t :=
  head (sortByScore (pharmacistPatternScore rules coverageTracker alreadyAssignedPatterns)
                    patterns).

(** *** Closing-time coverage ([fixClosingTimeCoverage]) *)

Definition worksUntilClosing (rules : PharmacyRules.t) (pattern : FixedShiftPattern.t) : bool :=
  bool_decide (timeToMinutes (SubShift.endTime (FixedShiftPattern.afternoonShift pattern))
               >= timeToMinutes (PharmacyRules.closingTime rules)).

(** [pharmacistsToReassign.forEach((assignment, index) => ...)]: the
    assignments that do not last until closing time are, in order, given
    the patterns that do; [index] counts the assignments to reassign met
    so far. *)
Fixpoint reassignToClosing (rules : PharmacyRules.t) (closingPatterns : list FixedShiftPattern.t)
    (index : nat) (patternAssignments : list (Pharmacist.t * FixedShiftPattern.t))
    : list (Pharmacist.t * FixedShiftPattern.t) :=
  match patternAssignments with
  | [] => []
  | (pharmacist, pattern) :: rest =>
      if worksUntilClosing rules pattern
      then (pharmacist, pattern) :: reassignToClosing rules closingPatterns index rest
      else (pharmacist, default pattern (closingPatterns !! index))
           :: reassignToClosing rules closingPatterns (S index) rest
  end.

(** [fixClosingTimeCoverage]: the [patternAssignments] array after the
    call. *)
Definition fixClosingTimeCoverage (rules : PharmacyRules.t)
    (patternAssignments : list (Pharmacist.t * FixedShiftPattern.t))
    (patterns : list FixedShiftPattern.t) : list (Pharmacist.t * FixedShiftPattern.t) :=
  reassignToClosing rules (filter (fun p => worksUntilClosing rules p = true) patterns) 0
    patternAssignments.

(** *** Re-timing part-time shifts for warnings
    ([adjustPartTimeShiftsForWarnings]) *)

Definition isDigit (c : ascii) : bool :=
  (48 <=? nat_of_ascii c)%nat && (nat_of_ascii c <=? 57)%nat.

(** A match of [/(\d{2}:\d{2})-(\d{2}:\d{2})/] at the start of [s]. *)
Definition timeRangeAt (s : string) : option (string * string) :=
  match s with
  | String a (String b (String c (String d (String e (String f
      (String g (String h (String i (String j (String k _)))))))))) =>
      if isDigit a && isDigit b && Ascii.eqb c ":" && isDigit d && isDigit e
         && Ascii.eqb f "-"
         && isDigit g && isDigit h && Ascii.eqb i ":" && isDigit j && isDigit k
      then Some (String a (String b (String c (String d (String e "")))),
                 String g (String h (String i (String j (String k "")))))
      else None
  | _ => None
  end.

(** [warning.match(/(\d{2}:\d{2})-(\d{2}:\d{2})/)]: the leftmost match. *)
Fixpoint matchTimeRange (s : string) : option (string * string) :=
  match timeRangeAt s with
  | Some m => Some m
  | None =>
      match s with
      | String _ rest => matchTimeRange rest
      | EmptyString => None
      end
  end.

Definition setStartTime (shift : Shift.t) (startTime : string) : Shift.t :=
  setTimes shift (startTime, Shift.endTime shift).

Definition setEndTime (shift : Shift.t) (endTime : string) : Shift.t :=
  setTimes shift (Shift.startTime shift, endTime).

Module PartTime.

(** Body of [phShifts.forEach(shift => ...)] for the shift object at
    position [i] of [adjustedShifts]; [phShifts] holds the positions of the
    pharmacist's shifts of the day. *)
Definition adjustShift (rules : PharmacyRules.t) (reqStart reqEnd : Z) (phShifts : list nat)
    (adjustedShifts : list Shift.t) (i : nat) : list Shift.t :=
  match adjustedShifts !! i with
  | None => adjustedShifts
  | Some shift =>
      let shiftEnd := timeToMinutes (Shift.endTime shift) in
      if bool_decide (Shift.type shift = afternoon ∧ shiftEnd < reqEnd ∧ shiftEnd >= reqStart)
      then
        let newEnd := Z.min reqEnd (timeToMinutes (PharmacyRules.closingTime rules)) in
        if bool_decide (newEnd > shiftEnd)
        then <[ i := setEndTime shift (minutesToTime newEnd) ]> adjustedShifts
        else adjustedShifts
      else if bool_decide (Shift.type shift = morning ∧ shiftEnd <= reqStart) then
        match list_find (fun j => Shift.type <$> adjustedShifts !! j = Some afternoon) phShifts
        with
        | Some (_, j) =>
            match adjustedShifts !! j with
            | Some afternoonShift =>
                let newStart :=
                  Z.max reqStart (timeToMinutes (PharmacyRules.breakEndTime rules)) in
                if bool_decide (newStart < timeToMinutes (Shift.startTime afternoonShift))
                then <[ j := setStartTime afternoonShift (minutesToTime newStart) ]>
                       adjustedShifts
                else adjustedShifts
            | None => adjustedShifts
            end
        | None => adjustedShifts
        end
      else adjustedShifts
  end.

(** [s.pharmacistId === ph.id && s.date === dateStr] for the shift at a
    position of the array. *)
Definition isShiftOf (ph : Pharmacist.t) (dateStr : Z) (shift : option Shift.t) : bool :=
  match shift with
  | Some s => bool_decide (Shift.pharmacistId s = Pharmacist.id ph ∧ Shift.date s = dateStr)
  | None => false
  end.

(** Body of [partTimePharmacists.forEach(ph => ...)]. *)
Definition adjustPharmacist (rules : PharmacyRules.t) (dateStr reqStart reqEnd : Z)
    (adjustedShifts : list Shift.t) (ph : Pharmacist.t) : list Shift.t :=
  let phShifts :=
    filter (fun i => isShiftOf ph dateStr (adjustedShifts !! i) = true)
           (seq 0 (length adjustedShifts)) in
  foldl (adjustShift rules reqStart reqEnd phShifts) adjustedShifts phShifts.

(** Body of [warnings.forEach(warning => ...)]. *)
Definition adjustForWarning (g : ScheduleGenerator.t) (dateStr : Z)
    (adjustedShifts : list Shift.t) (warning : string) : list Shift.t :=
  match matchTimeRange warning with
  | None => adjustedShifts
  | Some (from, to) =>
      foldl (adjustPharmacist (ScheduleGenerator.pharmacyRules g) dateStr
               (timeToMinutes from) (timeToMinutes to))
            adjustedShifts
            (filter (fun p => isPartTime p = true) (ScheduleGenerator.pharmacists g))
  end.

(** [adjustPartTimeShiftsForWarnings] as the source computes it. *)
Definition adjustPartTimeShiftsForWarnings (g : ScheduleGenerator.t) (dayShifts : list Shift.t)
    (dateStr : Z) (warnings : list string) : list Shift.t :=
  foldl (adjustForWarning g dateStr) dayShifts warnings.

End PartTime.

(** Two shift records that agree on everything but their times. *)
Definition sameButTimes (old new : Shift.t) : Prop :=
  Shift.pharmacistId new = Shift.pharmacistId old
  ∧ Shift.date new = Shift.date old
  ∧ Shift.type new = Shift.type old
  ∧ Shift.isBreakTime new = Shift.isBreakTime old
  ∧ Shift.patternId new = Shift.patternId old.

(** How far the re-timing for warnings may move a shift: only an afternoon
    shift of a part-time pharmacist on the given day changes; it starts no
    later and ends no earlier than before, starts no earlier than the
    earlier of its old start and the end of the break, and ends no later
    than the later of its old end and closing time. *)
Definition retimedWithin (g : ScheduleGenerator.t) (dateStr : Z) (old new : Shift.t) : Prop :=
  sameButTimes old new
  ∧ (Shift.type old ≠ afternoon ∨ Shift.date old ≠ dateStr
     ∨ Shift.pharmacistId old
       ∉ Pharmacist.id <$> filter (fun p => isPartTime p = true) (ScheduleGenerator.pharmacists g) →
     new = old)
  ∧ timeToMinutes (Shift.startTime new) <= timeToMinutes (Shift.startTime old)
  ∧ timeToMinutes (Shift.endTime old) <= timeToMinutes (Shift.endTime new)
  ∧ Z.min (timeToMinutes (Shift.startTime old))
          (timeToMinutes (PharmacyRules.breakEndTime (ScheduleGenerator.pharmacyRules g)))
    <= timeToMinutes (Shift.startTime new)
  ∧ timeToMinutes (Shift.endTime new)
    <= Z.max (timeToMinutes (Shift.endTime old))
             (timeToMinutes (PharmacyRules.closingTime (ScheduleGenerator.pharmacyRules g))).

(** *** Full-time pharmacists of a day ([createShiftAssignments], first
    stage) *)

(** [array.sort(compare)]: a stable sort; [x] is put before the first
    element it does not have to come after. *)
Fixpoint insertByComparator {A : Type} (compare : A → A → Z) (x : A) (l : list A) : list A :=
  match l with
  | [] => [x]
  | y :: rest =>
      if bool_decide (compare x y <= 0) then x :: y :: rest
      else y :: insertByComparator compare x rest
  end.

Definition sortByComparator {A : Type} (compare : A → A → Z) (l : list A) : list A :=
  foldr (insertByComparator compare) [] l.

(** [array.forEach] with a body that may throw: [None] is the
    [TypeError] that ends the call. *)
Fixpoint forEachOrThrow {S A : Type} (body : S → A → option S) (st : S) (l : list A)
    : option S :=
  match l with
  | [] => Some st
  | x :: rest =>
      match body st x with
      | Some st' => forEachOrThrow body st' rest
      | None => None
      end
  end.

(** What the stage keeps while it runs: [patternAssignments],
    [patternUsageCount], [coverageTracker], and the two objects of the
    caller that it updates in place, [patternRotationTracker] and the
    optional [pharmacistPatternUsage]. *)
Module FullTimeStage.
Record t := mk {
  patternAssignments : list (Pharmacist.t * FixedShiftPattern.t);
  patternUsageCount : list Z;
  coverageTracker : gmap string Qc;
  patternRotationTracker : gmap string TrackerEntry.t;
  pharmacistPatternUsage : option (gmap string (gmap string Z)) }.
End FullTimeStage.

(** The fixed pattern of a pharmacist for the day, with its index:
    [fixedDayPatterns?.find(dp => dp.dayOfWeek === dayName)], then
    [patterns.find] and [patterns.findIndex] on its pattern id. *)
Definition fixedPatternOfDay (patterns : list FixedShiftPattern.t) (dayName : string)
    (pharmacist : Pharmacist.t) : option (nat * FixedShiftPattern.t) :=
  match Pharmacist.fixedDayPatterns pharmacist
        ≫= list_find (fun dp => FixedDayPattern.dayOfWeek dp = dayName) with
  | Some (_, fixedDayPattern) =>
      match list_find (fun p => FixedShiftPattern.id p = FixedDayPattern.patternId fixedDayPattern)
                      patterns with
      | Some (_, fixedPattern) =>
          match list_find (fun p => FixedShiftPattern.id p = FixedShiftPattern.id fixedPattern)
                          patterns with
          | Some (patternIndex, _) => Some (patternIndex, fixedPattern)
          | None => None
          end
      | None => None
      end
  | None => None
  end.

(** [pharmacistPatternUsage?.[ph]?.[pattern] || 0]. *)
Definition usageCount (pharmacistPatternUsage : option (gmap string (gmap string Z)))
    (ph pattern : string) : Z :=
  match pharmacistPatternUsage with
  | Some usage => usageOf usage ph pattern
  | None => 0
  end.

(** [if (pharmacistPatternUsage && pharmacistPatternUsage[ph]) ...[pattern]
    = (...[pattern] || 0) + 1]. *)
Definition bumpUsage (pharmacistPatternUsage : option (gmap string (gmap string Z)))
    (ph pattern : string) : option (gmap string (gmap string Z)) :=
  match pharmacistPatternUsage with
  | Some usage =>
      match usage !! ph with
      | Some _ => Some (setUsage usage ph pattern (usageOf usage ph pattern + 1))
      | None => Some usage
      end
  | None => None
  end.

(** What both loops do once pharmacist and pattern are known; the
    rotation index of the tracker entry becomes [newIndex]. *)
Definition recordAssignment (rules : PharmacyRules.t) (st : FullTimeStage.t)
    (pharmacist : Pharmacist.t) (pattern : FixedShiftPattern.t) (patternIndex : nat)
    (tracker : TrackerEntry.t) (newIndex : nat) : FullTimeStage.t :=
  FullTimeStage.mk
    (FullTimeStage.patternAssignments st ++ [(pharmacist, pattern)])
    (alter Z.succ patternIndex (FullTimeStage.patternUsageCount st))
    (updateCoverageTracker rules (FullTimeStage.coverageTracker st) pattern)
    (<[ Pharmacist.id pharmacist :=
          TrackerEntry.mk (TrackerEntry.pharmacist tracker) newIndex
            (TrackerEntry.dailyPatterns tracker ++ [FixedShiftPattern.name pattern]) ]>
       (FullTimeStage.patternRotationTracker st))
    (bumpUsage (FullTimeStage.pharmacistPatternUsage st) (Pharmacist.id pharmacist)
               (FixedShiftPattern.id pattern)).

(** The body of [pharmacistsWithFixedPattern.forEach]; a pharmacist
    without tracker entry ends the call with a [TypeError]. *)
Definition assignFixed (rules : PharmacyRules.t) (st : FullTimeStage.t)
    (fixed : Pharmacist.t * (nat * FixedShiftPattern.t)) : option FullTimeStage.t :=
  let '(pharmacist, (patternIndex, pattern)) := fixed in
  match FullTimeStage.patternRotationTracker st !! Pharmacist.id pharmacist with
  | Some tracker =>
      Some (recordAssignment rules st pharmacist pattern patternIndex tracker
              (TrackerEntry.patternIndex tracker))
  | None => None
  end.

(** The branch [if (unmetRequirements.length > 0)] when
    [patterns[patternIndex]] may be [undefined]: an undefined
    [bestPattern] is replaced exactly when some score is positive, and is
    otherwise dereferenced by the statements that follow. *)
Definition chooseForUnmet (patterns : list FixedShiftPattern.t)
    (unmet : list StaffingRequirement.t) (patternUsageCount : list Z) (patternIndex : nat)
    : option (FixedShiftPattern.t * nat) :=
  match patterns !! patternIndex with
  | Some pattern =>
      let '(bestPattern, _, bestIndex) :=
        choosePatternForUnmet patterns unmet patternUsageCount pattern patternIndex in
      Some (bestPattern, bestIndex)
  | None =>
      match patterns with
      | [] => None
      | placeholder :: _ =>
          let '(bestPattern, bestScore, bestIndex) :=
            choosePatternForUnmet patterns unmet patternUsageCount placeholder patternIndex in
          if bool_decide (0 < bestScore) then Some (bestPattern, bestIndex) else None
      end
  end.

(** An element of [pharmacistPatternCounts]. *)
Module PatternCount.
Record t := mk {
  pattern : FixedShiftPattern.t;
  index : nat;
  count : Z;
  dayUsage : Z }.
End PatternCount.

Definition pharmacistPatternCounts (patterns : list FixedShiftPattern.t)
    (pharmacistPatternUsage : option (gmap string (gmap string Z)))
    (patternUsageCount : list Z) (pharmacist : Pharmacist.t) : list PatternCount.t :=
  imap (fun idx p =>
          PatternCount.mk p idx
            (usageCount pharmacistPatternUsage (Pharmacist.id pharmacist)
                        (FixedShiftPattern.id p))
            (default 0 (patternUsageCount !! idx)))
       patterns.

(** [Math.min(...counts)] and [Math.max(...counts)] of a non-empty array
    (the stage reaches an empty one only on its way to a [TypeError]). *)
Definition minOf (counts : list Z) : Z :=
  match counts with
  | [] => 0
  | c :: rest => foldl Z.min c rest
  end.

(** [globalPatternDistribution[patternId]]: [min] and [max] of the usage
    of the pattern over the full-time pharmacists. *)
Definition globalPatternDistribution
    (pharmacistPatternUsage : option (gmap string (gmap string Z)))
    (fullTimePharmacists : list Pharmacist.t) (patternId : string) : option (Z * Z) :=
  let counts :=
    (fun ph => usageCount pharmacistPatternUsage (Pharmacist.id ph) patternId)
      <$> fullTimePharmacists in
  if bool_decide (0 < length counts)%nat then Some (minOf counts, maxUsage counts) else None.

(** The filter callback of [balancedPatterns]. *)
Definition keepsBalance (counts : list PatternCount.t) (minCount : Z) (p : PatternCount.t)
    : bool :=
  let newCount := PatternCount.count p + 1 in
  let others :=
    PatternCount.count
      <$> filter (fun pp => PatternCount.index pp ≠ PatternCount.index p) counts in
  let newMin := foldl Z.min minCount others in
  let newMax := foldl Z.max newCount others in
  bool_decide (newMax - newMin <= 1).

(** The comparator of [candidates.sort]. *)
Definition compareCandidates (global : string → option (Z * Z))
    (balancedPatterns : list PatternCount.t) (a b : PatternCount.t) : Z :=
  let aBalanced :=
    existsb (fun p => bool_decide (PatternCount.index p = PatternCount.index a))
            balancedPatterns in
  let bBalanced :=
    existsb (fun p => bool_decide (PatternCount.index p = PatternCount.index b))
            balancedPatterns in
  let byCount :=
    if bool_decide (PatternCount.count a ≠ PatternCount.count b)
    then PatternCount.count a - PatternCount.count b
    else PatternCount.dayUsage a - PatternCount.dayUsage b in
  if negb (eqb aBalanced bBalanced) then (if aBalanced then -1 else 1)
  else
    match global (FixedShiftPattern.id (PatternCount.pattern a)),
          global (FixedShiftPattern.id (PatternCount.pattern b)) with
    | Some (aMin, aMax), Some (bMin, bMax) =>
        let aNewCount := PatternCount.count a + 1 in
        let aGlobalDiff := Z.max aMax aNewCount - Z.min aMin aNewCount in
        let bNewCount := PatternCount.count b + 1 in
        let bGlobalDiff := Z.max bMax bNewCount - Z.min bMin bNewCount in
        if bool_decide (aGlobalDiff ≠ bGlobalDiff) then
          if bool_decide (aGlobalDiff <= 1 ∧ bGlobalDiff > 1) then -1
          else if bool_decide (bGlobalDiff <= 1 ∧ aGlobalDiff > 1) then 1
          else aGlobalDiff - bGlobalDiff
        else byCount
    | _, _ => byCount
    end.

(** The branch without unmet requirements: [candidates[0]] after the
    sort, [None] when there is no pattern. *)
Definition selectBalanced (patterns : list FixedShiftPattern.t)
    (pharmacistPatternUsage : option (gmap string (gmap string Z)))
    (patternUsageCount : list Z) (fullTimePharmacists : list Pharmacist.t)
    (pharmacist : Pharmacist.t) : option PatternCount.t :=
  let counts :=
    pharmacistPatternCounts patterns pharmacistPatternUsage patternUsageCount pharmacist in
  let minCount := minOf (PatternCount.count <$> counts) in
  let balancedPatterns := filter (fun p => keepsBalance counts minCount p = true) counts in
  let candidates :=
    if bool_decide (0 < length balancedPatterns)%nat then balancedPatterns else counts in
  head (sortByComparator
          (compareCandidates (globalPatternDistribution pharmacistPatternUsage
                                fullTimePharmacists)
                             balancedPatterns)
          candidates).

(** The body of [pharmacistsWithoutFixedPattern.forEach]. *)
Definition assignByRotation (rules : PharmacyRules.t) (patterns : list FixedShiftPattern.t)
    (fullTimePharmacists : list Pharmacist.t) (st : FullTimeStage.t)
    (pharmacist : Pharmacist.t) : option FullTimeStage.t :=
  match FullTimeStage.patternRotationTracker st !! Pharmacist.id pharmacist with
  | Some tracker =>
      let unmet := unmetRequirements rules (FullTimeStage.coverageTracker st) in
      let chosen :=
        if bool_decide (0 < length unmet)%nat
        then chooseForUnmet patterns unmet (FullTimeStage.patternUsageCount st)
               (TrackerEntry.patternIndex tracker)
        else
          match selectBalanced patterns (FullTimeStage.pharmacistPatternUsage st)
                  (FullTimeStage.patternUsageCount st) fullTimePharmacists pharmacist with
          | Some selected => Some (PatternCount.pattern selected, PatternCount.index selected)
          | None => None
          end in
      match chosen with
      | Some (pattern, patternIndex) =>
          Some (recordAssignment rules st pharmacist pattern patternIndex tracker
                  ((TrackerEntry.patternIndex tracker + 1) mod length patterns)%nat)
      | None => None
      end
  | None => None
  end.

(** The two loops over the full-time pharmacists of the day. *)
Definition assignPatterns (rules : PharmacyRules.t) (patterns : list FixedShiftPattern.t)
    (fullTimePharmacists : list Pharmacist.t) (dayName : string)
    (patternRotationTracker : gmap string TrackerEntry.t)
    (pharmacistPatternUsage : option (gmap string (gmap string Z)))
    : option FullTimeStage.t :=
  let pharmacistsWithFixedPattern :=
    omap (fun ph => (fun fixed => (ph, fixed)) <$> fixedPatternOfDay patterns dayName ph)
         fullTimePharmacists in
  let pharmacistsWithoutFixedPattern :=
    filter (fun ph => fixedPatternOfDay patterns dayName ph = None) fullTimePharmacists in
  let start :=
    FullTimeStage.mk [] (replicate (length patterns) 0) (createCoverageTracker rules)
                     patternRotationTracker pharmacistPatternUsage in
  match forEachOrThrow (assignFixed rules) start pharmacistsWithFixedPattern with
  | Some st =>
      forEachOrThrow (assignByRotation rules patterns fullTimePharmacists) st
                     pharmacistsWithoutFixedPattern
  | None => None
  end.

(** The assignments of one element of [patternAssignments]: morning and
    afternoon when the pattern has a break, one full day otherwise. *)
Definition assignmentsOfPattern (assigned : Pharmacist.t * FixedShiftPattern.t)
    : list Assignment.t :=
  let '(pharmacist, pattern) := assigned in
  let morningEnd := timeToMinutes (SubShift.endTime (FixedShiftPattern.morningShift pattern)) in
  let afternoonStart :=
    timeToMinutes (SubShift.startTime (FixedShiftPattern.afternoonShift pattern)) in
  if bool_decide (afternoonStart > morningEnd) then
    [ Assignment.mk pharmacist morning
        (SubShift.startTime (FixedShiftPattern.morningShift pattern))
        (SubShift.endTime (FixedShiftPattern.morningShift pattern))
        (Some (FixedShiftPattern.id pattern));
      Assignment.mk pharmacist afternoon
        (SubShift.startTime (FixedShiftPattern.afternoonShift pattern))
        (SubShift.endTime (FixedShiftPattern.afternoonShift pattern))
        (Some (FixedShiftPattern.id pattern)) ]
  else
    [ Assignment.mk pharmacist full
        (SubShift.startTime (FixedShiftPattern.morningShift pattern))
        (SubShift.endTime (FixedShiftPattern.afternoonShift pattern))
        (Some (FixedShiftPattern.id pattern)) ].

(** *** The coverage the part-time stage starts from
    ([createShiftAssignments], second stage) *)

(** Body of [assignments.forEach] that rebuilds the coverage tracker: an
    assignment that names a pattern of the rules counts as that pattern,
    any other assignment counts 1 for every requirement it overlaps. *)
Definition countAssignment (rules : PharmacyRules.t) (patterns : list FixedShiftPattern.t)
    (coverageTracker : gmap string Qc) (assignment : Assignment.t) : gmap string Qc :=
  match Assignment.patternId assignment
        ≫= fun patternId => list_find (fun p => FixedShiftPattern.id p = patternId) patterns with
  | Some (_, pattern) => updateCoverageTracker rules coverageTracker pattern
  | None =>
      foldl (fun tracker req =>
               let assignmentStart := timeToMinutes (Assignment.startTime assignment) in
               let assignmentEnd := timeToMinutes (Assignment.endTime assignment) in
               let reqStart := timeToMinutes (StaffingRequirement.startTime req) in
               let reqEnd := timeToMinutes (StaffingRequirement.endTime req) in
               if bool_decide (assignmentStart < reqEnd ∧ assignmentEnd > reqStart)
               then <[ requirementKey req :=
                         (default 0%Qc (tracker !! requirementKey req) + 1)%Qc ]> tracker
               else tracker)
            coverageTracker (PharmacyRules.staffingRequirements rules)
  end.

(** The coverage tracker of the part-time stage after "update coverage
    tracker after full-time assignments"; [patterns] is
    [this.pharmacyRules.fixedShiftPatterns], which the stage requires. *)
Definition partTimeCoverage (rules : PharmacyRules.t) (patterns : list FixedShiftPattern.t)
    (assignments : list Assignment.t) : gmap string Qc :=
  foldl (countAssignment rules patterns) (createCoverageTracker rules) assignments.

(** ** Concrete inputs used by the examples of Part II *)

(** Two short morning shifts of different pharmacists on the same day. *)
Definition swapRules : PharmacyRules.t :=
  PharmacyRules.mk "default" "Pharmacy" "09:00" "19:30" "12:30" "14:00"
    (Js.ofZ 8) (Js.ofZ 8) (Some []) [].

Definition swapPharmacists : list Pharmacist.t :=
  [ Pharmacist.mk "p1" "Ann" "" (Js.ofZ 40) "Sunday" None true None;
    Pharmacist.mk "p2" "Bob" "" (Js.ofZ 40) "Sunday" None true None ].

Definition swapShiftA : Shift.t := Shift.mk "p1" 0 "09:00" "10:00" morning false None.
Definition swapShiftB : Shift.t := Shift.mk "p2" 0 "09:00" "10:00" morning false None.

(** A part-time pharmacist (20 hours a week, legacy free day "Sunday") and
    the rules of the specification's scenario A: open 09:00-19:30, break
    12:30-14:00, patterns A (09:00-12:30 / 13:00-17:30) and B
    (11:00-13:00 / 14:00-19:30). *)
Definition partTimeWorker : Pharmacist.t :=
  Pharmacist.mk "p3" "Cleo" "" (Js.ofZ 20) "Sunday" None true None.

Definition patternA : FixedShiftPattern.t :=
  FixedShiftPattern.mk "A" "Pattern A" None
    (SubShift.mk "09:00" "12:30") (SubShift.mk "13:00" "17:30").

Definition patternB : FixedShiftPattern.t :=
  FixedShiftPattern.mk "B" "Pattern B" None
    (SubShift.mk "11:00" "13:00") (SubShift.mk "14:00" "19:30").

Definition allDayRequirement : StaffingRequirement.t :=
  StaffingRequirement.mk "r1" "09:00" "19:30" 2.

Definition scenarioRules : PharmacyRules.t :=
  PharmacyRules.mk "default" "Pharmacy" "09:00" "19:30" "12:30" "14:00"
    (Js.ofZ 8) (Js.ofZ 8) (Some [patternA; patternB]) [allDayRequirement].

(** A pharmacist with 37.5 weekly hours over five days (7.5 hours a day,
    the length of pattern B) and the full-day assignment on pattern B that
    the part-time allocator builds for such a day. *)
Definition longPartTimeWorker : Pharmacist.t :=
  Pharmacist.mk "p4" "Dana" "" (Q2Qc (75 # 2)) "Monday" None true None.

Definition fullDayOnPatternB : Assignment.t :=
  Assignment.mk longPartTimeWorker full "11:00" "19:30" (Some "B").

(** Rules whose break lasts ten minutes. *)
Definition shortBreakRules : PharmacyRules.t :=
  PharmacyRules.mk "default" "Pharmacy" "09:00" "19:30" "12:30" "12:40"
    (Js.ofZ 8) (Js.ofZ 8) (Some []) [].

(** An oracle that shuffles nothing and rewrites no time, and an
    assignment strategy that assigns nobody. *)
Definition keepTimes (l : list Shift.t) (i : nat) : string * string :=
  match l !! i with
  | Some s => (Shift.startTime s, Shift.endTime s)
  | None => ("", "")
  end.

Definition stillOracle : Oracle.t :=
  Oracle.mk (fun _ _ l => l) (fun _ _ l => l)
    (fun l _ _ i => keepTimes l i) (fun l _ i => keepTimes l i).

Definition assignNobody : assignmentStrategy :=
  fun _ _ tracker _ _ _ daysRemaining => ([], tracker, daysRemaining).

(** Three pharmacists, one of them off on Monday. *)
Definition threePharmacists : list Pharmacist.t :=
  [ Pharmacist.mk "p1" "Ann" "" (Js.ofZ 40) "Monday" None true None;
    Pharmacist.mk "p2" "Bob" "" (Js.ofZ 40) "Sunday" None true None;
    partTimeWorker ].

(** A pharmacy open 09:00-12:00 and a half-hour morning assignment
    starting at 11:00. *)
Definition morningOnlyRules : PharmacyRules.t :=
  PharmacyRules.mk "default" "Pharmacy" "09:00" "12:00" "10:00" "10:30"
    (Js.ofZ 8) (Js.ofZ 8) (Some []) [].

Definition lateMorning : Assignment.t :=
  Assignment.mk partTimeWorker morning "11:00" "11:30" None.

(* ===================================================================== *)
(** * Part II.  Properties                                                *)
(* ===================================================================== *)

(** ** Sanity checks of the time utilities *)

Example timeToMinutes_0930 : timeToMinutes "09:30" = 570.
Proof. reflexivity. Qed.

Example minutesToTime_570 : minutesToTime 570 = "09:30".
Proof. vm_compute. reflexivity. Qed.

Example calculateShiftHours_90min : Js.toFixed1 (calculateShiftHours "09:00" "10:30") = "1.5".
Proof. vm_compute. reflexivity. Qed.

(** Within a day, writing a minute offset and reading it back is the
    identity (checked on each of the 1440 minutes). *)
Lemma time_roundtrip (m : Z) : 0 <= m < 1440 → timeToMinutes (minutesToTime m) = m.
Proof.
  intros Hm.
  assert (Hall : forallb (fun k => Z.eqb (timeToMinutes (minutesToTime (Z.of_nat k)))
                                         (Z.of_nat k))
                         (seq 0 1440) = true) by (vm_compute; reflexivity).
  rewrite forallb_forall in Hall.
  specialize (Hall (Z.to_nat m)). rewrite Z2Nat.id in Hall by lia.
  apply Z.eqb_eq, Hall. apply in_seq. lia.
Qed.

(** Hours below two are minutes below 120. *)
Lemma hours_lt_two (minutes : Z) :
  (Js.ofZ minutes / Js.ofZ 60 < Js.ofZ 2)%Qc ↔ minutes < 120.
Proof.
  unfold Qclt, Qcdiv, Qcmult, Qcinv, Js.ofZ. simpl.
  rewrite !Qred_correct. unfold Qlt, Qmult, Qinv. simpl. lia.
Qed.

(** ** The warnings map *)

Section WarningsMap.
Context (rules : PharmacyRules.t) (pharmacists : list Pharmacist.t).
Context (weekStart : Z) (shifts : list Shift.t).

Let W := dayWarningsOf rules pharmacists shifts.

Let step := fun (warnings : gmap Z (list string)) (dayIndex : nat) =>
  let dateStr := dateOfDay weekStart dayIndex in
  let dayWarnings := dayWarningsOf rules pharmacists shifts dateStr in
  if bool_decide (0 < length dayWarnings)%nat
  then <[ dateStr := dayWarnings ]> warnings
  else warnings.

Lemma validate_fold_lookup (days : list nat) (m0 : gmap Z (list string)) (d : Z) :
  foldl step m0 days !! d
  = if decide (d ∈ (dateOfDay weekStart <$> days) ∧ W d ≠ []) then Some (W d) else m0 !! d.
Proof.
  assert (Hlen : ∀ l : list string, (0 < length l)%nat ↔ l ≠ []).
  { intros [|? ?]; simpl; split; try done; try lia. }
  revert m0. induction days as [|i days IH]; intros m0.
  - destruct (decide _) as [[H _]|]; [|done]. by apply elem_of_nil in H.
  - change (foldl step m0 (i :: days)) with (foldl step (step m0 i) days).
    rewrite IH. clear IH. rewrite fmap_cons.
    destruct (decide (d ∈ dateOfDay weekStart <$> days ∧ W d ≠ [])) as [[Hin Hne]|Hno];
      destruct (decide (d ∈ dateOfDay weekStart i :: (dateOfDay weekStart <$> days) ∧ W d ≠ []))
        as [[Hin' Hne']|Hno']; try done.
    + exfalso. apply Hno'. split; [by right|done].
    + apply elem_of_cons in Hin' as [->|Hin']; [|exfalso; by apply Hno].
      unfold step. rewrite bool_decide_eq_true_2 by (by apply Hlen).
      by rewrite lookup_insert_eq.
    + unfold step. case_bool_decide as Hb; [|done].
      destruct (decide (dateOfDay weekStart i = d)) as [<-|Hneq].
      * exfalso. apply Hno'. split; [by left|]. by apply Hlen.
      * by rewrite lookup_insert_ne.
Qed.

(** Lookup in the map returned by the validator: a date is a key exactly
    when it is one of the six days of the week and its list of warnings is
    not empty, and the value is that list. *)
Lemma validateShifts_lookup (d : Z) :
  validateShifts rules pharmacists weekStart shifts !! d
  = if decide (weekStart <= d < weekStart + 6 ∧ W d ≠ []) then Some (W d) else None.
Proof.
  unfold validateShifts. fold step. rewrite validate_fold_lookup, lookup_empty.
  assert (Hdays : d ∈ dateOfDay weekStart <$> seq 0 (length workdays)
                  ↔ weekStart <= d < weekStart + 6).
  { rewrite list_elem_of_fmap. change (length workdays) with 6%nat. unfold dateOfDay. split.
    - intros (i & -> & Hi). apply elem_of_seq in Hi. lia.
    - intros Hd. exists (Z.to_nat (d - weekStart)). split; [lia|].
      apply elem_of_seq. lia. }
  destruct (decide (d ∈ dateOfDay weekStart <$> seq 0 (length workdays) ∧ W d ≠ []))
    as [[H1 H2]|H1];
    destruct (decide (weekStart <= d < weekStart + 6 ∧ W d ≠ [])) as [[H3 H4]|H3];
    try done; exfalso.
  - apply H3. split; [by apply Hdays|done].
  - apply H1. split; [by apply Hdays|done].
Qed.

End WarningsMap.

(** ** The coverage scan of one requirement *)

Section CoverageScan.
Context (dayShifts : list Shift.t) (required reqStart reqEnd : Z).

Let step := coverageStep dayShifts required reqEnd.
Let under := fun s : Z * Z => bool_decide (s.2 < required).

Lemma pharmacistIdsWorking_fold (t : Z) (acc : gset string) (l : list Shift.t) :
  foldl (fun acc shift =>
           let shiftStart := timeToMinutes (Shift.startTime shift) in
           let shiftEnd := timeToMinutes (Shift.endTime shift) in
           if bool_decide (shiftStart <= t ∧ shiftEnd > t)
           then acc ∪ {[ Shift.pharmacistId shift ]}
           else acc) acc l
  = acc ∪ list_to_set
      (Shift.pharmacistId <$>
         filter (fun s => timeToMinutes (Shift.startTime s) <= t < timeToMinutes (Shift.endTime s)) l).
Proof.
  revert acc. induction l as [|s l IH]; intros acc.
  - simpl. by rewrite (right_id_L ∅ (∪)).
  - cbn [foldl]. rewrite IH. rewrite filter_cons.
    case_bool_decide as Hb; case_decide as Hd; try lia.
    + rewrite fmap_cons, list_to_set_cons. by rewrite (assoc_L (∪)).
    + done.
Qed.

Lemma pharmacistIdsWorking_count (t : Z) :
  Z.of_nat (size (pharmacistIdsWorking dayShifts t)) = distinctWorkersAt dayShifts t.
Proof.
  unfold pharmacistIdsWorking, distinctWorkersAt.
  rewrite pharmacistIdsWorking_fold. by rewrite (left_id_L ∅ (∪)).
Qed.

Lemma coverageStep_sampleStep (st : coverageState) (t : Z) :
  step st t = sampleStep required reqEnd st (sampleAt dayShifts t).
Proof.
  unfold step, coverageStep, sampleStep, sampleAt, extendPeriod, newPeriod.
  destruct st as [acc cur]. rewrite pharmacistIdsWorking_count. simpl.
  by destruct cur; repeat case_bool_decide.
Qed.

Lemma sampleTimes_lt (t : Z) :
  t < reqEnd → sampleTimes t reqEnd = t :: sampleTimes (t + 30) reqEnd.
Proof.
  intros Hlt. unfold sampleTimes.
  replace (reqEnd - t + 29) with ((reqEnd - (t + 30) + 29) + 1 * 30) by lia.
  rewrite Z.div_add by lia.
  assert (0 <= (reqEnd - (t + 30) + 29) / 30) by (apply Z.div_pos; lia).
  rewrite Z2Nat.inj_add by lia. rewrite Nat.add_comm. simpl.
  f_equal; [lia|]. rewrite <- fmap_S_seq, <- list_fmap_compose.
  apply list_fmap_ext. intros _ k _. simpl. lia.
Qed.

Lemma sampleTimes_ge (t : Z) : reqEnd <= t → sampleTimes t reqEnd = [].
Proof.
  intros Hge. unfold sampleTimes.
  assert ((reqEnd - t + 29) / 30 <= 0) as H.
  { apply Z.lt_succ_r. apply Z.div_lt_upper_bound; lia. }
  by replace (Z.to_nat ((reqEnd - t + 29) / 30)) with 0%nat by lia.
Qed.

(** The sample times are the instants [reqStart + 30 k] below [reqEnd]. *)
Lemma sampleTimes_spec (t : Z) :
  t ∈ sampleTimes reqStart reqEnd ↔ ∃ k : nat, t = reqStart + 30 * Z.of_nat k ∧ t < reqEnd.
Proof.
  unfold sampleTimes. rewrite list_elem_of_fmap.
  pose proof (Z.div_mod (reqEnd - reqStart + 29) 30 ltac:(lia)) as Hdm.
  pose proof (Z.mod_pos_bound (reqEnd - reqStart + 29) 30 ltac:(lia)) as Hmod.
  split.
  - intros (k & -> & Hk). exists k. split; [done|]. apply elem_of_seq in Hk. lia.
  - intros (k & -> & Hlt). exists k. split; [done|]. apply elem_of_seq. lia.
Qed.

(** The [for] loop, given enough fuel, is a fold over the sample times. *)
Lemma coverageLoop_fold (fuel : nat) (t : Z) (st : coverageState) :
  (Z.to_nat (reqEnd - t) <= fuel)%nat →
  coverageLoop fuel dayShifts required reqEnd t st = foldl step st (sampleTimes t reqEnd).
Proof.
  revert t st. induction fuel as [|fuel IH]; intros t st Hfuel.
  - simpl. rewrite sampleTimes_ge by lia. done.
  - simpl. case_bool_decide as Hlt.
    + rewrite sampleTimes_lt by done. simpl. apply IH. lia.
    + rewrite sampleTimes_ge by lia. done.
Qed.

(** Every period the loop produces lies inside the window and is not empty. *)
Lemma coverageLoop_good (fuel : nat) (t : Z) (acc : list InsufficientPeriod)
    (cur : option InsufficientPeriod) :
  reqStart <= t →
  Forall (goodPeriod reqStart reqEnd) acc →
  (∀ p, cur = Some p → goodPeriod reqStart reqEnd p ∧ end_ p <= t) →
  Forall (goodPeriod reqStart reqEnd)
    (closePeriods reqEnd (coverageLoop fuel dayShifts required reqEnd t (acc, cur))).
Proof.
  revert t acc cur. induction fuel as [|fuel IH]; intros t acc cur Ht Hacc Hcur.
  - simpl. unfold closePeriods. simpl. destruct cur as [p|]; [|done].
    destruct (Hcur p eq_refl) as [(H1 & H2 & H3) _].
    apply Forall_app. split; [done|]. apply Forall_singleton.
    unfold goodPeriod. simpl. lia.
  - simpl. case_bool_decide as Hlt.
    + unfold coverageStep. case_bool_decide as Hunder.
      * destruct cur as [p|].
        -- destruct (Hcur p eq_refl) as [(H1 & H2 & H3) H4].
           apply IH; [lia|done|]. intros q [= <-]. unfold goodPeriod. simpl. lia.
        -- apply IH; [lia|done|]. intros q [= <-]. unfold goodPeriod. simpl. lia.
      * destruct cur as [p|].
        -- destruct (Hcur p eq_refl) as [Hp _].
           apply IH; [lia| |done]. apply Forall_app. split; [done|]. by apply Forall_singleton.
        -- apply IH; [lia|done|done].
    + unfold closePeriods. simpl. destruct cur as [p|]; [|done].
      destruct (Hcur p eq_refl) as [(H1 & H2 & H3) _].
      apply Forall_app. split; [done|]. apply Forall_singleton.
      unfold goodPeriod. simpl. lia.
Qed.

End CoverageScan.

(** ** Maximal runs *)

Section MaximalRuns.
Context {A : Type} (P : A → bool).

Lemma maximalRuns_skip (x : A) (rest : list A) :
  P x = false → maximalRuns P (x :: rest) = maximalRuns P rest.
Proof. intros H. simpl. by rewrite H. Qed.

Lemma maximalRuns_last (x : A) : P x = true → maximalRuns P [x] = [[x]].
Proof. intros H. simpl. by rewrite H. Qed.

Lemma maximalRuns_stop (x y : A) (rest : list A) :
  P x = true → P y = false →
  maximalRuns P (x :: y :: rest) = [x] :: maximalRuns P (y :: rest).
Proof. intros Hx Hy. cbn [maximalRuns]. by rewrite Hx, Hy. Qed.

Lemma maximalRuns_continue (x y : A) (rest : list A) :
  P x = true → P y = true →
  maximalRuns P (x :: y :: rest)
  = match maximalRuns P (y :: rest) with
    | run :: runs => (x :: run) :: runs
    | [] => [[x]]
    end.
Proof. intros Hx Hy. cbn [maximalRuns]. by rewrite Hx, Hy. Qed.

(** The runs are not empty, consist of elements that satisfy [P], and
    together they are the elements of the list that satisfy [P], in order. *)
Lemma maximalRuns_spec (l : list A) :
  Forall (fun run => run ≠ [] ∧ Forall (fun x => P x = true) run) (maximalRuns P l)
  ∧ concat (maximalRuns P l) = filter (fun x => P x = true) l.
Proof.
  induction l as [|x rest [IH1 IH2]]; [by split; [constructor|]|].
  rewrite filter_cons. destruct (P x) eqn:Hx.
  - rewrite decide_True by done. destruct rest as [|y rest'].
    + rewrite maximalRuns_last by done. split; [|done].
      repeat constructor; [done|by rewrite Hx].
    + destruct (P y) eqn:Hy.
      * rewrite maximalRuns_continue by done.
        destruct (maximalRuns P (y :: rest')) as [|run runs].
        -- simpl in IH2 |- *. rewrite <- IH2. split; [|done].
           repeat constructor; [done|by rewrite Hx].
        -- simpl in IH2 |- *. rewrite <- IH2. split; [|done].
           apply Forall_cons in IH1 as [[_ Hrun] Hruns].
           constructor; [|done]. split; [done|]. by constructor.
      * rewrite maximalRuns_stop by done. cbn [concat app]. rewrite IH2. split; [|done].
        constructor; [|done]. split; [done|]. by repeat constructor.
  - rewrite decide_False by done. by rewrite maximalRuns_skip.
Qed.

(** The two equations that determine the runs: a non-empty block of
    elements that all satisfy [P] is one run, and an element that does not
    satisfy [P] separates the runs before it from the runs after it. *)
Lemma maximalRuns_block (l : list A) :
  l ≠ [] → Forall (fun x => P x = true) l → maximalRuns P l = [l].
Proof.
  induction l as [|x l IH]; [done|]. intros _ Hall.
  apply Forall_cons in Hall as [Hx Hl]. destruct l as [|y l'].
  - by apply maximalRuns_last.
  - pose proof Hl as Hl'. apply Forall_cons in Hl' as [Hy _].
    rewrite maximalRuns_continue by done. by rewrite IH.
Qed.

Lemma maximalRuns_open (x : A) (l : list A) : P x = true → maximalRuns P (x :: l) ≠ [].
Proof.
  intros Hx. destruct l as [|y l].
  - by rewrite maximalRuns_last.
  - destruct (P y) eqn:Hy.
    + rewrite maximalRuns_continue by done. by destruct (maximalRuns P (y :: l)).
    + by rewrite maximalRuns_stop.
Qed.

Lemma maximalRuns_gap (l1 l2 : list A) (x : A) :
  P x = false →
  maximalRuns P (l1 ++ x :: l2) = maximalRuns P l1 ++ maximalRuns P l2.
Proof.
  intros Hx. induction l1 as [|a l1 IH].
  - simpl. by rewrite Hx.
  - destruct (P a) eqn:Ha.
    + destruct l1 as [|b l1'].
      * change ([a] ++ x :: l2) with (a :: x :: l2).
        rewrite (maximalRuns_stop a x), (maximalRuns_skip x), (maximalRuns_last a) by done.
        done.
      * destruct (P b) eqn:Hb.
        -- change ((a :: b :: l1') ++ x :: l2) with (a :: b :: (l1' ++ x :: l2)).
           rewrite !maximalRuns_continue by done.
           change (b :: l1' ++ x :: l2) with ((b :: l1') ++ x :: l2). rewrite IH.
           pose proof (maximalRuns_open b l1' Hb).
           by destruct (maximalRuns P (b :: l1')).
        -- change ((a :: b :: l1') ++ x :: l2) with (a :: b :: (l1' ++ x :: l2)).
           rewrite !maximalRuns_stop by done.
           change (b :: l1' ++ x :: l2) with ((b :: l1') ++ x :: l2). by rewrite IH.
    + change ((a :: l1) ++ x :: l2) with (a :: (l1 ++ x :: l2)).
      by rewrite !maximalRuns_skip.
Qed.

End MaximalRuns.

(** ** The scan against the runs of under-staffed samples *)

Section ScanRuns.
Context (required reqStart reqEnd : Z).

Let sstep := sampleStep required reqEnd.
Let under := fun s : Z * Z => bool_decide (s.2 < required).

Lemma last_cons_default {B : Type} (x d : B) (l : list B) :
  List.last (x :: l) d = List.last l x.
Proof.
  revert x d. induction l as [|y l IH]; intros x d; [done|].
  change (List.last (x :: y :: l) d) with (List.last (y :: l) d).
  by rewrite !IH.
Qed.

Lemma extendPeriod_fold (others : list (Z * Z)) (p : InsufficientPeriod) (d : Z * Z) :
  end_ p = Z.min (d.1 + 30) reqEnd →
  let q := foldl (extendPeriod reqEnd) p others in
  start q = start p
  ∧ end_ q = Z.min ((List.last others d).1 + 30) reqEnd
  ∧ minCount q = foldl (fun m s => Z.min m s.2) (minCount p) others.
Proof.
  revert p d. induction others as [|s others IH]; intros p d Hend; [done|].
  cbn [foldl]. rewrite last_cons_default.
  destruct (IH (extendPeriod reqEnd p s) s eq_refl) as (H1 & H2 & H3).
  rewrite H1, H2, H3. repeat split. simpl. f_equal. case_bool_decide; lia.
Qed.

Lemma scan_runs (l : list (Z * Z)) :
  (∀ acc p, end_ p <= reqEnd →
     closePeriods reqEnd (foldl sstep (acc, Some p) l)
     = acc ++ periodsWithOpen reqEnd p (headIs under l) (maximalRuns under l))
  ∧ (∀ acc,
     closePeriods reqEnd (foldl sstep (acc, None) l)
     = acc ++ flat_map (runPeriod reqEnd) (maximalRuns under l)).
Proof.
  induction l as [|s l [IHsome IHnone]].
  - split; intros acc; [intros p Hp|]; unfold closePeriods; simpl.
    + f_equal. f_equal. destruct p as [a b c]. simpl in *. f_equal. lia.
    + by rewrite app_nil_r.
  - assert (Hext : ∀ p, end_ (extendPeriod reqEnd p s) <= reqEnd) by (intros p; simpl; lia).
    assert (Hnew : end_ (newPeriod reqEnd s) <= reqEnd) by (simpl; lia).
    split; intros acc; [intros p Hp|]; cbn [foldl]; unfold sstep at 2, sampleStep;
      fold (under s); destruct (under s) eqn:Hs; cbn [fst snd headIs]; rewrite ?Hs.
    + rewrite IHsome by done. f_equal. destruct l as [|y l'].
      * by rewrite maximalRuns_last.
      * cbn [headIs]. destruct (under y) eqn:Hy.
        -- rewrite (maximalRuns_continue under s y) by done.
           by destruct (maximalRuns under (y :: l')).
        -- by rewrite (maximalRuns_stop under s y).
    + rewrite IHnone, maximalRuns_skip by done. by rewrite <- app_assoc.
    + rewrite IHsome by done. f_equal. destruct l as [|y l'].
      * by rewrite maximalRuns_last.
      * cbn [headIs]. destruct (under y) eqn:Hy.
        -- rewrite (maximalRuns_continue under s y) by done.
           by destruct (maximalRuns under (y :: l')).
        -- by rewrite (maximalRuns_stop under s y).
    + by rewrite IHnone, maximalRuns_skip.
Qed.

End ScanRuns.

(** ** Coverage warnings of a requirement *)

Lemma foldl_pointwise {A B : Type} (f g : A → B → A) (a : A) (l : list B) :
  (∀ x y, f x y = g x y) → foldl f a l = foldl g a l.
Proof.
  intros Hfg. revert a. induction l as [|y l IH]; intros a; [done|].
  simpl. by rewrite Hfg, IH.
Qed.

Lemma insufficientPeriodsOf_runs (dayShifts : list Shift.t) (requirement : StaffingRequirement.t) :
  let reqStart := timeToMinutes (StaffingRequirement.startTime requirement) in
  let reqEnd := timeToMinutes (StaffingRequirement.endTime requirement) in
  let required := StaffingRequirement.requiredPharmacists requirement in
  insufficientPeriodsOf dayShifts requirement
  = flat_map (runPeriod reqEnd)
      (maximalRuns (fun s => bool_decide (s.2 < required))
                   (sampleAt dayShifts <$> sampleTimes reqStart reqEnd))
  ∧ Forall (goodPeriod reqStart reqEnd) (insufficientPeriodsOf dayShifts requirement).
Proof.
  intros reqStart reqEnd required.
  assert (Hclose : insufficientPeriodsOf dayShifts requirement
                   = closePeriods reqEnd
                       (coverageLoop (Z.to_nat (reqEnd - reqStart)) dayShifts required reqEnd
                          reqStart ([], None))).
  { unfold insufficientPeriodsOf, closePeriods.
    fold reqStart reqEnd required.
    by destruct (coverageLoop _ _ _ _ _ _) as [acc [p|]]. }
  split.
  - rewrite Hclose, coverageLoop_fold by lia.
    rewrite (foldl_pointwise _ (fun st t => sampleStep required reqEnd st (sampleAt dayShifts t)))
      by (intros; apply coverageStep_sampleStep).
    rewrite <- (foldl_fmap (sampleStep required reqEnd)).
    by rewrite (proj2 (scan_runs required reqEnd _)).
  - rewrite Hclose. apply coverageLoop_good; [lia|done|done].
Qed.

Lemma reportPeriod_good (requirement : StaffingRequirement.t) (p : InsufficientPeriod) :
  let reqStart := timeToMinutes (StaffingRequirement.startTime requirement) in
  let reqEnd := timeToMinutes (StaffingRequirement.endTime requirement) in
  goodPeriod reqStart reqEnd p →
  reportPeriod requirement p
  = [coverageMessage (start p) (end_ p) (minCount p)
       (StaffingRequirement.requiredPharmacists requirement) reqStart reqEnd].
Proof.
  intros reqStart reqEnd (H1 & H2 & H3). unfold reportPeriod. fold reqStart reqEnd.
  rewrite bool_decide_eq_true_2 by lia.
  by rewrite Z.max_l, Z.min_l by lia.
Qed.

Lemma runWarning_runPeriod (requirement : StaffingRequirement.t) (run : list (Z * Z)) :
  let reqStart := timeToMinutes (StaffingRequirement.startTime requirement) in
  let reqEnd := timeToMinutes (StaffingRequirement.endTime requirement) in
  Forall (goodPeriod reqStart reqEnd) (runPeriod reqEnd run) →
  flat_map (reportPeriod requirement) (runPeriod reqEnd run) = runWarning requirement run.
Proof.
  intros reqStart reqEnd Hgood. destruct run as [|first others]; [done|].
  unfold runPeriod in *. rewrite Forall_singleton in Hgood.
  cbn [flat_map]. rewrite app_nil_r, reportPeriod_good by done.
  unfold runWarning, runMinCount. fold reqStart reqEnd.
  destruct (extendPeriod_fold reqEnd others (newPeriod reqEnd first) first eq_refl)
    as (Hs & He & Hm).
  destruct Hgood as (G1 & G2 & G3). rewrite Hs in G1.
  rewrite Hs, He, Hm. simpl. by rewrite Z.max_l by done.
Qed.

Lemma requirementWarnings_spec (dayShifts : list Shift.t) (requirement : StaffingRequirement.t) :
  requirementWarnings dayShifts requirement = specCoverageWarnings dayShifts requirement.
Proof.
  unfold requirementWarnings, specCoverageWarnings.
  destruct (insufficientPeriodsOf_runs dayShifts requirement) as [Hruns Hgood].
  rewrite Hruns in Hgood |- *. clear Hruns. fold (sampleAt dayShifts).
  induction (maximalRuns _ _) as [|run runs IH]; [done|].
  cbn [flat_map] in *. apply Forall_app in Hgood as [Hrun Hrest].
  rewrite flat_map_app, runWarning_runPeriod by done. by rewrite IH.
Qed.

(** ** Decomposition of a day's warnings *)

Section DayWarnings.
Context (rules : PharmacyRules.t) (pharmacists : list Pharmacist.t).

Lemma shiftCheck_fold (l : list Shift.t) (obj : Js.obj Qc) (w : list string) :
  foldl (shiftCheckStep rules pharmacists) (obj, w) l
  = ((foldl (shiftCheckStep rules pharmacists) (obj, []) l).1,
     w ++ flat_map (shiftWarnings rules pharmacists) l).
Proof.
  revert obj w. induction l as [|s l IH]; intros obj w.
  - simpl. by rewrite app_nil_r.
  - cbn [foldl flat_map]. unfold shiftCheckStep at 2 4. rewrite IH.
    rewrite (IH _ ([] ++ _)). by rewrite app_assoc.
Qed.

Lemma dayWarningsOf_parts (shifts : list Shift.t) (dateStr : Z) :
  let dayShifts := filter (fun s => Shift.date s = dateStr) shifts in
  dayWarningsOf rules pharmacists shifts dateStr
  = flat_map (requirementWarnings dayShifts) (PharmacyRules.staffingRequirements rules)
    ++ flat_map (shiftWarnings rules pharmacists) dayShifts
    ++ flat_map (dailyHoursWarning rules pharmacists)
         (Js.entries (dailyHoursOf rules pharmacists dayShifts)).
Proof.
  intros dayShifts. unfold dayWarningsOf, dailyHoursOf. fold dayShifts.
  rewrite shiftCheck_fold. by rewrite app_assoc.
Qed.

End DayWarnings.

(** C5.  For every schedule, day and staffing requirement, the coverage
    warnings the validator emits are those of the specification: the
    requirement window is sampled every 30 minutes, the distinct worker ids
    on shift at each sample are counted, the under-staffed samples are
    grouped into maximal runs, and each run yields exactly one warning
    "Insufficient coverage S-E: min/required (requirement: RS-RE)" whose
    period is clipped to the requirement; these warnings open the day's
    list, in the order of the requirements. *)
Theorem validator_coverage_warnings (rules : PharmacyRules.t) (pharmacists : list Pharmacist.t)
    (shifts : list Shift.t) (dateStr : Z) (requirement : StaffingRequirement.t) :
  let dayShifts := filter (fun s => Shift.date s = dateStr) shifts in
  let reqStart := timeToMinutes (StaffingRequirement.startTime requirement) in
  let reqEnd := timeToMinutes (StaffingRequirement.endTime requirement) in
  let samples := (fun t => (t, distinctWorkersAt dayShifts t)) <$> sampleTimes reqStart reqEnd in
  let runs :=
    maximalRuns (fun s => bool_decide (s.2 < StaffingRequirement.requiredPharmacists requirement))
                samples in
  requirementWarnings dayShifts requirement = flat_map (runWarning requirement) runs
  ∧ length (requirementWarnings dayShifts requirement) = length runs
  ∧ dayWarningsOf rules pharmacists shifts dateStr
    = flat_map (specCoverageWarnings dayShifts) (PharmacyRules.staffingRequirements rules)
      ++ flat_map (shiftWarnings rules pharmacists) dayShifts
      ++ flat_map (dailyHoursWarning rules pharmacists)
           (Js.entries (dailyHoursOf rules pharmacists dayShifts)).
Proof.
  intros dayShifts reqStart reqEnd samples runs.
  assert (Hspec : requirementWarnings dayShifts requirement
                  = flat_map (runWarning requirement) runs)
    by apply requirementWarnings_spec.
  split; [done|]. split.
  - rewrite Hspec. clear Hspec. subst runs.
    destruct (maximalRuns_spec
                (fun s => bool_decide (s.2 < StaffingRequirement.requiredPharmacists requirement))
                samples) as [Hne _].
    induction Hne as [|run rest [Hrun _] _ IH]; [done|].
    cbn [flat_map]. rewrite length_app, IH.
    destruct run; [done|]. done.
  - rewrite dayWarningsOf_parts. fold dayShifts. f_equal.
    induction (PharmacyRules.staffingRequirements rules) as [|r rs IH]; [done|].
    cbn [flat_map]. by rewrite IH, requirementWarnings_spec.
Qed.

(** C10.  The warnings map has a key for a date exactly when that date is
    one of the six days of the week and its list of warnings is not empty:
    every stored list is non-empty (it is the day's list), and a day
    without warnings is an absent key, never an empty list. *)
Theorem warnings_keys_nonempty (rules : PharmacyRules.t) (pharmacists : list Pharmacist.t)
    (schedule : Schedule.t) :
  let warnings := validateSchedule rules pharmacists schedule in
  let dayWarnings := dayWarningsOf rules pharmacists (Schedule.shifts schedule) in
  (∀ d ws, warnings !! d = Some ws → ws ≠ [] ∧ ws = dayWarnings d)
  ∧ (∀ d, is_Some (warnings !! d)
          ↔ Schedule.weekStart schedule <= d < Schedule.weekStart schedule + 6
            ∧ dayWarnings d ≠ [])
  ∧ (∀ d, dayWarnings d = [] → warnings !! d = None).
Proof.
  intros warnings dayWarnings. subst warnings. unfold validateSchedule.
  split; [|split].
  - intros d ws H. rewrite validateShifts_lookup in H.
    destruct (decide _) as [[_ Hne]|]; [|done]. by injection H as <-.
  - intros d. rewrite validateShifts_lookup. split.
    + intros H. destruct (decide _) as [Hd|]; [done|]. by destruct H.
    + intros Hd. by rewrite decide_True.
  - intros d Hd. rewrite validateShifts_lookup. rewrite decide_False; [done|].
    intros [_ Hne]. by apply Hne.
Qed.

(** ** JavaScript objects as ordered dictionaries *)

Section JsObject.
Context {V : Type}.
Implicit Types (o : Js.obj V) (k : string) (v : V).

Lemma get_set_eq k v o : Js.get k (Js.set k v o) = Some v.
Proof.
  induction o as [|[k' v'] o IH]; simpl.
  - by rewrite bool_decide_eq_true_2.
  - case_bool_decide as Hk; simpl.
    + by rewrite bool_decide_eq_true_2.
    + by rewrite bool_decide_eq_false_2.
Qed.

Lemma get_set_ne k k' v o : k ≠ k' → Js.get k' (Js.set k v o) = Js.get k' o.
Proof.
  intros Hne. induction o as [|[k'' v''] o IH]; simpl.
  - by rewrite bool_decide_eq_false_2.
  - case_bool_decide as Hk; simpl.
    + subst k''. by rewrite !bool_decide_eq_false_2.
    + by rewrite IH.
Qed.

Lemma get_None_keys k o : Js.get k o = None ↔ k ∉ o.*1.
Proof.
  induction o as [|[k' v'] o IH]; simpl.
  - split; [intros _; apply not_elem_of_nil|done].
  - rewrite not_elem_of_cons. case_bool_decide as Hk.
    + split; [done|]. intros [Hne _]. by destruct Hne.
    + rewrite IH. split; [by intros ?; split|by intros [_ ?]].
Qed.

Lemma keys_set k v o :
  (Js.set k v o).*1 = match Js.get k o with Some _ => o.*1 | None => o.*1 ++ [k] end.
Proof.
  induction o as [|[k' v'] o IH]; [done|].
  cbn [Js.set Js.get]. case_bool_decide as Hk.
  - by subst.
  - rewrite !fmap_cons, IH. by destruct (Js.get k o).
Qed.

Lemma NoDup_keys_set k v o : NoDup o.*1 → NoDup (Js.set k v o).*1.
Proof.
  intros Hnd. rewrite keys_set. destruct (Js.get k o) eqn:Hget; [done|].
  apply NoDup_app. split; [done|]. split; [|apply NoDup_singleton].
  intros x Hx Hx'. apply list_elem_of_singleton in Hx' as ->.
  by apply get_None_keys in Hget.
Qed.

Lemma elem_of_get k v o : NoDup o.*1 → (k, v) ∈ o ↔ Js.get k o = Some v.
Proof.
  induction o as [|[k' v'] o IH]; simpl; intros Hnd.
  - split; [intros H; by apply elem_of_nil in H|done].
  - apply NoDup_cons in Hnd as [Hk' Hnd]. rewrite elem_of_cons, (IH Hnd).
    case_bool_decide as Hk.
    + subst k'. split.
      * intros [[= ->]|Hget]; [done|].
        exfalso. apply Hk'. apply dec_stable. intros Hnot.
        apply get_None_keys in Hnot. congruence.
      * intros [= ->]. by left.
    + split; [|by right]. intros [[= -> ->]|Hget]; [by destruct Hk|done].
Qed.

Lemma NoDup_of_keys o : NoDup o.*1 → NoDup o.
Proof. apply NoDup_fmap_1. Qed.

Lemma entries_Permutation o : Js.entries o ≡ₚ o.
Proof.
  unfold Js.entries. rewrite merge_sort_Permutation. apply filter_app_complement.
Qed.

End JsObject.

Lemma foldl_comm_Permutation {A B : Type} (f : A → B → A) (l1 l2 : list B) :
  (∀ a x y, f (f a x) y = f (f a y) x) →
  l1 ≡ₚ l2 → ∀ a, foldl f a l1 = foldl f a l2.
Proof.
  intros Hcomm Hperm. induction Hperm as [|x l l' _ IH|x y l|l l' l'' _ IH1 _ IH2]; intros a.
  - done.
  - simpl. apply IH.
  - simpl. by rewrite Hcomm.
  - by rewrite IH1, IH2.
Qed.

(** ** The daily-hours object *)

Section DailyHours.
Context (rules : PharmacyRules.t) (pharmacists : list Pharmacist.t).

Let hours := fun s : Shift.t => calculateShiftHours (Shift.startTime s) (Shift.endTime s).

(** What one key holds after a shift has been processed. *)
Let bump := fun (k : string) (acc : option Qc) (s : Shift.t) =>
  if decide (Shift.pharmacistId s = k) then Some (default 0%Qc acc + hours s)%Qc else acc.

Lemma shiftCheckStep_hoursStep (obj : Js.obj Qc) (w : list string) (s : Shift.t) :
  shiftCheckStep rules pharmacists (obj, w) s
  = (hoursStep obj s, w ++ shiftWarnings rules pharmacists s).
Proof. done. Qed.

Lemma dailyHoursOf_fold (l : list Shift.t) :
  dailyHoursOf rules pharmacists l = foldl hoursStep [] l.
Proof.
  unfold dailyHoursOf. generalize (@nil string). generalize (@nil (string * Qc)).
  induction l as [|s l IH]; intros obj w; [done|].
  cbn [foldl]. rewrite shiftCheckStep_hoursStep. apply IH.
Qed.

Lemma hoursStep_get (k : string) (obj : Js.obj Qc) (s : Shift.t) :
  Js.get k (hoursStep obj s) = bump k (Js.get k obj) s.
Proof.
  unfold hoursStep, bump. set (pid := Shift.pharmacistId s).
  destruct (decide (pid = k)) as [<-|Hne].
  - rewrite get_set_eq. f_equal. f_equal.
    destruct (Js.get pid obj) as [h|] eqn:Hget.
    + case_bool_decide as Hh; [|by rewrite Hget]. by rewrite get_set_eq, Hh.
    + by rewrite get_set_eq.
  - rewrite get_set_ne by done.
    destruct (Js.get pid obj) as [h|]; [case_bool_decide|]; by rewrite ?get_set_ne.
Qed.

Lemma hoursStep_NoDup (obj : Js.obj Qc) (s : Shift.t) :
  NoDup obj.*1 → NoDup (hoursStep obj s).*1.
Proof.
  intros Hnd. unfold hoursStep. apply NoDup_keys_set.
  destruct (Js.get _ obj); [case_bool_decide|]; by try apply NoDup_keys_set.
Qed.

Lemma hoursFold_get (k : string) (l : list Shift.t) (obj : Js.obj Qc) :
  Js.get k (foldl hoursStep obj l) = foldl (bump k) (Js.get k obj) l.
Proof.
  revert obj. induction l as [|s l IH]; intros obj; [done|].
  cbn [foldl]. by rewrite IH, hoursStep_get.
Qed.

Lemma hoursFold_NoDup (l : list Shift.t) (obj : Js.obj Qc) :
  NoDup obj.*1 → NoDup (foldl hoursStep obj l).*1.
Proof.
  revert obj. induction l as [|s l IH]; intros obj Hnd; [done|].
  cbn [foldl]. by apply IH, hoursStep_NoDup.
Qed.

Lemma bump_comm (k : string) (acc : option Qc) (x y : Shift.t) :
  bump k (bump k acc x) y = bump k (bump k acc y) x.
Proof.
  unfold bump. repeat case_decide; try done. simpl. f_equal. ring.
Qed.

(** Permuting the day's shifts permutes the properties of the object. *)
Lemma dailyHoursOf_Permutation (l1 l2 : list Shift.t) :
  l1 ≡ₚ l2 → dailyHoursOf rules pharmacists l1 ≡ₚ dailyHoursOf rules pharmacists l2.
Proof.
  intros Hperm. rewrite !dailyHoursOf_fold.
  assert (Hnd : ∀ l, NoDup (foldl hoursStep [] l).*1).
  { intros l. apply hoursFold_NoDup. constructor. }
  apply NoDup_Permutation; [by apply NoDup_of_keys..|].
  intros [k v]. rewrite !elem_of_get by done. rewrite !hoursFold_get.
  by rewrite (foldl_comm_Permutation (bump k) l1 l2 (bump_comm k) Hperm).
Qed.

End DailyHours.

(** ** Validation and the order of the shift list *)

Section ShiftOrder.
Context (rules : PharmacyRules.t) (pharmacists : list Pharmacist.t).

Lemma distinctWorkersAt_Permutation (l1 l2 : list Shift.t) (t : Z) :
  l1 ≡ₚ l2 → distinctWorkersAt l1 t = distinctWorkersAt l2 t.
Proof.
  intros Hperm. unfold distinctWorkersAt. do 2 f_equal.
  apply list_to_set_perm_L. by rewrite Hperm.
Qed.

Lemma requirementWarnings_Permutation (l1 l2 : list Shift.t) (req : StaffingRequirement.t) :
  l1 ≡ₚ l2 → requirementWarnings l1 req = requirementWarnings l2 req.
Proof.
  intros Hperm. rewrite !requirementWarnings_spec. unfold specCoverageWarnings.
  do 2 f_equal. apply list_fmap_ext. intros _ t _.
  by rewrite (distinctWorkersAt_Permutation l1 l2).
Qed.

Lemma coverageWarnings_Permutation (l1 l2 : list Shift.t) (reqs : list StaffingRequirement.t) :
  l1 ≡ₚ l2 → flat_map (requirementWarnings l1) reqs = flat_map (requirementWarnings l2) reqs.
Proof.
  intros Hperm. induction reqs as [|r reqs IH]; [done|].
  cbn [flat_map]. by rewrite IH, (requirementWarnings_Permutation l1 l2).
Qed.

Lemma dayWarningsOf_Permutation (shifts1 shifts2 : list Shift.t) (d : Z) :
  shifts1 ≡ₚ shifts2 →
  dayWarningsOf rules pharmacists shifts1 d ≡ₚ dayWarningsOf rules pharmacists shifts2 d.
Proof.
  intros Hperm. rewrite !dayWarningsOf_parts.
  assert (Hday : filter (fun s => Shift.date s = d) shifts1
                 ≡ₚ filter (fun s => Shift.date s = d) shifts2) by by rewrite Hperm.
  rewrite (coverageWarnings_Permutation _ _ _ Hday).
  apply Permutation_app_head, Permutation_app.
  - by apply Permutation_flat_map.
  - apply Permutation_flat_map. rewrite !entries_Permutation.
    by apply dailyHoursOf_Permutation.
Qed.

Lemma validateShifts_Permutation (weekStart : Z) (shifts1 shifts2 : list Shift.t) :
  shifts1 ≡ₚ shifts2 →
  sameUpToOrder (validateShifts rules pharmacists weekStart shifts1)
                (validateShifts rules pharmacists weekStart shifts2).
Proof.
  intros Hperm d. rewrite !validateShifts_lookup.
  pose proof (dayWarningsOf_Permutation shifts1 shifts2 d Hperm) as Hd.
  destruct (decide _) as [[Hin H1]|H1]; destruct (decide _) as [[Hin2 H2]|H2].
  - by constructor.
  - exfalso. apply H2. split; [done|]. intros Hnil. rewrite Hnil in Hd.
    by apply Permutation_nil_r in Hd.
  - exfalso. apply H1. split; [done|]. intros Hnil. rewrite Hnil in Hd.
    symmetry in Hd. by apply Permutation_nil_r in Hd.
  - constructor.
Qed.

End ShiftOrder.




(** ** The warning resolver *)

Section Resolver.
Context (test : nat → Schedule.t) (count : Schedule.t → nat).

(** The loop never records a candidate that is not strictly better than
    the count it started from, and the count it returns is the one of the
    candidate it returns. *)
Lemma resolveLoop_spec (attempts : list nat) (best : option Schedule.t) (bestCount : nat) :
  (∀ s, best = Some s → count s = bestCount) →
  let result := resolveLoop test count attempts best bestCount in
  (result.2 <= bestCount)%nat
  ∧ (∀ s, result.1 = Some s → count s = result.2)
  ∧ (∀ s, result.1 = Some s → best = Some s ∨ ∃ attempt, attempt ∈ attempts ∧ s = test attempt).
Proof.
  revert best bestCount. induction attempts as [|attempt rest IH]; intros best bestCount Hbest.
  - simpl. split; [lia|]. split; [done|]. intros s Hs. by left.
  - cbn [resolveLoop]. case_bool_decide as Hlt.
    + case_bool_decide as Hzero.
      * simpl. split; [lia|]. split; [by intros s [= <-]|].
        intros s [= <-]. right. exists attempt. split; [by left|done].
      * destruct (IH (Some (test attempt)) (count (test attempt))) as (H1 & H2 & H3).
        { by intros s [= <-]. }
        split; [lia|]. split; [done|]. intros s Hs.
        destruct (H3 s Hs) as [[= <-]|(a & Ha & ->)]; right.
        -- exists attempt. split; [by left|done].
        -- exists a. split; [by right|done].
    + destruct (IH best bestCount Hbest) as (H1 & H2 & H3).
      split; [done|]. split; [done|]. intros s Hs.
      destruct (H3 s Hs) as [?|(a & Ha & ->)]; [by left|right].
      exists a. split; [by right|done].
Qed.

End Resolver.

Lemma tryResolveWarnings_better (createShiftAssignments : assignmentStrategy)
    (g : ScheduleGenerator.t) (weekStart weekNumber : Z)
    (originalSchedule : Schedule.t) (originalWarnings : gmap Z (list string))
    (bestSchedule : Schedule.t) :
  tryResolveWarnings createShiftAssignments g weekStart weekNumber originalSchedule
    originalWarnings = Some bestSchedule →
  (warningCount (validateSchedule (ScheduleGenerator.pharmacyRules g)
                   (ScheduleGenerator.pharmacists g) bestSchedule)
   <= warningCount originalWarnings)%nat
  ∧ ∃ tracker,
      bestSchedule
      = generateWeekScheduleWithRotation createShiftAssignments g weekStart weekNumber tracker.
Proof.
  unfold tryResolveWarnings.
  destruct (PharmacyRules.fixedShiftPatterns _) as [patterns|]; [|done].
  case_bool_decide; [done|].
  set (test := fun attempt : nat => generateWeekScheduleWithRotation _ _ _ _ _).
  set (count := fun s : Schedule.t => warningCount _).
  set (attempts := seq 0 _). intros Hres.
  destruct (resolveLoop_spec test count attempts None (warningCount originalWarnings))
    as (H1 & H2 & H3); [done|].
  split.
  - rewrite <- (H2 _ Hres) in H1. exact H1.
  - destruct (H3 _ Hres) as [?|(a & _ & ->)]; [done|]. by eexists.
Qed.

Lemma finishWeek_warnings (createShiftAssignments : assignmentStrategy)
    (g : ScheduleGenerator.t) (weekStart weekNumber : Z) (schedule : Schedule.t) :
  let final := finishWeek createShiftAssignments g weekStart weekNumber schedule in
  Schedule.warnings final
  = Some (validateSchedule (ScheduleGenerator.pharmacyRules g)
            (ScheduleGenerator.pharmacists g) final).
Proof.
  simpl. unfold finishWeek.
  destruct (hasWarnings _); [|done]. by destruct (tryResolveWarnings _ _ _ _ _ _).
Qed.

(** C3.  Whatever the first pass produced, the schedule the generator
    keeps for the week after the warning-resolver pass carries the
    warnings of its own validation, and their total number is at most the
    total number of warnings of the first-pass schedule. *)
Theorem resolver_never_worse (createShiftAssignments : assignmentStrategy)
    (g : ScheduleGenerator.t) (weekStart weekNumber : Z) (schedule : Schedule.t) :
  let validate :=
    validateSchedule (ScheduleGenerator.pharmacyRules g) (ScheduleGenerator.pharmacists g) in
  let final := finishWeek createShiftAssignments g weekStart weekNumber schedule in
  Schedule.warnings final = Some (validate final)
  ∧ (warningCount (validate final) <= warningCount (validate schedule))%nat.
Proof.
  intros validate final. split; [apply finishWeek_warnings|].
  subst final. unfold finishWeek. fold validate.
  destruct (hasWarnings (validate schedule)); [|done].
  destruct (tryResolveWarnings _ _ _ _ _ _) as [bestSchedule|] eqn:Hres; [|done].
  by destruct (tryResolveWarnings_better _ _ _ _ _ _ _ Hres) as [Hle _].
Qed.

(** ** Dates of the synthesized shifts *)

Lemma synthesize_date (rules : PharmacyRules.t) (dateStr : Z) (a : Assignment.t)
    (created : list Shift.t) (total : Qc) :
  synthesize rules dateStr a = Some (created, total) →
  Forall (fun s => Shift.date s = dateStr) created.
Proof.
  unfold synthesize. destruct (Assignment.shiftType a).
  - unfold synthMorning.
    repeat case_bool_decide; intros Hsome; try discriminate Hsome;
      injection Hsome as <- _; by repeat constructor.
  - unfold synthAfternoon.
    repeat case_bool_decide; intros Hsome; try discriminate Hsome;
      injection Hsome as <- _; by repeat constructor.
  - intros [= Hfull]. replace created with (synthFull rules dateStr a).1 by (by rewrite Hfull).
    clear Hfull. unfold synthFull.
    repeat match goal with
           | |- context [if ?b then _ else _] => destruct b
           end;
      cbn [fst snd]; rewrite ?Forall_app; repeat split; by repeat constructor.
Qed.

Lemma generateDayShifts_date (rules : PharmacyRules.t) (dateStr : Z)
    (shiftAssignments : list Assignment.t) (weeklyHours : gmap string Qc) :
  Forall (fun s => Shift.date s = dateStr)
         (generateDayShifts rules dateStr shiftAssignments weeklyHours).1.
Proof.
  unfold generateDayShifts.
  assert (H : ∀ l st, Forall (fun s => Shift.date s = dateStr) st.1 →
              Forall (fun s => Shift.date s = dateStr)
                     (foldl (synthStep rules dateStr) st l).1).
  { induction l as [|a l IH]; intros [shifts wh] Hst; [done|].
    cbn [foldl]. apply IH. unfold synthStep.
    destruct (synthesize rules dateStr a) as [[created total]|] eqn:Hs; [|done].
    cbn [fst]. apply Forall_app. split; [done|]. by eapply synthesize_date. }
  by apply H.
Qed.

(** ** Days with fewer than three available pharmacists *)

Lemma dateOfDay_inj (weekStart : Z) (i j : nat) :
  dateOfDay weekStart i = dateOfDay weekStart j → i = j.
Proof. unfold dateOfDay. lia. Qed.

Lemma length_insertByDistance (dayName : string) (x : Pharmacist.t) (l : list Pharmacist.t) :
  length (insertByDistance dayName x l) = S (length l).
Proof.
  induction l as [|y l IH]; [done|]. simpl. case_bool_decide; [done|]. simpl. by rewrite IH.
Qed.

Lemma length_sortByDistance (dayName : string) (l : list Pharmacist.t) :
  length (sortByDistance dayName l) = length l.
Proof.
  induction l as [|x l IH]; [done|]. simpl.
  by rewrite length_insertByDistance, <- IH.
Qed.

Lemma length_filter_impl {A : Type} (P Q : A → Prop)
    `{∀ x, Decision (P x)} `{∀ x, Decision (Q x)} (l : list A) :
  Forall (fun x => P x → Q x) l → (length (filter P l) <= length (filter Q l))%nat.
Proof.
  induction 1 as [|x l Hx _ IH]; [done|].
  rewrite !filter_cons. destruct (decide (P x)) as [HP|HP].
  - rewrite decide_True by auto. simpl. lia.
  - destruct (decide (Q x)); simpl; lia.
Qed.

(** The rotation path never has more available pharmacists than the
    first pass: it applies the same three exclusions to the active
    pharmacists and then further ones. *)
Lemma getAvailablePharmacists_le (pharmacists : list Pharmacist.t) (rules : PharmacyRules.t)
    (dayName : string) (weekNumber : Z) (weeklyHours : gmap string Qc) :
  let g := newScheduleGenerator pharmacists rules in
  (length (getAvailablePharmacists g dayName weekNumber weeklyHours)
   <= length (availableOn g dayName weekNumber))%nat.
Proof.
  intros g. unfold getAvailablePharmacists, availableOn.
  rewrite length_sortByDistance. apply length_filter_impl.
  apply Forall_forall. intros ph Hin. simpl in Hin.
  apply list_elem_of_filter in Hin as [Hactive _]. rewrite Hactive. simpl.
  unfold availableInRotation.
  destruct (isFreeDay ph dayName); [done|].
  by destruct (saturdayOff ph dayName weekNumber).
Qed.

Section RotationWeek.
Context (createShiftAssignments : assignmentStrategy).
Context (pharmacists : list Pharmacist.t) (rules : PharmacyRules.t).
Context (weekStart weekNumber : Z) (dayIndex : nat).

Let g := newScheduleGenerator pharmacists rules.
Let otherDay := fun s : Shift.t => Shift.date s ≠ dateOfDay weekStart dayIndex.

Hypothesis short : (length (availableOn g (dayNameOf dayIndex) weekNumber) < 3)%nat.

Lemma rotationDay_otherDay (st : WeekState.t) (j : nat) :
  Forall otherDay (WeekState.shifts st) →
  Forall otherDay
    (WeekState.shifts (rotationDay createShiftAssignments g weekStart weekNumber st j)).
Proof.
  intros Hst. unfold rotationDay. case_bool_decide as Hlen; [done|].
  destruct (createShiftAssignments _ _ _ _ _ _ _) as [[assignments tracker] days].
  destruct (generateDayShifts _ _ _ _) as [dayShifts wh] eqn:Hgen.
  cbn [WeekState.shifts]. apply Forall_app. split; [done|].
  pose proof (generateDayShifts_date (ScheduleGenerator.pharmacyRules g)
                (dateOfDay weekStart j) assignments (WeekState.weeklyHours st)) as Hdate.
  rewrite Hgen in Hdate. cbn [fst] in Hdate.
  eapply Forall_impl; [exact Hdate|]. intros s Hs. unfold otherDay. rewrite Hs.
  intros Heq. apply dateOfDay_inj in Heq. subst j. apply Hlen.
  pose proof (getAvailablePharmacists_le pharmacists rules (dayNameOf dayIndex) weekNumber
                (WeekState.weeklyHours st)) as Hle.
  fold g in Hle. simpl in Hle. lia.
Qed.

Lemma rotationWeek_otherDay (tracker : gmap string TrackerEntry.t) :
  Forall otherDay
    (Schedule.shifts
       (generateWeekScheduleWithRotation createShiftAssignments g weekStart weekNumber tracker)).
Proof.
  unfold generateWeekScheduleWithRotation. cbn [Schedule.shifts].
  generalize (seq 0 (length workdays)). intros days.
  assert (H : ∀ st, Forall otherDay (WeekState.shifts st) →
              Forall otherDay
                (WeekState.shifts
                   (foldl (rotationDay createShiftAssignments g weekStart weekNumber) st days))).
  { induction days as [|j days IH]; intros st Hst; [done|].
    cbn [foldl]. by apply IH, rotationDay_otherDay. }
  apply H. constructor.
Qed.

End RotationWeek.

Lemma retime_date (P : Z → Prop) (f : nat → string * string) (l : list Shift.t) :
  Forall (fun s => P (Shift.date s)) l →
  Forall (fun s => P (Shift.date s)) (imap (fun i s => setTimes s (f i)) l).
Proof.
  revert f. induction l as [|s l IH]; intros f Hl; [done|].
  apply Forall_cons in Hl as [Hs Hl]. rewrite imap_cons. constructor; [done|].
  by apply (IH (f ∘ S)).
Qed.

Lemma retryShifts_date (dateStr : Z) (patternUsage : gmap string (gmap string Z))
    (shuffledPharmacists : list Pharmacist.t) (shuffledPatterns : list FixedShiftPattern.t)
    (fixedAssignments : list (Pharmacist.t * FixedShiftPattern.t)) :
  Forall (fun s => Shift.date s = dateStr)
    (retryShifts dateStr patternUsage shuffledPharmacists shuffledPatterns fixedAssignments).1.
Proof.
  unfold retryShifts.
  assert (Hpush : ∀ st ph pattern,
            Forall (fun s => Shift.date s = dateStr) st.1 →
            Forall (fun s => Shift.date s = dateStr) (pushPattern dateStr st ph pattern).1).
  { intros [dayShifts usage] ph pattern Hst. cbn [pushPattern fst].
    apply Forall_app. split; [done|]. by repeat constructor. }
  assert (Hfixed : ∀ l st,
            Forall (fun s => Shift.date s = dateStr) st.1 →
            Forall (fun s => Shift.date s = dateStr)
              (foldl (fun st fa => pushPattern dateStr st fa.1 fa.2) st l).1).
  { induction l as [|fa l IH]; intros st Hst; [done|]. cbn [foldl]. by apply IH, Hpush. }
  apply Hfixed.
  assert (Hremaining : ∀ l st,
            Forall (fun s => Shift.date s = dateStr) st.1 →
            Forall (fun s => Shift.date s = dateStr)
              (foldl (fun st ph =>
                        match assignedPatternFor st.2 ph shuffledPatterns with
                        | Some pattern => pushPattern dateStr st ph pattern
                        | None => st
                        end) st l).1).
  { induction l as [|ph l IH]; intros st Hst; [done|].
    cbn [foldl]. apply IH. destruct (assignedPatternFor _ _ _); [by apply Hpush|done]. }
  apply Hremaining. constructor.
Qed.

Section FirstPassWeek.
Context (o : Oracle.t) (g : ScheduleGenerator.t) (weekStart weekNumber : Z) (dayIndex : nat).

Let otherDay := fun s : Shift.t => Shift.date s ≠ dateOfDay weekStart dayIndex.

Hypothesis short : (length (availableOn g (dayNameOf dayIndex) weekNumber) < 3)%nat.

Lemma retryLoop_date (j : nat) (shifts : list Shift.t) (patterns : list FixedShiftPattern.t)
    (remaining : list Pharmacist.t) (fixedAssignments : list (Pharmacist.t * FixedShiftPattern.t))
    (retries : list nat) (best : DayBest.t) :
  Forall (fun s => Shift.date s = dateOfDay weekStart j) (DayBest.bestDayShifts best) →
  Forall (fun s => Shift.date s = dateOfDay weekStart j)
    (DayBest.bestDayShifts
       (retryLoop o g weekStart j shifts patterns remaining fixedAssignments retries best)).
Proof.
  revert best. induction retries as [|retry rest IH]; intros best Hbest; [done|].
  cbn [retryLoop].
  pose proof (retryShifts_date (dateOfDay weekStart j) (DayBest.patternUsage best)
                (Oracle.shufflePharmacists o j retry remaining)
                (Oracle.shufflePatterns o j retry patterns) fixedAssignments) as Hretry.
  destruct (retryShifts _ _ _ _ _) as [dayShifts usage]. cbn [fst] in Hretry.
  case_bool_decide; [done|]. apply IH. by case_bool_decide.
Qed.

Lemma firstPassDay_otherDay (st : list Shift.t * gmap string (gmap string Z)) (j : nat) :
  Forall otherDay st.1 →
  Forall otherDay (firstPassDay o g weekStart weekNumber st j).1.
Proof.
  destruct st as [shifts usage]. intros Hst. unfold firstPassDay.
  case_bool_decide as Hlen; [done|]. case_bool_decide; [done|].
  cbn [fst]. apply Forall_app. split; [done|].
  assert (Hj : j ≠ dayIndex) by (intros ->; lia).
  set (best := retryLoop _ _ _ _ _ _ _ _ _ _).
  assert (Hbest : Forall (fun s => Shift.date s = dateOfDay weekStart j)
                         (DayBest.bestDayShifts best)).
  { apply retryLoop_date. constructor. }
  assert (Hother : ∀ l, Forall (fun s => Shift.date s = dateOfDay weekStart j) l →
                        Forall otherDay l).
  { intros l Hl. eapply Forall_impl; [exact Hl|]. intros s Hs. unfold otherDay. rewrite Hs.
    intros Heq. by apply dateOfDay_inj in Heq. }
  case_bool_decide; [|by apply Hother].
  unfold adjustPartTimeShiftsForWarnings. apply Hother.
  by apply (retime_date (fun d => d = dateOfDay weekStart j)).
Qed.

Lemma firstPassWeek_otherDay :
  Forall otherDay (Schedule.shifts (generateWeekSchedule o g weekStart weekNumber)).
Proof.
  unfold generateWeekSchedule.
  assert (H : ∀ days st, Forall otherDay st.1 →
              Forall otherDay (foldl (firstPassDay o g weekStart weekNumber) st days).1).
  { induction days as [|j days IH]; intros st Hst; [done|].
    cbn [foldl]. by apply IH, firstPassDay_otherDay. }
  specialize (H (seq 0 (length workdays)) ([], initialPatternUsage g) (Forall_nil_2 _)).
  destruct (foldl _ _ _) as [shifts usage]. cbn [fst Schedule.shifts] in *.
  unfold adjustPartTimeHours.
  by apply (retime_date (fun d => d ≠ dateOfDay weekStart dayIndex)).
Qed.

End FirstPassWeek.



(** ** Minimum duration of synthesized shifts *)

Section MinimumDuration.
Context (rules : PharmacyRules.t) (dateStr : Z) (a : Assignment.t).

Hypothesis start_in_day : 0 <= timeToMinutes (Assignment.startTime a).
Hypothesis closing_in_day : timeToMinutes (PharmacyRules.closingTime rules) < 1440.
Hypothesis break_in_day : 0 <= timeToMinutes (PharmacyRules.breakEndTime rules).

(** An afternoon assignment yields a shift of at least two hours, or none. *)
Lemma synthAfternoon_min_duration (created : list Shift.t) (total : Qc) :
  synthAfternoon rules dateStr a = Some (created, total) →
  Forall (fun s => 120 <= shiftMinutes s) created.
Proof.
  unfold synthAfternoon, calculateShiftHours.
  case_bool_decide as Hshort.
  - case_bool_decide as Hfits; [|case_bool_decide as Hearlier].
    + intros [= <- _]. repeat constructor. unfold shiftMinutes. simpl.
      rewrite time_roundtrip by lia. lia.
    + intros [= <- _]. repeat constructor. unfold shiftMinutes. simpl.
      rewrite time_roundtrip by lia. lia.
    + done.
  - intros [= <- _]. repeat constructor. unfold shiftMinutes. simpl.
    rewrite hours_lt_two in Hshort. lia.
Qed.

(** So does a morning assignment, unless the branch "create a minimum
    shift from opening time" is taken. *)
Lemma synthMorning_min_duration (created : list Shift.t) (total : Qc) :
  timeToMinutes (Assignment.startTime a) + 120 <= timeToMinutes (PharmacyRules.closingTime rules)
  ∨ 120 <= timeToMinutes (Assignment.endTime a) - timeToMinutes (Assignment.startTime a) →
  synthMorning rules dateStr a = Some (created, total) →
  Forall (fun s => 120 <= shiftMinutes s) created.
Proof.
  intros Hok. unfold synthMorning, calculateShiftHours.
  case_bool_decide as Hshort.
  - rewrite hours_lt_two in Hshort. case_bool_decide as Hfits; [|lia].
    intros [= <- _]. repeat constructor. unfold shiftMinutes. simpl.
    rewrite time_roundtrip by lia. lia.
  - intros [= <- _]. repeat constructor. unfold shiftMinutes. simpl.
    rewrite hours_lt_two in Hshort. lia.
Qed.

(** A full-day assignment of a full-time pharmacist yields parts of at
    least two hours only. *)
Lemma synthFull_fullTime_min_duration :
  isPartTime (Assignment.pharmacist a) = false →
  Forall (fun s => 120 <= shiftMinutes s) (synthFull rules dateStr a).1.
Proof.
  unfold isPartTime, synthFull. intros ->. cbn [andb].
  repeat case_bool_decide; cbn [fst snd app];
    repeat match goal with
           | H : ¬ (_ < _)%Qc |- _ => fail 1
           | H : (Js.ofZ 2 <= Js.ofZ ?m / Js.ofZ 60)%Qc |- _ =>
               apply Qcle_not_lt in H; rewrite hours_lt_two in H
           end;
    repeat constructor; unfold shiftMinutes; simpl; lia.
Qed.

End MinimumDuration.

(** The morning branch that falls back to "opening time plus two hours"
    changes only the end of the shift: here the shift synthesized for
    11:00-11:30 is 11:00-11:00, counted as two hours. *)
Example morning_fallback_keeps_start :
  fst <$> synthMorning morningOnlyRules 0 lateMorning
  = Some [ Shift.mk "p3" 0 "11:00" "11:00" morning false None ].
Proof. by vm_compute. Qed.

(** C1 (code defect).  For a part-time pharmacist the full-day branch of
    [generateDayShifts] keeps a morning part shorter than two hours: the
    hours counted for it are raised to 2, the shift record keeps its
    90 minutes, although the pharmacy is open for ten and a half hours. *)
Theorem short_morning_shift_is_synthesized :
  (generateDayShifts scenarioRules 0 [fullDayOnPatternB]
     (initialWeeklyHours [longPartTimeWorker])).1
  = [ Shift.mk "p4" 0 "11:00" "12:30" morning false (Some "B");
      Shift.mk "p4" 0 "14:00" "19:30" afternoon false (Some "B") ]
  ∧ (calculateShiftHours "11:00" "12:30" < Js.ofZ 2)%Qc
  ∧ timeToMinutes (PharmacyRules.openingTime scenarioRules) + 2 * 60
    <= timeToMinutes (PharmacyRules.closingTime scenarioRules).
Proof.
  split; [by vm_compute|]. split; by vm_compute.
Qed.

(** The first pass copies the sub-shifts of the pattern without any check
    of their length. *)
Lemma patternShifts_verbatim (dateStr : Z) (ph : Pharmacist.t) (pattern : FixedShiftPattern.t) :
  (fun s => (Shift.type s, Shift.startTime s, Shift.endTime s)) <$> patternShifts dateStr ph pattern
  = [ (morning, SubShift.startTime (FixedShiftPattern.morningShift pattern),
       SubShift.endTime (FixedShiftPattern.morningShift pattern));
      (afternoon, SubShift.startTime (FixedShiftPattern.afternoonShift pattern),
       SubShift.endTime (FixedShiftPattern.afternoonShift pattern)) ].
Proof. done. Qed.

(** ** The working-days ledger *)

(** C2 (code defect).  For the part-time pharmacist with 20 weekly hours
    and free day "Sunday", who is off on none of the six workdays, the
    ledger of remaining working days starts at 5; once five days have used
    up the 20 hours, the sixth day is given a further daily target of
    4 hours. *)
Theorem sunday_free_day_ledger_starts_at_five :
  initialWorkingDaysRemaining [partTimeWorker] !! Pharmacist.id partTimeWorker = Some 5
  ∧ Forall (fun dayName => isFreeDay partTimeWorker dayName = false) dayNames
  ∧ this (hoursToAssign (Pharmacist.weeklyHours partTimeWorker)
            (workingDaysPerWeek partTimeWorker) 0%Qc 0)
    = this (Js.ofZ 4).
Proof.
  split; [by vm_compute|]. split; [|by vm_compute].
  repeat constructor.
Qed.

(** ** The daily hour target of a part-time pharmacist *)

(** C4, as stated, fails: on the last working day with no hours left the
    code targets half an hour, not the zero remaining hours. *)
Lemma hours_target_counterexample :
  this (hoursToAssign (Js.ofZ 20) 5 0%Qc 1) = (1 # 2)%Q
  ∧ this (specHoursTarget (Js.ofZ 20) 5 0%Qc 1) = (0 # 1)%Q
  ∧ hoursToAssign (Js.ofZ 20) 5 0%Qc 1 ≠ specHoursTarget (Js.ofZ 20) 5 0%Qc 1.
Proof.
  split; [by vm_compute|]. split; [by vm_compute|].
  intros Heq. apply (f_equal this) in Heq. vm_compute in Heq. discriminate Heq.
Qed.

Lemma hoursToAssign_spec (weeklyHoursTotal : Qc) (days : Z) (remainingHours : Qc)
    (remainingWorkingDays : Z) :
  let target := specHoursTarget weeklyHoursTotal days remainingHours remainingWorkingDays in
  hoursToAssign weeklyHoursTotal days remainingHours remainingWorkingDays
  = if decide (target < Q2Qc (1 # 10))%Qc then Q2Qc (1 # 2) else target.
Proof.
  intros target. subst target. unfold hoursToAssign, specHoursTarget.
  set (t := (weeklyHoursTotal / Js.ofZ days)%Qc).
  set (rest := (t * Js.ofZ (remainingWorkingDays - 1))%Qc).
  assert (Hsame : ∀ x : Qc,
            (if bool_decide (x < Q2Qc (1 # 10))%Qc then Q2Qc (1 # 2) else x)
            = (if decide (x < Q2Qc (1 # 10))%Qc then Q2Qc (1 # 2) else x)).
  { intros x. by case_bool_decide; case_decide. }
  rewrite Hsame. clear Hsame.
  case_bool_decide as Hlast; destruct (decide (remainingWorkingDays = 1)); try done.
  rewrite (Qcplus_comm rest t).
  case_bool_decide as Henough; destruct (decide (t + rest <= remainingHours)%Qc); try done.
  assert (Hpos : (rest < remainingHours)%Qc ↔ (0 < remainingHours - rest)%Qc)
    by apply Qclt_minus_iff.
  case_bool_decide as Hsome; destruct (decide (0 < remainingHours - rest)%Qc);
    try done; exfalso; tauto.
Qed.

(** C4 (amended).  The hours targeted for a part-time pharmacist's working
    day are: all remaining hours when one working day remains; otherwise
    the daily target when the remaining hours cover it and the targets of
    the days after; otherwise the remaining hours minus those later
    targets when that is positive; otherwise the larger of 0.5 and an even
    share of the remaining hours -- and whenever that value is below 0.1
    the target is 0.5 instead. *)
Theorem hours_target_with_minimum (pharmacist : Pharmacist.t) (weeklyHours : gmap string Qc)
    (partTimeWorkingDaysRemaining : option (gmap string Z)) :
  let remainingHours :=
    default (Pharmacist.weeklyHours pharmacist) (weeklyHours !! Pharmacist.id pharmacist) in
  let remainingWorkingDays :=
    default (workingDaysPerWeek pharmacist)
      (partTimeWorkingDaysRemaining ≫= fun ledger => ledger !! Pharmacist.id pharmacist) in
  let target :=
    specHoursTarget (Pharmacist.weeklyHours pharmacist) (workingDaysPerWeek pharmacist)
      remainingHours remainingWorkingDays in
  hoursToAssignToday pharmacist weeklyHours partTimeWorkingDaysRemaining
  = if decide (target < Q2Qc (1 # 10))%Qc then Q2Qc (1 # 2) else target.
Proof. intros. apply hoursToAssign_spec. Qed.

(** ** Break adaptation and the generator's inputs *)



(** ** Pattern choice under unmet requirements *)

Lemma ofZ_nonneg (z : Z) : 0 <= z → (0 <= Js.ofZ z)%Qc.
Proof.
  intros Hz. unfold Js.ofZ, Qcle. simpl. rewrite (Qred_correct (inject_Z z)).
  unfold Qle. simpl. lia.
Qed.

Lemma ofZ_pos (z : Z) : 0 < z → (0 < Js.ofZ z)%Qc.
Proof.
  intros Hz. unfold Js.ofZ, Qclt. simpl. rewrite (Qred_correct (inject_Z z)).
  unfold Qlt. simpl. lia.
Qed.

Lemma floor_nonneg (q : Qc) : (0 <= q)%Qc → 0 <= Js.floor q.
Proof.
  intros Hq. unfold Js.floor. apply Z.div_pos; [|lia].
  unfold Qcle, Qle in Hq. simpl in Hq. lia.
Qed.

Lemma round_nonneg (q : Qc) : (0 <= q)%Qc → 0 <= Js.round q.
Proof.
  intros Hq. unfold Js.round. apply floor_nonneg.
  apply Qcle_trans with (0 + 0)%Qc; [by vm_compute|].
  apply Qcplus_le_compat; [done|by vm_compute].
Qed.

Lemma overlapMinutes_Some (sub : SubShift.t) (req : StaffingRequirement.t) (m : Z) :
  overlapMinutes sub req = Some m →
  0 < m
  ∧ timeToMinutes (StaffingRequirement.startTime req)
    < timeToMinutes (StaffingRequirement.endTime req).
Proof.
  unfold overlapMinutes. case_bool_decide as Hlt; [|done]. intros [= <-]. lia.
Qed.

Lemma coveragePercentage_nonneg (pattern : FixedShiftPattern.t) (req : StaffingRequirement.t) :
  0 <= calculatePatternCoveragePercentage pattern req.
Proof.
  unfold calculatePatternCoveragePercentage. apply round_nonneg.
  set (reqDuration := timeToMinutes (StaffingRequirement.endTime req)
                      - timeToMinutes (StaffingRequirement.startTime req)).
  set (total := default 0 _ + default 0 _).
  assert (Htotal : 0 <= total ∧ (0 < total → 0 < reqDuration)).
  { subst total reqDuration.
    destruct (overlapMinutes (FixedShiftPattern.morningShift pattern) req) as [m|] eqn:Hm;
      destruct (overlapMinutes (FixedShiftPattern.afternoonShift pattern) req) as [a|] eqn:Ha;
      simpl;
      try (apply overlapMinutes_Some in Hm); try (apply overlapMinutes_Some in Ha); lia. }
  destruct Htotal as [Hnn Hpos].
  apply Qcmult_nonneg_nonneg; [|by apply ofZ_nonneg].
  destruct (decide (total = 0)) as [->|Hne].
  - unfold Qcdiv. rewrite Qcmult_0_l. apply Qcle_refl.
  - unfold Qcdiv. apply Qcmult_nonneg_nonneg; [by apply ofZ_nonneg|].
    apply Qclt_le_weak, Qcinv_pos, ofZ_pos. lia.
Qed.

Lemma maxUsage_ge (patternUsageCount : list Z) (j : nat) (c : Z) :
  patternUsageCount !! j = Some c → c <= maxUsage patternUsageCount.
Proof.
  assert (Hfold : ∀ (l : list Z) (m : Z),
            m <= foldl Z.max m l ∧ ∀ i x, l !! i = Some x → x <= foldl Z.max m l).
  { induction l as [|y l IH]; intros m; simpl.
    - split; [lia|]. by intros i x.
    - destruct (IH (Z.max m y)) as [H1 H2]. split; [lia|].
      intros [|i] x; simpl; [intros [= ->]; lia|apply H2]. }
  destruct patternUsageCount as [|c0 rest]; [done|]. simpl.
  destruct (Hfold rest c0) as [H1 H2].
  destruct j as [|j]; simpl; [by intros [= ->]|apply H2].
Qed.

Lemma patternScore_nonneg (unmet : list StaffingRequirement.t) (patternUsageCount : list Z)
    (p : FixedShiftPattern.t) (j : nat) :
  (j < length patternUsageCount)%nat → 0 <= patternScore unmet patternUsageCount p j.
Proof.
  intros Hj. unfold patternScore.
  destruct (lookup_lt_is_Some_2 patternUsageCount j Hj) as [c Hc].
  rewrite Hc. simpl. pose proof (maxUsage_ge _ _ _ Hc) as Hmax.
  assert (Hsum : ∀ l acc, 0 <= acc →
            0 <= foldl (fun score req =>
                          if patternHelpsWithRequirement p req
                          then score + calculatePatternCoveragePercentage p req
                          else score) acc l).
  { induction l as [|r l IH]; intros acc Hacc; [done|]. simpl. apply IH.
    destruct (patternHelpsWithRequirement p r); [|done].
    pose proof (coveragePercentage_nonneg p r). lia. }
  specialize (Hsum unmet 0). lia.
Qed.

Section PatternChoice.
Context (unmet : list StaffingRequirement.t) (patternUsageCount : list Z).

Let score := fun ip : nat * FixedShiftPattern.t => patternScore unmet patternUsageCount ip.2 ip.1.
Let step := scoreStep unmet patternUsageCount.

(** The scan keeps the first pattern whose score beats every score before
    it, and otherwise leaves its state alone. *)
Lemma scoreFold_spec (l : list (nat * FixedShiftPattern.t)) (st : bestChoice) :
  let st' := foldl step st l in
  st.1.2 <= st'.1.2
  ∧ (∀ ip, ip ∈ l → score ip <= st'.1.2)
  ∧ (st' = st ∨ ((st'.2, st'.1.1) ∈ l ∧ st'.1.2 = score (st'.2, st'.1.1))).
Proof.
  revert st. induction l as [|[i p] l IH]; intros st.
  - simpl. split; [lia|]. split; [|by left]. intros ip Hip. by apply elem_of_nil in Hip.
  - cbn [foldl]. destruct (IH (step st (i, p))) as (Hmono & Hall & Hwhich).
    assert (Hstep : st.1.2 <= (step st (i, p)).1.2 ∧ score (i, p) <= (step st (i, p)).1.2
                    ∧ (step st (i, p) = st
                       ∨ step st (i, p) = (p, score (i, p), i))).
    { unfold step, scoreStep, score. destruct st as [[bp bs] bi]. cbn [fst snd].
      case_bool_decide; cbn [fst snd]; (split; [lia|]); (split; [lia|]); [by right|by left]. }
    destruct Hstep as (Hs1 & Hs2 & Hs3).
    split; [lia|]. split.
    + intros ip Hip. apply elem_of_cons in Hip as [->|Hip]; [lia|by apply Hall].
    + destruct Hwhich as [Hsame|[Hin Hscore]].
      * rewrite Hsame. destruct Hs3 as [Hkeep|Hnew]; [by left|right].
        rewrite Hnew. simpl. split; [by left|done].
      * right. split; [by right|done].
Qed.

End PatternChoice.



Example unmet_choice_example :
  choosePatternForUnmet [patternA; patternB] [allDayRequirement] [0; 0] patternB 1
  = (patternA, 76, 0%nat).
Proof. by vm_compute. Qed.

(** ** Reading back a printed time *)

Section PrintedNumbers.

(** [d] is a string of decimal digits that reads as [x]. *)
Let reads := fun (d : string) (x : Z) =>
  (∀ acc, Js.parseDigits acc d = acc * 10 ^ Z.of_nat (String.length d) + x)
  ∧ (∀ cur rest, Js.splitColon cur (d +:+ rest) = Js.splitColon (String.rev_app d cur) rest).

Lemma string_app_cons (x : ascii) (a b : string) : String x a +:+ b = String x (a +:+ b).
Proof. done. Qed.

Lemma string_app_assoc (a b c : string) : (a +:+ b) +:+ c = a +:+ (b +:+ c).
Proof. induction a as [|x a IH]; [done|]. rewrite !string_app_cons. by f_equal. Qed.

Lemma string_app_nil_r (a : string) : a +:+ "" = a.
Proof. induction a as [|x a IH]; [done|]. rewrite string_app_cons. by f_equal. Qed.

Lemma string_length_app (a b : string) :
  String.length (a +:+ b) = (String.length a + String.length b)%nat.
Proof.
  induction a as [|x a IH]; [done|]. rewrite string_app_cons. cbn [String.length].
  by rewrite IH.
Qed.

Lemma rev_app_app (a b c : string) :
  String.rev_app (a +:+ b) c = String.rev_app b (String.rev_app a c).
Proof.
  revert c. induction a as [|x a IH]; intros c; [done|].
  rewrite string_app_cons. cbn [String.rev_app]. apply IH.
Qed.

Lemma rev_app_rev_app (a b c : string) :
  String.rev_app (String.rev_app a b) c = String.rev_app b (a +:+ c).
Proof.
  revert b c. induction a as [|x a IH]; intros b c; [done|].
  cbn [String.rev_app]. by rewrite IH, string_app_cons.
Qed.

Lemma rev_rev (a : string) : String.rev (String.rev_app a "") = a.
Proof. unfold String.rev. rewrite rev_app_rev_app. simpl. apply string_app_nil_r. Qed.

Lemma parseDigits_app (acc : Z) (a b : string) :
  Js.parseDigits acc (a +:+ b) = Js.parseDigits (Js.parseDigits acc a) b.
Proof.
  revert acc. induction a as [|x a IH]; intros acc; [done|].
  rewrite string_app_cons. cbn [Js.parseDigits]. apply IH.
Qed.

Lemma digit_char (k : N) :
  (k < 10)%N → Js.digit (pretty_N_char k) = Z.of_N k ∧ pretty_N_char k ≠ ":"%char.
Proof.
  intros Hk.
  assert (k = 0 ∨ k = 1 ∨ k = 2 ∨ k = 3 ∨ k = 4 ∨ k = 5 ∨ k = 6 ∨ k = 7 ∨ k = 8 ∨ k = 9)%N
    as Hcases by lia.
  repeat (destruct Hcases as [->|Hcases]; [by vm_compute|]). subst k. by vm_compute.
Qed.

Lemma reads_snoc (d : string) (x : Z) (k : N) :
  (k < 10)%N → reads d x →
  reads (d +:+ String (pretty_N_char k) "") (10 * x + Z.of_N k).
Proof.
  intros Hk [Hparse Hsplit]. destruct (digit_char k Hk) as [Hdigit Hcolon]. split.
  - intros acc. rewrite parseDigits_app, Hparse. cbn [Js.parseDigits]. rewrite Hdigit.
    rewrite string_length_app. cbn [String.length].
    rewrite Nat2Z.inj_add, Z.pow_add_r by lia. change (10 ^ Z.of_nat 1) with 10. lia.
  - intros cur rest. rewrite string_app_assoc, Hsplit. rewrite string_app_cons.
    change ("" +:+ rest) with rest. cbn [Js.splitColon String.rev_app].
    rewrite (proj2 (Ascii.eqb_neq _ _) Hcolon). by rewrite rev_app_app.
Qed.

Lemma pretty_N_go_reads (x : N) :
  ∃ d, (∀ s, pretty_N_go x s = d +:+ s) ∧ reads d (Z.of_N x)
       ∧ ((0 < x)%N → (0 < String.length d)%nat).
Proof.
  induction (N.lt_wf_0 x) as [x _ IH].
  destruct (decide (x = 0%N)) as [->|Hpos].
  - exists "". split; [done|]. split; [|lia]. split; [intros acc; simpl; lia|done].
  - destruct (IH (x `div` 10)%N) as (d & Hgo & Hreads & _).
    { apply N.div_lt; lia. }
    exists (d +:+ String (pretty_N_char (x `mod` 10)) ""). split; [|split].
    + intros s. rewrite pretty_N_go_step by lia. by rewrite Hgo, string_app_assoc.
    + replace (Z.of_N x) with (10 * Z.of_N (x `div` 10) + Z.of_N (x `mod` 10)).
      * apply reads_snoc; [|done]. apply N.mod_lt. lia.
      * rewrite (N.div_mod x 10) at 3 by lia. lia.
    + intros _. rewrite string_length_app. simpl. lia.
Qed.

(** A non-negative integer printed by [toString] is a non-empty digit
    string that reads as that integer. *)
Lemma toString_reads (n : Z) :
  0 <= n → reads (Js.toString n) n ∧ (0 < String.length (Js.toString n))%nat.
Proof.
  intros Hn. unfold Js.toString, pretty, pretty_Z.
  destruct n as [|p|p]; [| |lia].
  - split; [|simpl; lia]. split; [|done]. intros acc. cbn [Js.parseDigits String.length].
    change (Js.digit "0") with 0. change (10 ^ Z.of_nat 1) with 10. lia.
  - unfold pretty, pretty_positive, pretty, pretty_N.
    rewrite decide_False by done.
    destruct (pretty_N_go_reads (N.pos p)) as (d & Hgo & Hreads & Hlen).
    rewrite Hgo, string_app_nil_r. split; [done|]. apply Hlen. lia.
Qed.

Lemma padStart2_reads (s : string) (n : Z) :
  reads s n → (0 < String.length s)%nat → reads (Js.padStart2 s) n.
Proof.
  intros [Hparse Hsplit] Hlen. unfold Js.padStart2.
  destruct s as [|a [|b s]]; cbn [String.length]; [simpl in Hlen; lia| |done].
  split.
  - intros acc. cbn [Js.parseDigits].
    specialize (Hparse (10 * acc + Js.digit "0")). cbn [Js.parseDigits] in Hparse.
    rewrite Hparse. change (Js.digit "0") with 0.
    cbn [String.length]. change (10 ^ Z.of_nat 1) with 10. change (10 ^ Z.of_nat 2) with 100.
    lia.
  - intros cur rest. change (String "0" (String a "") +:+ rest)
      with (String "0" (String a "" +:+ rest)).
    cbn [Js.splitColon]. change (Ascii.eqb "0" ":") with false. cbv iota.
    by rewrite Hsplit.
Qed.

Lemma split_two (a b : string) (x y : Z) :
  reads a x → reads b y → Js.split (a +:+ ":" +:+ b) = [a; b].
Proof.
  intros [_ Ha] [_ Hb]. unfold Js.split. rewrite Ha. rewrite string_app_cons.
  change ("" +:+ b) with b. cbn [Js.splitColon].
  change (Ascii.eqb ":" ":") with true. cbv iota. rewrite rev_rev.
  rewrite <-(string_app_nil_r b) at 1. rewrite Hb. cbn [Js.splitColon]. by rewrite rev_rev.
Qed.

Lemma number_reads (a : string) (x : Z) : reads a x → Js.Number a = x.
Proof. intros [Ha _]. unfold Js.Number. rewrite Ha. lia. Qed.

(** Writing a minute offset and reading it back is the identity, for
    every offset that is not negative (hours may exceed two digits). *)
Lemma timeToMinutes_minutesToTime (m : Z) :
  0 <= m → timeToMinutes (minutesToTime m) = m.
Proof.
  intros Hm. unfold timeToMinutes, minutesToTime.
  assert (Hh : 0 <= m / 60) by (apply Z.div_pos; lia).
  assert (Hr : 0 <= Z.rem m 60) by (apply Z.rem_nonneg; lia).
  destruct (toString_reads _ Hh) as [Hhours Hhlen].
  destruct (toString_reads _ Hr) as [Hmins Hmlen].
  pose proof (padStart2_reads _ _ Hhours Hhlen) as Hhours'.
  pose proof (padStart2_reads _ _ Hmins Hmlen) as Hmins'.
  rewrite (split_two _ _ _ _ Hhours' Hmins'). cbn [fmap list_fmap nth].
  rewrite (number_reads _ _ Hhours'), (number_reads _ _ Hmins').
  rewrite Z.rem_mod_nonneg by lia.
  pose proof (Z.div_mod m 60 ltac:(lia)). lia.
Qed.

End PrintedNumbers.

(** X1.  A time of day written by [minutesToTime] is read back by
    [timeToMinutes] as the same minute offset, whenever the offset is not
    negative (also past 99 hours, where the hour has three digits); so
    two different offsets are never written as the same time. *)
Theorem minutesToTime_round_trip (m n : Z) :
  0 <= m → 0 <= n →
  timeToMinutes (minutesToTime m) = m
  ∧ (minutesToTime m = minutesToTime n → m = n).
Proof.
  intros Hm Hn. split; [by apply timeToMinutes_minutesToTime|].
  intros Heq. rewrite <-(timeToMinutes_minutesToTime m Hm), Heq.
  by apply timeToMinutes_minutesToTime.
Qed.

Lemma minutesToTime_round_trip_witness :
  timeToMinutes (minutesToTime 570) = 570
  ∧ (minutesToTime 570 = minutesToTime 6135 → 570 = 6135).
Proof. apply minutesToTime_round_trip; lia. Defined.

(** ** The break after adaptation *)

Lemma hours_lt_half (minutes : Z) :
  (Js.ofZ minutes / Js.ofZ 60 < Q2Qc (1 # 2))%Qc ↔ minutes < 30.
Proof.
  unfold Qclt, Qcdiv, Qcmult, Qcinv, Js.ofZ. simpl.
  rewrite !Qred_correct. unfold Qlt, Qmult, Qinv. simpl. lia.
Qed.

Lemma hours_gt_two_and_half (minutes : Z) :
  (Q2Qc (5 # 2) < Js.ofZ minutes / Js.ofZ 60)%Qc ↔ 150 < minutes.
Proof.
  unfold Qclt, Qcdiv, Qcmult, Qcinv, Js.ofZ. simpl.
  rewrite !Qred_correct. unfold Qlt, Qmult, Qinv. simpl. lia.
Qed.

Lemma clockTime_minutes (minutes : Z) : timeToMinutes (clockTime minutes) = minutes mod 1440.
Proof.
  unfold clockTime. apply timeToMinutes_minutesToTime.
  apply Z.mod_pos_bound. lia.
Qed.

Section BreakAdaptation.
Context (rules : PharmacyRules.t).

Let breakStart := timeToMinutes (PharmacyRules.breakStartTime rules).
Let breakEnd := timeToMinutes (PharmacyRules.breakEndTime rules).

Hypothesis start_in_day : 0 <= breakStart.
Hypothesis end_in_day : breakEnd < 1440.

(** The break of the adapted rules, in minutes. *)
Lemma adaptBreakDuration_minutes :
  let rules' := adaptBreakDuration rules in
  PharmacyRules.breakStartTime rules' = PharmacyRules.breakStartTime rules
  ∧ timeToMinutes (PharmacyRules.breakEndTime rules')
    = if bool_decide (breakEnd - breakStart < 30) then (breakStart + 30) mod 1440
      else if bool_decide (150 < breakEnd - breakStart) then breakStart + 150
      else breakEnd.
Proof.
  unfold adaptBreakDuration, calculateShiftHours. fold breakStart breakEnd.
  case_bool_decide as Hshort; [|case_bool_decide as Hlong].
  - apply hours_lt_half in Hshort. rewrite bool_decide_eq_true_2 by done.
    split; [done|]. cbn [setBreakEndTime PharmacyRules.breakEndTime]. apply clockTime_minutes.
  - apply hours_gt_two_and_half in Hlong. rewrite hours_lt_half in Hshort.
    rewrite bool_decide_eq_false_2, bool_decide_eq_true_2 by done.
    split; [done|]. cbn [setBreakEndTime PharmacyRules.breakEndTime].
    rewrite clockTime_minutes. apply Z.mod_small. lia.
  - rewrite hours_lt_half in Hshort. rewrite hours_gt_two_and_half in Hlong.
    by rewrite !bool_decide_eq_false_2.
Qed.

End BreakAdaptation.

(** X2.  Adapting the break a second time changes nothing: for a break that
    starts at 00:00 or later and ends before 24:00, [adaptBreakDuration]
    is idempotent. *)
Theorem adaptBreakDuration_idempotent (rules : PharmacyRules.t) :
  0 <= timeToMinutes (PharmacyRules.breakStartTime rules) →
  timeToMinutes (PharmacyRules.breakEndTime rules) < 1440 →
  adaptBreakDuration (adaptBreakDuration rules) = adaptBreakDuration rules.
Proof.
  intros Hstart Hend.
  set (s := timeToMinutes (PharmacyRules.breakStartTime rules)) in *.
  set (e := timeToMinutes (PharmacyRules.breakEndTime rules)) in *.
  assert (Hshape : adaptBreakDuration rules = rules
                   ∨ (e - s < 30
                      ∧ adaptBreakDuration rules = setBreakEndTime rules (clockTime (s + 30)))
                   ∨ (150 < e - s
                      ∧ adaptBreakDuration rules = setBreakEndTime rules (clockTime (s + 150)))).
  { unfold adaptBreakDuration, calculateShiftHours. fold s e.
    case_bool_decide as Hshort; [|case_bool_decide as Hlong].
    - right. left. by apply hours_lt_half in Hshort.
    - right. right. by apply hours_gt_two_and_half in Hlong.
    - by left. }
  pose proof (Z.mod_pos_bound (s + 30) 1440 ltac:(lia)) as Hmod.
  assert (Hle : (s + 30) mod 1440 <= s + 30) by (apply Z.mod_le; lia).
  destruct Hshape as [Hsame|[[Hshort Hnew]|[Hlong Hnew]]].
  - by rewrite !Hsame.
  - rewrite Hnew. unfold adaptBreakDuration at 1, calculateShiftHours.
    cbn [setBreakEndTime PharmacyRules.breakStartTime PharmacyRules.breakEndTime].
    fold s. rewrite clockTime_minutes.
    case_bool_decide as H1; [|case_bool_decide as H2].
    + by destruct rules.
    + rewrite hours_gt_two_and_half in H2. lia.
    + done.
  - rewrite Hnew. unfold adaptBreakDuration at 1, calculateShiftHours.
    cbn [setBreakEndTime PharmacyRules.breakStartTime PharmacyRules.breakEndTime].
    fold s. rewrite clockTime_minutes. rewrite (Z.mod_small (s + 150)) by lia.
    case_bool_decide as H1; [|case_bool_decide as H2].
    + rewrite hours_lt_half in H1. lia.
    + rewrite hours_gt_two_and_half in H2. lia.
    + done.
Qed.



Lemma adaptBreakDuration_idempotent_witness :
  adaptBreakDuration (adaptBreakDuration shortBreakRules) = adaptBreakDuration shortBreakRules.
Proof.
  apply adaptBreakDuration_idempotent; vm_compute; [discriminate|done].
Defined.

(** ** Days without warnings *)

Lemma flat_map_nil {A B : Type} (f : A → list B) (l : list A) :
  flat_map f l = [] ↔ Forall (fun x => f x = []) l.
Proof.
  induction l as [|x l IH]; [by split; [constructor|]|].
  cbn [flat_map]. rewrite Forall_cons, <-IH. split.
  - intros H. by apply app_eq_nil in H.
  - intros [-> ->]. done.
Qed.

Lemma maximalRuns_nil {A : Type} (P : A → bool) (l : list A) :
  maximalRuns P l = [] ↔ Forall (fun x => P x = false) l.
Proof.
  destruct (maximalRuns_spec P l) as [Hruns Hconcat]. split.
  - intros Hnil. rewrite Hnil in Hconcat. simpl in Hconcat.
    apply Forall_forall. intros x Hx. destruct (P x) eqn:HP; [|done].
    assert (x ∈ filter (fun x => P x = true) l) as Hin by by apply list_elem_of_filter.
    rewrite <-Hconcat in Hin. by apply elem_of_nil in Hin.
  - intros Hall. destruct (maximalRuns P l) as [|run runs]; [done|].
    apply Forall_cons in Hruns as [[Hne Hrun] _]. destruct run as [|x run]; [done|].
    assert (x ∈ filter (fun x => P x = true) l) as Hin.
    { rewrite <-Hconcat. simpl. by left. }
    apply list_elem_of_filter in Hin as [HP Hin].
    rewrite Forall_forall in Hall. rewrite (Hall x Hin) in HP. done.
Qed.

(** A requirement yields no coverage warning exactly when, at every
    30-minute check time of its window, at least the required number of
    distinct pharmacists is on shift. *)
Lemma requirementWarnings_nil (dayShifts : list Shift.t) (requirement : StaffingRequirement.t) :
  let reqStart := timeToMinutes (StaffingRequirement.startTime requirement) in
  let reqEnd := timeToMinutes (StaffingRequirement.endTime requirement) in
  requirementWarnings dayShifts requirement = []
  ↔ ∀ t, t ∈ sampleTimes reqStart reqEnd →
         StaffingRequirement.requiredPharmacists requirement <= distinctWorkersAt dayShifts t.
Proof.
  intros reqStart reqEnd. rewrite requirementWarnings_spec. unfold specCoverageWarnings.
  fold reqStart reqEnd.
  set (under := fun s : Z * Z =>
                  bool_decide (s.2 < StaffingRequirement.requiredPharmacists requirement)).
  set (samples := (fun t => (t, distinctWorkersAt dayShifts t)) <$> sampleTimes reqStart reqEnd).
  assert (Hruns : flat_map (runWarning requirement) (maximalRuns under samples) = []
                  ↔ maximalRuns under samples = []).
  { split; [|by intros ->]. intros Hnil.
    destruct (maximalRuns_spec under samples) as [Hne _].
    destruct (maximalRuns under samples) as [|run runs]; [done|].
    apply Forall_cons in Hne as [[Hrun _] _]. destruct run; [done|]. done. }
  rewrite Hruns, maximalRuns_nil. subst samples. rewrite Forall_fmap, Forall_forall.
  apply forall_proper. intros t. unfold under. simpl.
  rewrite bool_decide_eq_false. split; intros H Ht; specialize (H Ht); lia.
Qed.

Section CleanDay.
Context (rules : PharmacyRules.t) (pharmacists : list Pharmacist.t).

Lemma shiftWarnings_nil (s : Shift.t) :
  shiftWarnings rules pharmacists s = []
  ↔ ((Shift.type s = morning ∨ Shift.type s = afternoon) → 120 <= shiftMinutes s)
    ∧ (shiftHoursOf s <= PharmacyRules.maxHoursPerShift rules)%Qc.
Proof.
  unfold shiftWarnings, shiftHoursOf, calculateShiftHours, shiftMinutes. cbv zeta.
  set (m := timeToMinutes (Shift.endTime s) - timeToMinutes (Shift.startTime s)).
  rewrite Qcle_ngt. split.
  - intros H. apply app_eq_nil in H as [H1 H2].
    case_bool_decide as Hlong; [done|]. case_bool_decide as Hshort; [done|].
    split; [|done]. intros Hty. rewrite hours_lt_two in Hshort.
    destruct (decide (120 <= m)); [done|]. exfalso. apply Hshort. split; [done|lia].
  - intros [Hshort Hlong]. rewrite bool_decide_eq_false_2.
    + by rewrite bool_decide_eq_false_2.
    + rewrite hours_lt_two. intros [Hty Hlt]. specialize (Hshort Hty). lia.
Qed.

Lemma hoursBump_fold (k : string) (l : list Shift.t) (acc : option Qc) :
  foldl (fun (acc : option Qc) (s : Shift.t) =>
           if decide (Shift.pharmacistId s = k)
           then Some (default 0%Qc acc
                      + calculateShiftHours (Shift.startTime s) (Shift.endTime s))%Qc
           else acc) acc l
  = if decide (filter (fun s => Shift.pharmacistId s = k) l = []) then acc
    else Some (foldl (fun total s => (total + shiftHoursOf s)%Qc) (default 0%Qc acc)
                 (filter (fun s => Shift.pharmacistId s = k) l)).
Proof.
  revert acc. induction l as [|s l IH]; intros acc; [done|].
  cbn [foldl]. rewrite IH, filter_cons. clear IH.
  destruct (decide (Shift.pharmacistId s = k)) as [Hk|Hk]; [|done].
  rewrite (decide_False (P := _ :: _ = [])) by done. cbn [foldl default].
  by destruct (decide (filter _ l = [])) as [->|].
Qed.

Lemma dailyHours_get (k : string) (dayShifts : list Shift.t) :
  Js.get k (dailyHoursOf rules pharmacists dayShifts)
  = if decide (k ∈ Shift.pharmacistId <$> dayShifts) then Some (hoursWorked k dayShifts)
    else None.
Proof.
  rewrite dailyHoursOf_fold, hoursFold_get, hoursBump_fold. cbn [Js.get default].
  unfold hoursWorked.
  destruct (decide (filter _ dayShifts = [])) as [Hnil|Hne];
    destruct (decide (k ∈ _)) as [Hin|Hnot]; try done.
  - exfalso. apply list_elem_of_fmap in Hin as (s & -> & Hs).
    assert (s ∈ filter (fun s' => Shift.pharmacistId s' = Shift.pharmacistId s) dayShifts)
      as Hin by by apply list_elem_of_filter.
    rewrite Hnil in Hin. by apply elem_of_nil in Hin.
  - exfalso. destruct (filter _ dayShifts) as [|s l] eqn:Hf; [done|].
    assert (s ∈ filter (fun s' => Shift.pharmacistId s' = k) dayShifts) as Hin
      by (rewrite Hf; by left).
    apply list_elem_of_filter in Hin as [<- Hin]. apply Hnot.
    apply list_elem_of_fmap. by exists s.
Qed.

Lemma dailyHoursWarnings_nil (dayShifts : list Shift.t) :
  flat_map (dailyHoursWarning rules pharmacists)
    (Js.entries (dailyHoursOf rules pharmacists dayShifts)) = []
  ↔ ∀ k, k ∈ Shift.pharmacistId <$> dayShifts →
         (hoursWorked k dayShifts <= PharmacyRules.maxHoursPerDay rules)%Qc.
Proof.
  rewrite flat_map_nil, entries_Permutation, Forall_forall.
  assert (Hnd : NoDup (dailyHoursOf rules pharmacists dayShifts).*1).
  { rewrite dailyHoursOf_fold. apply hoursFold_NoDup. constructor. }
  split.
  - intros H k Hk. specialize (H (k, hoursWorked k dayShifts)).
    rewrite (elem_of_get _ _ _ Hnd), dailyHours_get, decide_True in H by done.
    specialize (H eq_refl). unfold dailyHoursWarning in H.
    case_bool_decide as Hlt; [done|]. by apply Qcnot_lt_le.
  - intros H [k v] Hkv. rewrite (elem_of_get _ _ _ Hnd), dailyHours_get in Hkv.
    destruct (decide _) as [Hin|]; [|done]. injection Hkv as <-.
    unfold dailyHoursWarning. rewrite bool_decide_eq_false_2; [done|].
    apply Qcle_not_lt. by apply H.
Qed.

End CleanDay.



(** ** Shifts outside the week *)

(** X5.  The validator looks at the shifts dated Monday to Saturday of the
    schedule's week only: shifts with any other date (a Sunday, another
    week) do not change the warnings map. *)
Theorem validateShifts_only_week (rules : PharmacyRules.t) (pharmacists : list Pharmacist.t)
    (weekStart : Z) (shifts : list Shift.t) :
  validateShifts rules pharmacists weekStart
    (filter (fun s => weekStart <= Shift.date s < weekStart + 6) shifts)
  = validateShifts rules pharmacists weekStart shifts.
Proof.
  apply map_eq. intros d. rewrite !validateShifts_lookup.
  destruct (decide (weekStart <= d < weekStart + 6)) as [Hd|Hd].
  - assert (Hday : filter (fun s => Shift.date s = d)
                     (filter (fun s => weekStart <= Shift.date s < weekStart + 6) shifts)
                   = filter (fun s => Shift.date s = d) shifts).
    { rewrite list_filter_filter. apply list_filter_iff. intros s. split; [by intros [? _]|].
      intros Hs. split; [done|]. by rewrite Hs. }
    assert (HW : dayWarningsOf rules pharmacists
                   (filter (fun s => weekStart <= Shift.date s < weekStart + 6) shifts) d
                 = dayWarningsOf rules pharmacists shifts d).
    { unfold dayWarningsOf. by rewrite Hday. }
    by rewrite HW.
  - rewrite !decide_False; [done|by intros [? _]..].
Qed.

(** ** Pharmacists available to the rotation *)

Section Availability.
Context (dayName : string).

Let further := fun a b : Pharmacist.t => freeDayDistance dayName b <= freeDayDistance dayName a.

Lemma insertByDistance_Permutation (x : Pharmacist.t) (l : list Pharmacist.t) :
  insertByDistance dayName x l ≡ₚ x :: l.
Proof.
  induction l as [|y l IH]; [done|]. cbn [insertByDistance].
  case_bool_decide; [done|]. rewrite IH. apply perm_swap.
Qed.

Lemma sortByDistance_Permutation (l : list Pharmacist.t) : sortByDistance dayName l ≡ₚ l.
Proof.
  induction l as [|x l IH]; [done|]. unfold sortByDistance in *. cbn [foldr].
  by rewrite insertByDistance_Permutation, IH.
Qed.

Lemma insertByDistance_sorted (x : Pharmacist.t) (l : list Pharmacist.t) :
  StronglySorted further l → StronglySorted further (insertByDistance dayName x l).
Proof.
  induction 1 as [|y l Hl IH Hy]; cbn [insertByDistance].
  - repeat constructor.
  - case_bool_decide as Hle.
    + constructor; [by constructor|]. constructor; [done|].
      eapply Forall_impl; [exact Hy|]. unfold further. intros z Hz. lia.
    + constructor; [done|]. rewrite insertByDistance_Permutation.
      constructor; [unfold further; lia|done].
Qed.

Lemma sortByDistance_sorted (l : list Pharmacist.t) :
  StronglySorted further (sortByDistance dayName l).
Proof.
  induction l as [|x l IH]; [constructor|]. unfold sortByDistance in *. cbn [foldr].
  by apply insertByDistance_sorted.
Qed.

End Availability.

(** X6.  [getAvailablePharmacists] returns pharmacists of the generator only,
    none more often than the generator has it, ordered so that a
    pharmacist never comes before one whose free day is further from the
    current day. *)
Theorem getAvailablePharmacists_sorted (g : ScheduleGenerator.t) (dayName : string)
    (weekNumber : Z) (weeklyHours : gmap string Qc) :
  let available := getAvailablePharmacists g dayName weekNumber weeklyHours in
  available ⊆+ ScheduleGenerator.pharmacists g
  ∧ StronglySorted
      (fun a b => freeDayDistance dayName b <= freeDayDistance dayName a) available.
Proof.
  split; [|apply sortByDistance_sorted].
  unfold getAvailablePharmacists. rewrite sortByDistance_Permutation.
  apply sublist_submseteq, sublist_filter.
Qed.

(** X7.  Who is available for the rotation on a day: a pharmacist of the
    generator who is not on a free day and not on a Saturday off, and who,
    when full-time, has at least eight hours left in the ledger and fewer
    than five eight-hour days worked; a part-time pharmacist is available
    whatever hours remain.  (For a full-time pharmacist the ledger must
    have an entry.) *)
Theorem getAvailablePharmacists_members (g : ScheduleGenerator.t) (dayName : string)
    (weekNumber : Z) (weeklyHours : gmap string Qc) (p : Pharmacist.t) :
  (isFullTime p = true → is_Some (weeklyHours !! Pharmacist.id p)) →
  p ∈ getAvailablePharmacists g dayName weekNumber weeklyHours
  ↔ p ∈ ScheduleGenerator.pharmacists g
    ∧ isFreeDay p dayName = false
    ∧ saturdayOff p dayName weekNumber = false
    ∧ (isFullTime p = true →
       ∃ hoursLeft, weeklyHours !! Pharmacist.id p = Some hoursLeft
         ∧ (Js.ofZ 8 <= hoursLeft)%Qc
         ∧ Js.floor ((Pharmacist.weeklyHours p - hoursLeft) / Js.ofZ 8)%Qc < 5).
Proof.
  intros Hledger. unfold getAvailablePharmacists.
  rewrite sortByDistance_Permutation, list_elem_of_filter. unfold availableInRotation. split.
  - intros [Havail Hin]. split; [done|].
    destruct (isFreeDay p dayName); [done|]. split; [done|].
    destruct (saturdayOff p dayName weekNumber); [done|]. split; [done|].
    intros Hfull. rewrite Hfull in Havail. destruct (Hledger Hfull) as [h Hh].
    rewrite Hh in Havail. cbn [default from_option id] in Havail. cbv zeta in Havail. exists h. split; [done|].
    case_bool_decide; [done|]. case_bool_decide as Hlt; [done|].
    split; [by apply Qcnot_lt_le|lia].
  - intros (Hin & Hfree & Hsat & Hfull). split; [|done]. rewrite Hfree, Hsat.
    destruct (isFullTime p); [|done]. destruct (Hfull eq_refl) as (h & -> & Hle & Hdays).
    cbn [default from_option id]. cbv zeta.
    destruct (bool_decide_reflect
                (5 - Js.floor ((Pharmacist.weeklyHours p - h) / Js.ofZ 8)%Qc <= 0)); [lia|].
    rewrite bool_decide_eq_false_2; [done|]. by apply Qcle_not_lt.
Qed.

Lemma getAvailablePharmacists_members_witness :
  let g := ScheduleGenerator.mk threePharmacists swapRules in
  let weeklyHours := initialWeeklyHours threePharmacists in
  let p := Pharmacist.mk "p2" "Bob" "" (Js.ofZ 40) "Sunday" None true None in
  p ∈ getAvailablePharmacists g "Tuesday" 1 weeklyHours
  ↔ p ∈ ScheduleGenerator.pharmacists g
    ∧ isFreeDay p "Tuesday" = false
    ∧ saturdayOff p "Tuesday" 1 = false
    ∧ (isFullTime p = true →
       ∃ hoursLeft, weeklyHours !! Pharmacist.id p = Some hoursLeft
         ∧ (Js.ofZ 8 <= hoursLeft)%Qc
         ∧ Js.floor ((Pharmacist.weeklyHours p - hoursLeft) / Js.ofZ 8)%Qc < 5).
Proof.
  intros g weeklyHours p. apply getAvailablePharmacists_members.
  intros _. eexists. vm_compute. reflexivity.
Defined.

(** ** Arithmetic on exact rationals *)

Lemma Qc_eq_iff (x y : Qc) : x = y ↔ (this x == this y)%Q.
Proof. split; [by intros ->|apply Qc_is_canon]. Qed.

(** Turns statements about [Qc] into statements about [Q], for [lra]. *)
Ltac qc_to_q :=
  rewrite ?Qc_eq_iff in *;
  unfold Qcle, Qclt, Qcminus, Qcdiv in *;
  unfold Qcplus, Qcmult, Qcopp, Qcinv, Js.ofZ in *;
  cbn [this Q2Qc] in *;
  rewrite ?Qred_correct in *;
  unfold inject_Z in *.

Lemma max_two_pos (x : Qc) : (0 < Js.max (Js.ofZ 2) x)%Qc.
Proof. unfold Js.max. case_bool_decide; qc_to_q; lra. Qed.

(** ** The shifts synthesized for a day *)

Section Synthesis.
Context (rules : PharmacyRules.t) (dateStr : Z).

(** What every shift created for assignment [a] looks like. *)
Let madeFor := fun (a : Assignment.t) (s : Shift.t) =>
  Shift.type s ≠ full
  ∧ Shift.isBreakTime s = false
  ∧ Shift.date s = dateStr
  ∧ Shift.pharmacistId s = Pharmacist.id (Assignment.pharmacist a)
  ∧ Shift.patternId s = Assignment.patternId a.

Lemma synthesize_made (a : Assignment.t) (created : list Shift.t) (total : Qc) :
  synthesize rules dateStr a = Some (created, total) →
  Forall (madeFor a) created ∧ (length created <= 2)%nat.
Proof.
  unfold synthesize. destruct (Assignment.shiftType a).
  - unfold synthMorning.
    repeat case_bool_decide; intros Hsome; try discriminate Hsome;
      injection Hsome as <- _; (split; [|simpl; lia]); by repeat constructor.
  - unfold synthAfternoon.
    repeat case_bool_decide; intros Hsome; try discriminate Hsome;
      injection Hsome as <- _; (split; [|simpl; lia]); by repeat constructor.
  - intros [= Hfull]. replace created with (synthFull rules dateStr a).1 by (by rewrite Hfull).
    clear Hfull. unfold synthFull.
    set (mh := (Js.ofZ _ / Js.ofZ 60)%Qc).
    set (ah := (Js.ofZ _ / Js.ofZ 60)%Qc).
    destruct (bool_decide (Pharmacist.weeklyHours (Assignment.pharmacist a) < Js.ofZ 40)%Qc);
      cbn [andb];
      repeat match goal with
             | |- context [bool_decide ?P] => destruct (bool_decide_reflect P)
             end;
      cbn [fst snd app length]; rewrite ?Forall_app;
      try (split; [repeat split; by repeat constructor|lia]);
      exfalso;
      pose proof (max_two_pos mh); pose proof (max_two_pos ah);
      qc_to_q; lra.
Qed.

Lemma synthStep_ledger (st : list Shift.t * gmap string Qc) (a : Assignment.t) (k : string) :
  let st' := synthStep rules dateStr st a in
  (∀ h, st.2 !! k = Some h → ∃ h', st'.2 !! k = Some h' ∧ (h' <= h)%Qc)
  ∧ (k ≠ Pharmacist.id (Assignment.pharmacist a) → st'.2 !! k = st.2 !! k).
Proof.
  destruct st as [shifts wh]. unfold synthStep. cbn [snd].
  destruct (synthesize rules dateStr a) as [[created total]|]; cbn [snd].
  - case_bool_decide as Hpos; cbn [snd].
    + split.
      * intros h Hh. destruct (decide (k = Pharmacist.id (Assignment.pharmacist a))) as [->|Hk].
        -- rewrite lookup_alter_eq, Hh. simpl. eexists. split; [done|]. qc_to_q. lra.
        -- rewrite lookup_alter_ne by done. exists h. split; [done|]. apply Qcle_refl.
      * intros Hk. by rewrite lookup_alter_ne.
    + split; [|done]. intros h Hh. exists h. split; [done|]. apply Qcle_refl.
  - split; [|done]. intros h Hh. exists h. split; [done|]. apply Qcle_refl.
Qed.

End Synthesis.

(** X8.  Every shift that [generateDayShifts] creates is a morning or an
    afternoon shift (never a full one) dated the given day, not a break,
    and carries the pharmacist and the pattern of one of the assignments;
    an assignment yields at most two shifts. *)
Theorem generateDayShifts_shape (rules : PharmacyRules.t) (dateStr : Z)
    (shiftAssignments : list Assignment.t) (weeklyHours : gmap string Qc) :
  let dayShifts := (generateDayShifts rules dateStr shiftAssignments weeklyHours).1 in
  Forall (fun s =>
            (Shift.type s = morning ∨ Shift.type s = afternoon)
            ∧ Shift.isBreakTime s = false
            ∧ Shift.date s = dateStr
            ∧ ∃ a, a ∈ shiftAssignments
                   ∧ Shift.pharmacistId s = Pharmacist.id (Assignment.pharmacist a)
                   ∧ Shift.patternId s = Assignment.patternId a)
         dayShifts
  ∧ (length dayShifts <= 2 * length shiftAssignments)%nat.
Proof.
  intros dayShifts. subst dayShifts. unfold generateDayShifts.
  set (ok := fun (l : list Assignment.t) (s : Shift.t) =>
               (Shift.type s = morning ∨ Shift.type s = afternoon)
               ∧ Shift.isBreakTime s = false
               ∧ Shift.date s = dateStr
               ∧ ∃ a, a ∈ l
                      ∧ Shift.pharmacistId s = Pharmacist.id (Assignment.pharmacist a)
                      ∧ Shift.patternId s = Assignment.patternId a).
  assert (H : ∀ l done st,
            Forall (ok (done ++ l)) st.1 → (length st.1 <= 2 * length done)%nat →
            Forall (ok (done ++ l)) (foldl (synthStep rules dateStr) st l).1
            ∧ (length (foldl (synthStep rules dateStr) st l).1
               <= 2 * length (done ++ l))%nat).
  { induction l as [|a l IH]; intros done [shifts wh] Hok Hlen.
    - rewrite app_nil_r in *. by split.
    - cbn [foldl]. specialize (IH (done ++ [a])). rewrite <-!app_assoc in IH.
      apply IH; unfold synthStep;
        destruct (synthesize rules dateStr a) as [[created total]|] eqn:Hs; cbn [fst] in *;
        try done.
      + apply Forall_app. split; [done|].
        destruct (synthesize_made _ _ _ _ _ Hs) as [Hmade _].
        eapply Forall_impl; [exact Hmade|]. intros s (Hty & Hbreak & Hdate & Hid & Hpat).
        repeat split; try done.
        * destruct (Shift.type s); [by left|by right|done].
        * exists a. split; [|done]. apply elem_of_app. right. by left.
      + destruct (synthesize_made _ _ _ _ _ Hs) as [_ Hmax].
        rewrite !length_app in *. simpl. lia.
      + rewrite length_app. simpl. lia. }
  destruct (H shiftAssignments [] ([], weeklyHours)) as [H1 H2]; [constructor|simpl; lia|].
  by split.
Qed.

(** X9.  The ledger of remaining weekly hours under [generateDayShifts]: an
    entry never grows, and only the entries of the assigned pharmacists
    can change. *)
Theorem generateDayShifts_ledger (rules : PharmacyRules.t) (dateStr : Z)
    (shiftAssignments : list Assignment.t) (weeklyHours : gmap string Qc) (k : string) :
  let ledger := (generateDayShifts rules dateStr shiftAssignments weeklyHours).2 in
  (∀ h, weeklyHours !! k = Some h → ∃ h', ledger !! k = Some h' ∧ (h' <= h)%Qc)
  ∧ (k ∉ (fun a => Pharmacist.id (Assignment.pharmacist a)) <$> shiftAssignments →
     ledger !! k = weeklyHours !! k).
Proof.
  intros ledger. subst ledger. unfold generateDayShifts.
  generalize (@nil Shift.t). revert weeklyHours.
  induction shiftAssignments as [|a l IH]; intros wh shifts.
  - split; [|done]. intros h Hh. exists h. split; [done|]. apply Qcle_refl.
  - cbn [foldl].
    destruct (synthStep_ledger rules dateStr (shifts, wh) a k) as [Hle Hsame].
    destruct (synthStep rules dateStr (shifts, wh) a) as [shifts' wh'] eqn:Hstep.
    cbn [snd] in *. destruct (IH wh' shifts') as [IHle IHsame]. split.
    + intros h Hh. destruct (Hle h Hh) as (h1 & Hh1 & Hle1).
      destruct (IHle h1 Hh1) as (h2 & Hh2 & Hle2). exists h2. split; [done|].
      by eapply Qcle_trans.
    + rewrite fmap_cons, not_elem_of_cons. intros [Hk Hl].
      rewrite IHsame by done. by apply Hsame.
Qed.

(** ** Where the two-hour minimum does hold *)



(** ** The coverage tracker *)

Lemma createCoverageTracker_lookup (rules : PharmacyRules.t) (k : string) :
  createCoverageTracker rules !! k
  = if decide (k ∈ requirementKey <$> PharmacyRules.staffingRequirements rules)
    then Some 0%Qc else None.
Proof.
  unfold createCoverageTracker.
  assert (H : ∀ l (t : gmap string Qc),
            foldl (fun tracker req => <[ requirementKey req := 0%Qc ]> tracker) t l !! k
            = if decide (k ∈ requirementKey <$> l) then Some 0%Qc else t !! k).
  { induction l as [|r l IH]; intros t.
    - rewrite decide_False; [done|]. apply not_elem_of_nil.
    - cbn [foldl]. rewrite IH, fmap_cons.
      destruct (decide (k ∈ requirementKey <$> l)) as [Hin|Hnot].
      + rewrite decide_True; [done|]. by right.
      + destruct (decide (k = requirementKey r)) as [->|Hk].
        * rewrite lookup_insert_eq, decide_True; [done|]. by left.
        * rewrite lookup_insert_ne by done. rewrite decide_False; [done|].
          rewrite not_elem_of_cons. by split. }
  by rewrite H, lookup_empty.
Qed.

Lemma covered_share_nonneg (sub : SubShift.t) (req : StaffingRequirement.t) (overlap : Z) :
  overlapMinutes sub req = Some overlap →
  (0 <= Js.ofZ overlap
        / Js.ofZ (timeToMinutes (StaffingRequirement.endTime req)
                  - timeToMinutes (StaffingRequirement.startTime req))
        * Js.ofZ 100 / Js.ofZ 100)%Qc.
Proof.
  intros Ho. apply overlapMinutes_Some in Ho as [Hpos Hdur].
  unfold Qcdiv. repeat apply Qcmult_nonneg_nonneg.
  - apply ofZ_nonneg. lia.
  - apply Qclt_le_weak, Qcinv_pos, ofZ_pos. lia.
  - by apply ofZ_nonneg.
  - apply Qclt_le_weak, Qcinv_pos, ofZ_pos. lia.
Qed.

Lemma updateCoverageTracker_lookup (rules : PharmacyRules.t) (tracker : gmap string Qc)
    (pattern : FixedShiftPattern.t) (k : string) :
  let updated := updateCoverageTracker rules tracker pattern in
  (∀ c, tracker !! k = Some c → ∃ c', updated !! k = Some c' ∧ (c <= c')%Qc)
  ∧ (k ∉ requirementKey <$> PharmacyRules.staffingRequirements rules →
     updated !! k = tracker !! k).
Proof.
  unfold updateCoverageTracker. revert tracker.
  induction (PharmacyRules.staffingRequirements rules) as [|req reqs IH]; intros tracker.
  - split; [|done]. intros c Hc. exists c. split; [done|]. apply Qcle_refl.
  - cbn [foldl]. cbv zeta.
    set (add := fun (sub : SubShift.t) (t : gmap string Qc) =>
                  match overlapMinutes sub req with
                  | Some overlap =>
                      alter (fun c => c + (Js.ofZ overlap
                                           / Js.ofZ (timeToMinutes (StaffingRequirement.endTime req)
                                                     - timeToMinutes
                                                         (StaffingRequirement.startTime req)))
                                          * Js.ofZ 100 / Js.ofZ 100)%Qc
                            (requirementKey req) t
                  | None => t
                  end).
    assert (Hadd : ∀ sub t,
              (∀ c, t !! k = Some c → ∃ c', add sub t !! k = Some c' ∧ (c <= c')%Qc)
              ∧ (k ≠ requirementKey req → add sub t !! k = t !! k)).
    { intros sub t. unfold add.
      destruct (overlapMinutes sub req) as [overlap|] eqn:Ho.
      - pose proof (covered_share_nonneg sub req overlap Ho) as Hshare. split.
        + intros c Hc. destruct (decide (k = requirementKey req)) as [->|Hk].
          * rewrite lookup_alter_eq, Hc. simpl. eexists. split; [done|].
            revert Hshare. generalize (Js.ofZ overlap
              / Js.ofZ (timeToMinutes (StaffingRequirement.endTime req)
                        - timeToMinutes (StaffingRequirement.startTime req))
              * Js.ofZ 100 / Js.ofZ 100)%Qc.
            intros q Hq. qc_to_q. lra.
          * rewrite lookup_alter_ne by done. exists c. split; [done|]. apply Qcle_refl.
        + intros Hk. by rewrite lookup_alter_ne.
      - split; [|done]. intros c Hc. exists c. split; [done|]. apply Qcle_refl. }
    fold (add (FixedShiftPattern.morningShift pattern) tracker).
    set (t1 := add (FixedShiftPattern.morningShift pattern) tracker).
    fold (add (FixedShiftPattern.afternoonShift pattern) t1).
    set (t2 := add (FixedShiftPattern.afternoonShift pattern) t1).
    destruct (Hadd (FixedShiftPattern.morningShift pattern) tracker) as [H1 H1'].
    destruct (Hadd (FixedShiftPattern.afternoonShift pattern) t1) as [H2 H2'].
    fold t1 in H1, H1'. fold t2 in H2, H2'.
    destruct (IH t2) as [H3 H3']. split.
    + intros c Hc. destruct (H1 c Hc) as (c1 & Hc1 & Hle1).
      destruct (H2 c1 Hc1) as (c2 & Hc2 & Hle2).
      destruct (H3 c2 Hc2) as (c3 & Hc3 & Hle3).
      exists c3. split; [done|]. eapply Qcle_trans; [|exact Hle3]. by eapply Qcle_trans.
    + rewrite fmap_cons, not_elem_of_cons. intros [Hk Hreqs].
      by rewrite H3', H2', H1'.
Qed.

(** X11.  The coverage tracker has an entry for the window of every staffing
    requirement, zero at creation and never negative; recording a further
    pattern never lowers an entry and touches no other key. *)
Theorem coverageTracker_invariant (rules : PharmacyRules.t)
    (patterns : list FixedShiftPattern.t) (pattern : FixedShiftPattern.t) (k : string) :
  let tracker := foldl (updateCoverageTracker rules) (createCoverageTracker rules) patterns in
  let updated := updateCoverageTracker rules tracker pattern in
  (k ∈ requirementKey <$> PharmacyRules.staffingRequirements rules →
     createCoverageTracker rules !! k = Some 0%Qc
     ∧ ∃ c c', tracker !! k = Some c ∧ updated !! k = Some c' ∧ (0 <= c)%Qc ∧ (c <= c')%Qc)
  ∧ (k ∉ requirementKey <$> PharmacyRules.staffingRequirements rules →
     tracker !! k = None ∧ updated !! k = None).
Proof.
  intros tracker updated.
  assert (Hreach : ∀ l t,
            (k ∈ requirementKey <$> PharmacyRules.staffingRequirements rules →
               (∃ c, t !! k = Some c ∧ (0 <= c)%Qc) →
               ∃ c, foldl (updateCoverageTracker rules) t l !! k = Some c ∧ (0 <= c)%Qc)
            ∧ (k ∉ requirementKey <$> PharmacyRules.staffingRequirements rules →
               foldl (updateCoverageTracker rules) t l !! k = t !! k)).
  { induction l as [|p l IH]; intros t; [by split|]. cbn [foldl].
    destruct (updateCoverageTracker_lookup rules t p k) as [Hmono Hsame].
    destruct (IH (updateCoverageTracker rules t p)) as [IH1 IH2]. split.
    - intros Hk (c & Hc & Hpos). apply IH1; [done|].
      destruct (Hmono c Hc) as (c' & Hc' & Hle). exists c'. split; [done|].
      by eapply Qcle_trans.
    - intros Hk. by rewrite IH2, Hsame. }
  destruct (Hreach patterns (createCoverageTracker rules)) as [Hin Hout].
  destruct (updateCoverageTracker_lookup rules tracker pattern k) as [Hmono Hsame].
  pose proof (createCoverageTracker_lookup rules k) as Hcreate. split.
  - intros Hk. rewrite decide_True in Hcreate by done. split; [done|].
    destruct (Hin Hk) as (c & Hc & Hpos).
    { exists 0%Qc. split; [done|]. apply Qcle_refl. }
    destruct (Hmono c Hc) as (c' & Hc' & Hle). by exists c, c'.
  - intros Hk. rewrite decide_False in Hcreate by done.
    fold tracker in Hout. subst updated. by rewrite Hsame, Hout.
Qed.

(** ** Coverage percentage of a pattern *)

Lemma floor_le (q : Qc) (n : Z) : (q < Js.ofZ (n + 1))%Qc → Js.floor q <= n.
Proof.
  intros Hq. unfold Js.floor. unfold Qclt, Js.ofZ in Hq. cbn [this Q2Qc] in Hq.
  rewrite Qred_correct in Hq. unfold Qlt, inject_Z in Hq. simpl in Hq.
  assert (Qnum q / Z.pos (Qden q) < n + 1); [|lia].
  apply Z.div_lt_upper_bound; lia.
Qed.

Lemma round_le (q : Qc) (n : Z) : (q <= Js.ofZ n)%Qc → Js.round q <= n.
Proof.
  intros Hq. unfold Js.round. apply floor_le.
  assert (Hn : Js.ofZ (n + 1) = (Js.ofZ n + 1)%Qc).
  { apply Qc_is_canon. unfold Js.ofZ, Qcplus. cbn [this Q2Qc]. rewrite !Qred_correct.
    rewrite inject_Z_plus. reflexivity. }
  rewrite Hn. clear Hn. revert Hq. generalize (Js.ofZ n). intros m Hq.
  qc_to_q. lra.
Qed.

(** X12.  The rounded percentage of a requirement window that a pattern covers
    is at most 100 when the pattern's morning part ends no later than its
    afternoon part starts, and is 0 for a pattern that does not help with
    the requirement (the window not being empty). *)
Theorem coveragePercentage_bounds (pattern : FixedShiftPattern.t)
    (requirement : StaffingRequirement.t) :
  timeToMinutes (StaffingRequirement.startTime requirement)
  < timeToMinutes (StaffingRequirement.endTime requirement) →
  let percentage := calculatePatternCoveragePercentage pattern requirement in
  0 <= percentage
  ∧ (timeToMinutes (SubShift.endTime (FixedShiftPattern.morningShift pattern))
     <= timeToMinutes (SubShift.startTime (FixedShiftPattern.afternoonShift pattern)) →
     percentage <= 100)
  ∧ (patternHelpsWithRequirement pattern requirement = false → percentage = 0).
Proof.
  intros Hwindow percentage. subst percentage. split; [apply coveragePercentage_nonneg|].
  unfold calculatePatternCoveragePercentage, patternHelpsWithRequirement, overlapMinutes.
  set (rs := timeToMinutes (StaffingRequirement.startTime requirement)) in *.
  set (re := timeToMinutes (StaffingRequirement.endTime requirement)) in *.
  set (ms := timeToMinutes (SubShift.startTime (FixedShiftPattern.morningShift pattern))).
  set (me := timeToMinutes (SubShift.endTime (FixedShiftPattern.morningShift pattern))).
  set (as_ := timeToMinutes (SubShift.startTime (FixedShiftPattern.afternoonShift pattern))).
  set (ae := timeToMinutes (SubShift.endTime (FixedShiftPattern.afternoonShift pattern))).
  set (total := default 0 _ + default 0 _).
  assert (Hshare : ∀ t, 0 <= t <= re - rs →
            Js.round (Js.ofZ t / Js.ofZ (re - rs) * Js.ofZ 100)%Qc <= 100).
  { intros t Ht. apply round_le.
    assert (Hd : (0 < Js.ofZ (re - rs))%Qc) by (apply ofZ_pos; lia).
    assert (Ht' : (Js.ofZ t <= Js.ofZ (re - rs))%Qc).
    { unfold Qcle, Js.ofZ. cbn [this Q2Qc]. rewrite !Qred_correct.
      unfold Qle, inject_Z. simpl. lia. }
    assert (Hfrac : (Js.ofZ t / Js.ofZ (re - rs) <= 1)%Qc).
    { apply Qcmult_lt_0_le_reg_r with (z := Js.ofZ (re - rs)); [done|].
      unfold Qcdiv. rewrite <-Qcmult_assoc, (Qcmult_comm (/ _)), Qcmult_inv_r.
      - by rewrite Qcmult_1_r, Qcmult_1_l.
      - intros H0. rewrite H0 in Hd. by apply Qclt_not_eq in Hd. }
    revert Hfrac. generalize (Js.ofZ t / Js.ofZ (re - rs))%Qc. intros q Hq.
    qc_to_q. lra. }
  split.
  - intros Hgap. apply Hshare. subst total.
    repeat case_bool_decide; simpl; lia.
  - intros Hhelps. apply orb_false_iff in Hhelps as [Hm Ha].
    apply bool_decide_eq_false in Hm. apply bool_decide_eq_false in Ha.
    assert (total = 0) as ->.
    { subst total. repeat case_bool_decide; simpl; lia. }
    by vm_compute.
Qed.

Lemma coveragePercentage_bounds_witness :
  0 <= calculatePatternCoveragePercentage patternA allDayRequirement
  ∧ calculatePatternCoveragePercentage patternA allDayRequirement <= 100.
Proof.
  destruct (coveragePercentage_bounds patternA allDayRequirement) as (H1 & H2 & _).
  - by vm_compute.
  - split; [exact H1|]. apply H2. by vm_compute.
Defined.

(** ** The rotation trackers of the resolver *)

(** X13.  Every tracker the resolver builds gives each pharmacist an entry whose
    starting index is a valid position in the pattern array, with an empty
    history. *)
Theorem rotationTrackerFor_in_range (pharmacists reassignablePharmacists : list Pharmacist.t)
    (patternCount attempt : nat) (p : Pharmacist.t) :
  (0 < patternCount)%nat → p ∈ pharmacists →
  ∃ entry,
    rotationTrackerFor pharmacists reassignablePharmacists patternCount attempt
      !! Pharmacist.id p = Some entry
    ∧ (TrackerEntry.patternIndex entry < patternCount)%nat
    ∧ TrackerEntry.dailyPatterns entry = []
    ∧ Pharmacist.id (TrackerEntry.pharmacist entry) = Pharmacist.id p.
Proof.
  intros Hcount Hin. unfold rotationTrackerFor.
  set (good := fun (k : string) (e : TrackerEntry.t) =>
                 (TrackerEntry.patternIndex e < patternCount)%nat
                 ∧ TrackerEntry.dailyPatterns e = []
                 ∧ Pharmacist.id (TrackerEntry.pharmacist e) = k).
  set (step := fun (acc : gmap string TrackerEntry.t) (pharmacist : Pharmacist.t) => _).
  assert (H : ∀ l acc,
            (p ∈ l ∨ ∃ e, acc !! Pharmacist.id p = Some e ∧ good (Pharmacist.id p) e) →
            ∃ e, foldl step acc l !! Pharmacist.id p = Some e ∧ good (Pharmacist.id p) e).
  { induction l as [|q l IH]; intros acc Hacc.
    - destruct Hacc as [Hp|He]; [by apply elem_of_nil in Hp|done].
    - cbn [foldl]. apply IH.
      destruct (decide (Pharmacist.id q = Pharmacist.id p)) as [Heq|Hne].
      + right. unfold step. rewrite Heq, lookup_insert_eq. eexists. split; [done|].
        unfold good. cbn [TrackerEntry.patternIndex TrackerEntry.dailyPatterns
                            TrackerEntry.pharmacist].
        split; [|done]. destruct (list_find _ _) as [[i ?]|]; apply Nat.mod_upper_bound; lia.
      + destruct Hacc as [Hp|He].
        * apply elem_of_cons in Hp as [->|Hp]; [done|by left].
        * right. unfold step. by rewrite lookup_insert_ne. }
  destruct (H pharmacists ∅) as (e & He & Hgood); [by left|]. by exists e.
Qed.

Lemma rotationTrackerFor_in_range_witness :
  ∃ entry,
    rotationTrackerFor threePharmacists threePharmacists 2 3 !! "p2" = Some entry
    ∧ (TrackerEntry.patternIndex entry < 2)%nat.
Proof.
  destruct (rotationTrackerFor_in_range threePharmacists threePharmacists 2 3
              (Pharmacist.mk "p2" "Bob" "" (Js.ofZ 40) "Sunday" None true None))
    as (e & He & Hlt & _); [lia| |by exists e].
  right. by left.
Defined.

(** ** The daily hour target on schedule *)

Lemma ofZ_pred (k : Z) : Js.ofZ (k - 1) = (Js.ofZ k - 1)%Qc.
Proof.
  apply Qc_is_canon. unfold Js.ofZ, Qcminus, Qcplus, Qcopp. cbn [this Q2Qc].
  rewrite !Qred_correct. unfold Z.sub. rewrite inject_Z_plus, inject_Z_opp. reflexivity.
Qed.



(** ** Pattern usage counters of the first pass *)

Lemma usageOf_setUsage (patternUsage : gmap string (gmap string Z)) (a b ph pattern : string)
    (v : Z) :
  usageOf (setUsage patternUsage a b v) ph pattern
  = if decide (a = ph ∧ b = pattern) then v else usageOf patternUsage ph pattern.
Proof.
  unfold usageOf, setUsage. destruct (decide (a = ph)) as [->|Ha].
  - rewrite lookup_insert_eq. cbn [mbind option_bind].
    destruct (decide (b = pattern)) as [->|Hb].
    + rewrite lookup_insert_eq, decide_True by done. done.
    + rewrite lookup_insert_ne by done. rewrite decide_False by (by intros [_ ?]).
      by destruct (patternUsage !! ph).
  - rewrite lookup_insert_ne by done. by rewrite decide_False by (by intros [? _]).
Qed.

(** X15.  The first pass counts a pattern once per pharmacist and day, however
    many shifts of the day carry it: after "update pattern usage for the
    selected assignment" a counter is one higher exactly when one of the
    day's shifts belongs to that pharmacist and names that pattern.  (The
    pharmacists of the shifts have counters, as the first pass creates
    them.) *)
Theorem countDayPatterns_once (bestDayShifts : list Shift.t)
    (patternUsage : gmap string (gmap string Z)) (ph pattern : string) :
  Forall (fun s => is_Some (patternUsage !! Shift.pharmacistId s)) bestDayShifts →
  usageOf (countDayPatterns bestDayShifts patternUsage) ph pattern
  = usageOf patternUsage ph pattern
    + (if decide (Exists (fun s => Shift.pharmacistId s = ph
                                   ∧ Shift.patternId s = Some pattern ∧ pattern ≠ "")
                         bestDayShifts)
       then 1 else 0).
Proof.
  intros _. unfold countDayPatterns.
  set (pairOf := fun shift : Shift.t =>
                   match Shift.patternId shift with
                   | Some patternId =>
                       if bool_decide (patternId ≠ "")
                       then Some (Shift.pharmacistId shift, patternId) else None
                   | None => None
                   end).
  assert (Hpairs : (ph, pattern) ∈ remove_dups (omap pairOf bestDayShifts)
                   ↔ Exists (fun s => Shift.pharmacistId s = ph
                                      ∧ Shift.patternId s = Some pattern ∧ pattern ≠ "")
                            bestDayShifts).
  { rewrite elem_of_remove_dups, list_elem_of_omap, Exists_exists. unfold pairOf.
    split.
    - intros (s & Hs & Hpair). exists s. split; [done|].
      destruct (Shift.patternId s) as [pid|]; [|done].
      case_bool_decide; [|done]. by injection Hpair as <- <-.
    - intros (s & Hs & Hid & Hpat & Hne). exists s. split; [done|].
      by rewrite Hpat, bool_decide_eq_true_2, Hid. }
  assert (Hnd : NoDup (remove_dups (omap pairOf bestDayShifts))) by apply NoDup_remove_dups.
  assert (Hfold : ∀ l usage, NoDup l →
            usageOf (foldl (fun usage pair =>
                              setUsage usage pair.1 pair.2 (usageOf usage pair.1 pair.2 + 1))
                           usage l) ph pattern
            = usageOf usage ph pattern + (if decide ((ph, pattern) ∈ l) then 1 else 0)).
  { induction l as [|[a b] l IH]; intros usage Hl.
    - rewrite decide_False by apply not_elem_of_nil. simpl. lia.
    - apply NoDup_cons in Hl as [Hab Hl]. cbn [foldl]. rewrite IH by done.
      cbn [fst snd]. rewrite usageOf_setUsage.
      destruct (decide (a = ph ∧ b = pattern)) as [[-> ->]|Hne].
      + rewrite (decide_False (P := _ ∈ l)) by done.
        rewrite decide_True by (by left). lia.
      + destruct (decide ((ph, pattern) ∈ l)) as [Hin|Hnot].
        * rewrite decide_True by (by right). done.
        * rewrite decide_False; [done|]. rewrite not_elem_of_cons. split; [|done].
          intros [= -> ->]. by apply Hne. }
  rewrite Hfold by done.
  destruct (decide (_ ∈ _)) as [Hin|Hnot]; destruct (decide (Exists _ _)) as [Hex|Hno];
    try done; exfalso; tauto.
Qed.

Lemma countDayPatterns_once_witness :
  usageOf (countDayPatterns (patternShifts 0 partTimeWorker patternA)
             (initialPatternUsage (newScheduleGenerator threePharmacists scenarioRules)))
          "p3" "A" = 1.
Proof.
  rewrite countDayPatterns_once.
  - by vm_compute.
  - unfold patternShifts.
    apply Forall_cons; split; [eexists; vm_compute; reflexivity|].
    apply Forall_cons; split; [eexists; vm_compute; reflexivity|]. apply Forall_nil_2.
Defined.

(** X16.  The pattern the first pass gives a pharmacist in a retry is one of the
    shuffled patterns, and either the pharmacist has used it fewer than
    twice this week or no pattern has been used less by that pharmacist. *)
Theorem assignedPatternFor_rule (patternUsage : gmap string (gmap string Z)) (ph : Pharmacist.t)
    (shuffledPatterns : list FixedShiftPattern.t) :
  shuffledPatterns ≠ [] →
  let count := fun p => usageOf patternUsage (Pharmacist.id ph) (FixedShiftPattern.id p) in
  ∃ assignedPattern,
    assignedPatternFor patternUsage ph shuffledPatterns = Some assignedPattern
    ∧ assignedPattern ∈ shuffledPatterns
    ∧ ∀ p, p ∈ shuffledPatterns → count assignedPattern < 2 ∨ count assignedPattern <= count p.
Proof.
  intros Hne count. unfold assignedPatternFor.
  destruct (list_find _ shuffledPatterns) as [[i p]|] eqn:Hfind.
  - apply list_find_Some in Hfind as (Hi & Hp & _). exists p. split; [done|].
    split; [by eapply list_elem_of_lookup_2|]. intros q _. by left.
  - destruct shuffledPatterns as [|first rest]; [done|]. cbn [leastUsed].
    set (pick := fun (min p : FixedShiftPattern.t) =>
                   if bool_decide (count p < count min) then p else min).
    assert (Hmin : ∀ l m,
              let r := foldl pick m l in
              (r = m ∨ r ∈ l) ∧ count r <= count m ∧ ∀ q, q ∈ l → count r <= count q).
    { induction l as [|x l IH]; intros m.
      - simpl. split; [by left|]. split; [lia|]. intros q Hq. by apply elem_of_nil in Hq.
      - cbn [foldl]. destruct (IH (pick m x)) as (Hwhich & Hle & Hall).
        assert (Hpick : (pick m x = m ∨ pick m x = x)
                        ∧ count (pick m x) <= count m ∧ count (pick m x) <= count x).
        { unfold pick. case_bool_decide; [split; [by right|lia]|split; [by left|lia]]. }
        destruct Hpick as (Hp1 & Hp2 & Hp3). split; [|split; [lia|]].
        + destruct Hwhich as [->|Hin]; [|right; by right].
          destruct Hp1 as [->| ->]; [by left|right; by left].
        + intros q Hq. apply elem_of_cons in Hq as [->|Hq]; [lia|by apply Hall]. }
    destruct (Hmin rest first) as (Hwhich & Hle & Hall).
    exists (foldl pick first rest). split; [reflexivity|]. split.
    + destruct Hwhich as [->|Hin]; [by left|by right].
    + intros q Hq. right. apply elem_of_cons in Hq as [->|Hq]; [done|by apply Hall].
Qed.

Lemma assignedPatternFor_rule_witness :
  ∃ assignedPattern,
    assignedPatternFor ∅ partTimeWorker [patternB; patternA] = Some assignedPattern
    ∧ assignedPattern ∈ [patternB; patternA].
Proof.
  destruct (assignedPatternFor_rule ∅ partTimeWorker [patternB; patternA])
    as (p & Hp & Hin & _); [done|]. by exists p.
Defined.

(** ** The resolver returns strict improvements only *)

Lemma resolveLoop_strict (test : nat → Schedule.t) (count : Schedule.t → nat) (bound : nat)
    (attempts : list nat) (best : option Schedule.t) (bestCount : nat) :
  (∀ s, best = Some s → (count s < bound)%nat) → (bestCount <= bound)%nat →
  ∀ s, (resolveLoop test count attempts best bestCount).1 = Some s →
       (count s < bound)%nat ∧ (best = Some s ∨ ∃ attempt, attempt ∈ attempts ∧ s = test attempt).
Proof.
  revert best bestCount. induction attempts as [|attempt rest IH]; intros best bestCount Hbest Hle s.
  - simpl. intros ->. split; [by apply Hbest|by left].
  - cbn [resolveLoop]. case_bool_decide as Hlt.
    + case_bool_decide as Hzero.
      * simpl. intros [= <-]. split; [lia|]. right. exists attempt. split; [by left|done].
      * intros Hs. apply IH in Hs as [Hs Hwhich]; [| |lia].
        -- split; [done|]. right. destruct Hwhich as [[= <-]|(a & Ha & ->)].
           ++ exists attempt. split; [by left|done].
           ++ exists a. split; [by right|done].
        -- intros s' [= <-]. lia.
    + intros Hs. apply IH in Hs as [Hs Hwhich]; [|done..].
      split; [done|]. destruct Hwhich as [?|(a & Ha & ->)]; [by left|].
      right. exists a. split; [by right|done].
Qed.

(** X17.  [tryResolveWarnings] returns a schedule only when it has strictly
    fewer warnings than the schedule it was given, and that schedule is
    the result of one of at most 50 rotation attempts; without fixed shift
    patterns, or for a schedule without warnings, it returns nothing. *)
Theorem tryResolveWarnings_improves (createShiftAssignments : assignmentStrategy)
    (g : ScheduleGenerator.t) (weekStart weekNumber : Z)
    (originalSchedule : Schedule.t) (originalWarnings : gmap Z (list string)) :
  let result :=
    tryResolveWarnings createShiftAssignments g weekStart weekNumber originalSchedule
      originalWarnings in
  let validate :=
    validateSchedule (ScheduleGenerator.pharmacyRules g) (ScheduleGenerator.pharmacists g) in
  let patterns :=
    default [] (PharmacyRules.fixedShiftPatterns (ScheduleGenerator.pharmacyRules g)) in
  (∀ bestSchedule, result = Some bestSchedule →
     (warningCount (validate bestSchedule) < warningCount originalWarnings)%nat
     ∧ ∃ attempt, (attempt < 50)%nat
         ∧ bestSchedule
           = generateWeekScheduleWithRotation createShiftAssignments g weekStart weekNumber
               (rotationTrackerFor (ScheduleGenerator.pharmacists g)
                  (filter (fun p => isReassignable p = true) (ScheduleGenerator.pharmacists g))
                  (length patterns) attempt))
  ∧ (patterns = [] → result = None)
  ∧ (warningCount originalWarnings = 0%nat → result = None).
Proof.
  intros result validate patterns.
  assert (Hfirst : ∀ bestSchedule, result = Some bestSchedule →
     (warningCount (validate bestSchedule) < warningCount originalWarnings)%nat
     ∧ ∃ attempt, (attempt < 50)%nat
         ∧ bestSchedule
           = generateWeekScheduleWithRotation createShiftAssignments g weekStart weekNumber
               (rotationTrackerFor (ScheduleGenerator.pharmacists g)
                  (filter (fun p => isReassignable p = true) (ScheduleGenerator.pharmacists g))
                  (length patterns) attempt)).
  { intros bestSchedule. subst result patterns. unfold tryResolveWarnings.
    destruct (PharmacyRules.fixedShiftPatterns _) as [ps|]; [|done].
    case_bool_decide; [done|]. cbn [default]. intros Hres.
    apply (resolveLoop_strict _ _ (warningCount originalWarnings)) in Hres
      as [Hlt [?|(attempt & Hin & ->)]]; [done| |done|lia].
    split; [done|]. exists attempt. split; [|done].
    apply elem_of_seq in Hin. lia. }
  split; [done|]. split.
  - subst result patterns. unfold tryResolveWarnings.
    destruct (PharmacyRules.fixedShiftPatterns _) as [ps|]; [|done].
    simpl. intros Hps. rewrite Hps. done.
  - intros Hzero. destruct result as [bestSchedule|] eqn:Hres; [|done].
    destruct (Hfirst bestSchedule eq_refl) as [Hlt _]. lia.
Qed.

(** ** The best pattern for a requirement *)

Section BestForRequirement.
Context (requirement : StaffingRequirement.t) (remainingHours : Qc).

Let score := requirementFitScore requirement remainingHours.
Let step := fun (best : option FixedShiftPattern.t * Z) (pattern : FixedShiftPattern.t) =>
  match score pattern with
  | Some s => if bool_decide (s > best.2) then (Some pattern, s) else best
  | None => best
  end.

Lemma bestForRequirement_fold (l : list FixedShiftPattern.t)
    (best : option FixedShiftPattern.t * Z) :
  let best' := foldl step best l in
  best.2 <= best'.2
  ∧ (∀ p s, p ∈ l → score p = Some s → s <= best'.2)
  ∧ (best' = best ∨ ∃ p, best'.1 = Some p ∧ p ∈ l ∧ score p = Some best'.2 ∧ best.2 < best'.2).
Proof.
  revert best. induction l as [|x l IH]; intros best.
  - simpl. split; [lia|]. split; [|by left]. intros p s Hp. by apply elem_of_nil in Hp.
  - cbn [foldl]. destruct (IH (step best x)) as (Hmono & Hall & Hwhich).
    assert (Hstep : best.2 <= (step best x).2
                    ∧ (∀ s, score x = Some s → s <= (step best x).2)
                    ∧ (step best x = best
                       ∨ ∃ s, score x = Some s ∧ step best x = (Some x, s) ∧ best.2 < s)).
    { unfold step. destruct (score x) as [s|].
      - case_bool_decide; cbn [snd].
        + split; [lia|]. split; [by intros ? [= <-]|]. right. exists s. by repeat split; try lia.
        + split; [lia|]. split; [intros ? [= <-]; lia|by left].
      - split; [lia|]. split; [done|by left]. }
    destruct Hstep as (Hs1 & Hs2 & Hs3). split; [lia|]. split.
    + intros p s Hp Hsc. apply elem_of_cons in Hp as [->|Hp].
      * specialize (Hs2 s Hsc). lia.
      * by eapply Hall.
    + destruct Hwhich as [Hsame|(p & Hp & Hin & Hsc & Hlt)].
      * rewrite Hsame. destruct Hs3 as [Hkeep|(s & Hsc & Hnew & Hlt)]; [by left|].
        right. exists x. rewrite Hnew. cbn [fst snd]. split; [done|]. split; [by left|done].
      * right. exists p. split; [done|]. split; [by right|]. split; [done|lia].
Qed.

End BestForRequirement.


(** ** Filling requirements with part-time pharmacists *)

Section Fill.
Context (rules : PharmacyRules.t) (partTimePharmacists : list Pharmacist.t).

Let idOf := fun a : Assignment.t => Pharmacist.id (Assignment.pharmacist a).
Let working := fun (req : StaffingRequirement.t) (l : list Assignment.t) =>
  Z.of_nat (length (filter (fun a => hasOverlap req a = true) l)).

(** The assignment pushed for [pharmacist] and [req]. *)
Let filled := fun (req : StaffingRequirement.t) (pharmacist : Pharmacist.t) =>
  Assignment.mk pharmacist (fillShiftType rules req)
    (StaffingRequirement.startTime req) (StaffingRequirement.endTime req) None.

Lemma isAssigned_spec (l : list Assignment.t) (ph : Pharmacist.t) :
  isAssigned l ph = true ↔ Pharmacist.id ph ∈ idOf <$> l.
Proof.
  unfold isAssigned. rewrite existsb_exists, list_elem_of_fmap. split.
  - intros (a & Ha & Hid). apply bool_decide_eq_true in Hid. exists a.
    split; [done|]. by apply list_elem_of_In.
  - intros (a & Hid & Ha). exists a. split; [by apply list_elem_of_In|].
    by apply bool_decide_eq_true.
Qed.

Lemma isAssigned_app (l1 l2 : list Assignment.t) (ph : Pharmacist.t) :
  isAssigned l1 ph = true → isAssigned (l1 ++ l2) ph = true.
Proof. rewrite !isAssigned_spec, fmap_app, elem_of_app. by left. Qed.

(** What one requirement adds. *)
Lemma fillRequirement_spec (assignments : list Assignment.t) (req : StaffingRequirement.t) :
  ∃ chosen,
    fillRequirement rules partTimePharmacists assignments req
    = assignments ++ (filled req <$> chosen)
    ∧ chosen `sublist_of` filter (fun ph => isAssigned assignments ph = false)
                                 partTimePharmacists
    ∧ (working req assignments >= StaffingRequirement.requiredPharmacists req
       ∨ Z.of_nat (length chosen)
         = StaffingRequirement.requiredPharmacists req - working req assignments
       ∨ chosen = filter (fun ph => isAssigned assignments ph = false) partTimePharmacists).
Proof.
  unfold fillRequirement. fold (working req assignments). case_bool_decide as Hlt.
  - eexists. split; [reflexivity|]. split; [apply sublist_take|].
    set (available := filter _ partTimePharmacists).
    set (needed := StaffingRequirement.requiredPharmacists req - working req assignments).
    destruct (decide (Z.to_nat needed <= length available)%nat) as [Hle|Hgt].
    + right. left. rewrite length_take. lia.
    + right. right. apply take_ge. lia.
  - exists []. rewrite app_nil_r. split; [done|]. split; [apply sublist_nil_l|]. left. lia.
Qed.

Lemma working_app (req : StaffingRequirement.t) (l1 l2 : list Assignment.t) :
  working req (l1 ++ l2) = working req l1 + working req l2.
Proof. unfold working. rewrite filter_app, length_app. lia. Qed.

Lemma working_filled (req : StaffingRequirement.t) (chosen : list Pharmacist.t) :
  timeToMinutes (StaffingRequirement.startTime req)
  < timeToMinutes (StaffingRequirement.endTime req) →
  working req (filled req <$> chosen) = Z.of_nat (length chosen).
Proof.
  intros Hwindow. unfold working. f_equal. induction chosen as [|ph l IH]; [done|].
  rewrite fmap_cons, filter_cons_True; [simpl; by rewrite IH|].
  unfold hasOverlap, filled. cbn [Assignment.startTime Assignment.endTime].
  apply bool_decide_eq_true. lia.
Qed.

Lemma fill_fold_grows (reqs : list StaffingRequirement.t) (assignments : list Assignment.t) :
  ∃ added, foldl (fillRequirement rules partTimePharmacists) assignments reqs
           = assignments ++ added.
Proof.
  revert assignments. induction reqs as [|req reqs IH]; intros assignments.
  - exists []. by rewrite app_nil_r.
  - cbn [foldl]. destruct (fillRequirement_spec assignments req) as (chosen & -> & _).
    destruct (IH (assignments ++ (filled req <$> chosen))) as (added & ->).
    eexists. by rewrite <-app_assoc.
Qed.

End Fill.

(** X19.  [validateAndFillStaffingRequirements] only appends to the assignments:
    every assignment it adds is for one of the given part-time pharmacists
    who had no assignment before, spans exactly the window of one of the
    staffing requirements and names no pattern; and no pharmacist is added
    twice (the part-time pharmacists having distinct ids). *)
Theorem validateAndFill_adds (rules : PharmacyRules.t) (assignments : list Assignment.t)
    (partTimePharmacists : list Pharmacist.t) :
  NoDup (Pharmacist.id <$> partTimePharmacists) →
  ∃ added,
    validateAndFillStaffingRequirements rules assignments partTimePharmacists
    = assignments ++ added
    ∧ Forall (fun a =>
                Assignment.pharmacist a ∈ partTimePharmacists
                ∧ isAssigned assignments (Assignment.pharmacist a) = false
                ∧ Assignment.patternId a = None
                ∧ ∃ req, req ∈ PharmacyRules.staffingRequirements rules
                         ∧ Assignment.startTime a = StaffingRequirement.startTime req
                         ∧ Assignment.endTime a = StaffingRequirement.endTime req
                         ∧ Assignment.shiftType a = fillShiftType rules req)
             added
    ∧ NoDup ((fun a => Pharmacist.id (Assignment.pharmacist a)) <$> added).
Proof.
  intros Hids. unfold validateAndFillStaffingRequirements.
  set (idOf := fun a : Assignment.t => Pharmacist.id (Assignment.pharmacist a)).
  set (ok := fun (reqs : list StaffingRequirement.t) (a : Assignment.t) =>
               Assignment.pharmacist a ∈ partTimePharmacists
               ∧ isAssigned assignments (Assignment.pharmacist a) = false
               ∧ Assignment.patternId a = None
               ∧ ∃ req, req ∈ reqs
                        ∧ Assignment.startTime a = StaffingRequirement.startTime req
                        ∧ Assignment.endTime a = StaffingRequirement.endTime req
                        ∧ Assignment.shiftType a = fillShiftType rules req).
  assert (H : ∀ reqs done added,
            Forall (ok (done ++ reqs)) added → NoDup (idOf <$> added) →
            ∃ added',
              foldl (fillRequirement rules partTimePharmacists) (assignments ++ added) reqs
              = assignments ++ added'
              ∧ Forall (ok (done ++ reqs)) added' ∧ NoDup (idOf <$> added')).
  { induction reqs as [|req reqs IH]; intros done added Hok Hnd.
    - exists added. by rewrite app_nil_r in *.
    - cbn [foldl].
      destruct (fillRequirement_spec rules partTimePharmacists (assignments ++ added) req)
        as (chosen & -> & Hsub & _).
      rewrite <-app_assoc.
      specialize (IH (done ++ [req])
                     (added ++ ((fun pharmacist =>
                                   Assignment.mk pharmacist (fillShiftType rules req)
                                     (StaffingRequirement.startTime req)
                                     (StaffingRequirement.endTime req) None) <$> chosen))).
      rewrite <-!app_assoc in IH. apply IH.
      + apply Forall_app. split; [done|]. apply Forall_fmap, Forall_forall.
        intros ph Hph. apply (elem_of_sublist _ _ _ Hph) in Hsub as Hph'. clear Hph. rename Hph' into Hph.
        apply list_elem_of_filter in Hph as [Hfree Hin].
        unfold ok. cbn [Assignment.pharmacist Assignment.patternId Assignment.startTime
                          Assignment.endTime Assignment.shiftType].
        split; [done|]. split.
        * destruct (isAssigned assignments ph) eqn:Has; [|done].
          by rewrite (isAssigned_app _ _ _ Has) in Hfree.
        * split; [done|]. exists req. split; [|done]. apply elem_of_app. right. by left.
      + rewrite fmap_app. apply NoDup_app. split; [done|]. split.
        * intros k Hk Hk'. rewrite <-list_fmap_compose in Hk'.
          apply list_elem_of_fmap in Hk' as (ph & -> & Hph).
          apply (elem_of_sublist _ _ _ Hph) in Hsub as Hph'. clear Hph. rename Hph' into Hph.
          apply list_elem_of_filter in Hph as [Hfree _].
          assert (isAssigned (assignments ++ added) ph = true) as Has; [|congruence].
          apply isAssigned_spec. rewrite fmap_app, elem_of_app. by right.
        * rewrite <-list_fmap_compose.
          eapply sublist_NoDup; [exact Hids|].
          change (idOf ∘ _) with Pharmacist.id.
          apply fmap_sublist. etrans; [exact Hsub|]. apply sublist_filter. }
  destruct (H (PharmacyRules.staffingRequirements rules) [] []) as (added & Hres & Hok & Hnd).
  - constructor.
  - constructor.
  - rewrite app_nil_r in Hres. exists added. by rewrite Hres.
Qed.

Lemma validateAndFill_adds_witness :
  ∃ added,
    validateAndFillStaffingRequirements scenarioRules [] [partTimeWorker] = [] ++ added
    ∧ NoDup ((fun a => Pharmacist.id (Assignment.pharmacist a)) <$> added).
Proof.
  destruct (validateAndFill_adds scenarioRules [] [partTimeWorker])
    as (added & Hres & _ & Hnd).
  - apply NoDup_singleton.
  - by exists added.
Defined.

(** X20.  After [validateAndFillStaffingRequirements], every requirement with a
    non-empty window is overlapped by at least the required number of
    assignments, unless every given part-time pharmacist has an
    assignment. *)
Theorem validateAndFill_covers (rules : PharmacyRules.t) (assignments : list Assignment.t)
    (partTimePharmacists : list Pharmacist.t) (req : StaffingRequirement.t) :
  req ∈ PharmacyRules.staffingRequirements rules →
  timeToMinutes (StaffingRequirement.startTime req)
  < timeToMinutes (StaffingRequirement.endTime req) →
  let result := validateAndFillStaffingRequirements rules assignments partTimePharmacists in
  StaffingRequirement.requiredPharmacists req
  <= Z.of_nat (length (filter (fun a => hasOverlap req a = true) result))
  ∨ Forall (fun ph => isAssigned result ph = true) partTimePharmacists.
Proof.
  intros Hreq Hwindow result. subst result. unfold validateAndFillStaffingRequirements.
  set (working := fun (l : list Assignment.t) =>
                    Z.of_nat (length (filter (fun a => hasOverlap req a = true) l))).
  set (goal := fun (l : list Assignment.t) =>
                 StaffingRequirement.requiredPharmacists req <= working l
                 ∨ Forall (fun ph => isAssigned l ph = true) partTimePharmacists).
  assert (Hkeep : ∀ l added, goal l → goal (l ++ added)).
  { intros l added [Hmet|Hall]; [left|right].
    - unfold working in *. rewrite filter_app, length_app. lia.
    - eapply Forall_impl; [exact Hall|]. intros ph. apply isAssigned_app. }
  assert (Hfold : ∀ reqs l, goal l →
            goal (foldl (fillRequirement rules partTimePharmacists) l reqs)).
  { intros reqs l Hl. destruct (fill_fold_grows rules partTimePharmacists reqs l) as (added & ->).
    by apply Hkeep. }
  apply list_elem_of_split in Hreq as (before & after & ->).
  rewrite foldl_app. cbn [foldl]. apply Hfold.
  generalize (foldl (fillRequirement rules partTimePharmacists) assignments before). intros l.
  destruct (fillRequirement_spec rules partTimePharmacists l req) as (chosen & -> & Hsub & Hcase).
  destruct Hcase as [Hmet|[Hlen|Hall]].
  - apply Hkeep. left. unfold working. lia.
  - left. unfold working. rewrite filter_app, length_app.
    pose proof (working_filled rules req chosen Hwindow) as Hnew. cbv zeta in Hnew. lia.
  - right. apply Forall_forall. intros ph Hph.
    destruct (isAssigned l ph) eqn:Has; [by apply isAssigned_app|].
    apply isAssigned_spec. rewrite fmap_app, elem_of_app. right.
    rewrite <-list_fmap_compose. apply list_elem_of_fmap. exists ph. split; [done|].
    rewrite Hall. by apply list_elem_of_filter.
Qed.

Lemma validateAndFill_covers_witness :
  StaffingRequirement.requiredPharmacists allDayRequirement
  <= Z.of_nat (length (filter (fun a => hasOverlap allDayRequirement a = true)
                              (validateAndFillStaffingRequirements scenarioRules []
                                 [partTimeWorker])))
  ∨ Forall (fun ph => isAssigned (validateAndFillStaffingRequirements scenarioRules []
                                    [partTimeWorker]) ph = true)
           [partTimeWorker].
Proof.
  apply (validateAndFill_covers scenarioRules [] [partTimeWorker] allDayRequirement).
  - by left.
  - by vm_compute.
Defined.

(** ** Sorting by score *)

Section SortByScore.
Context {A : Type} (score : A → Qc).

Let higher := fun a b : A => (score b <= score a)%Qc.

Lemma insertByScore_Permutation (x : A) (l : list A) : insertByScore score x l ≡ₚ x :: l.
Proof.
  induction l as [|y l IH]; [done|]. cbn [insertByScore].
  case_bool_decide; [done|]. rewrite IH. apply perm_swap.
Qed.

Lemma sortByScore_Permutation (l : list A) : sortByScore score l ≡ₚ l.
Proof.
  induction l as [|x l IH]; [done|]. unfold sortByScore in *. cbn [foldr].
  by rewrite insertByScore_Permutation, IH.
Qed.

Lemma insertByScore_sorted (x : A) (l : list A) :
  StronglySorted higher l → StronglySorted higher (insertByScore score x l).
Proof.
  induction 1 as [|y l Hl IH Hy]; cbn [insertByScore].
  - repeat constructor.
  - case_bool_decide as Hle.
    + constructor; [by constructor|]. constructor; [done|].
      eapply Forall_impl; [exact Hy|]. unfold higher. intros z Hz. by eapply Qcle_trans.
    + constructor; [done|]. rewrite insertByScore_Permutation.
      constructor; [|done]. unfold higher. apply Qclt_le_weak. by apply Qcnot_le_lt.
Qed.

Lemma sortByScore_sorted (l : list A) : StronglySorted higher (sortByScore score l).
Proof.
  induction l as [|x l IH]; [constructor|]. unfold sortByScore in *. cbn [foldr].
  by apply insertByScore_sorted.
Qed.

(** The first element after sorting is an element of highest score. *)
Lemma sortByScore_head (l : list A) :
  (head (sortByScore score l) = None ↔ l = [])
  ∧ ∀ x, head (sortByScore score l) = Some x → x ∈ l ∧ ∀ y, y ∈ l → (score y <= score x)%Qc.
Proof.
  pose proof (sortByScore_Permutation l) as Hperm.
  pose proof (sortByScore_sorted l) as Hsorted.
  destruct (sortByScore score l) as [|x sorted]; cbn [head].
  - apply Permutation_nil_l in Hperm as <-. by split.
  - split.
    + split; [done|]. intros ->. by apply Permutation_nil_r in Hperm.
    + intros ? [= <-]. split; [rewrite <-Hperm; by left|].
      intros y Hy. rewrite <-Hperm in Hy. apply StronglySorted_inv in Hsorted as [_ Hx].
      apply elem_of_cons in Hy as [->|Hy]; [apply Qcle_refl|].
      rewrite Forall_forall in Hx. by apply Hx.
Qed.

End SortByScore.



(** ** Closing-time coverage *)

Section ClosingCoverage.
Context (rules : PharmacyRules.t) (closingPatterns : list FixedShiftPattern.t).

Hypothesis closing_ok : Forall (fun p => worksUntilClosing rules p = true) closingPatterns.

Let early := fun pa : Pharmacist.t * FixedShiftPattern.t => worksUntilClosing rules pa.2 = false.

Lemma reassignToClosing_spec (l : list (Pharmacist.t * FixedShiftPattern.t)) (index : nat) :
  let result := reassignToClosing rules closingPatterns index l in
  result.*1 = l.*1
  ∧ length (filter early result)
    = (length (filter early l) - (length closingPatterns - index))%nat
  ∧ Forall2 (fun old new => new.2 = old.2 ∨ (early old ∧ new.2 ∈ closingPatterns)) l result.
Proof.
  revert index. induction l as [|[ph p] l IH]; intros index; [by repeat split|].
  cbn [reassignToClosing]. destruct (worksUntilClosing rules p) eqn:Hp.
  - destruct (IH index) as (H1 & H2 & H3). split; [by rewrite !fmap_cons, H1|]. split.
    + rewrite !filter_cons_False by (unfold early; simpl; congruence). done.
    + constructor; [by left|done].
  - destruct (IH (S index)) as (H1 & H2 & H3). split; [by rewrite !fmap_cons, H1|].
    rewrite (filter_cons_True _ (ph, p)) by done. cbn [length].
    destruct (closingPatterns !! index) as [q|] eqn:Hq; cbn [default].
    + pose proof (lookup_lt_Some _ _ _ Hq) as Hlt.
      assert (Hok : worksUntilClosing rules q = true).
      { rewrite Forall_forall in closing_ok. apply closing_ok.
        by eapply list_elem_of_lookup_2. }
      split.
      * rewrite filter_cons_False by (unfold early; simpl; congruence). lia.
      * constructor; [|done]. right. split; [done|]. by eapply list_elem_of_lookup_2.
    + apply lookup_ge_None in Hq. split.
      * rewrite filter_cons_True by done. cbn [length]. lia.
      * constructor; [by left|done].
Qed.

End ClosingCoverage.

(** X22.  [fixClosingTimeCoverage] keeps the pharmacists and their order, leaves
    the assignments that already last until closing time alone, moves the
    others only to patterns of the given array that do last until closing
    time, and leaves as many assignments short of closing time as there
    were more such assignments than such patterns. *)
Theorem fixClosingTimeCoverage_count (rules : PharmacyRules.t)
    (patternAssignments : list (Pharmacist.t * FixedShiftPattern.t))
    (patterns : list FixedShiftPattern.t) :
  let result := fixClosingTimeCoverage rules patternAssignments patterns in
  let early := fun pa : Pharmacist.t * FixedShiftPattern.t =>
                 worksUntilClosing rules pa.2 = false in
  let closingPatterns := filter (fun p => worksUntilClosing rules p = true) patterns in
  result.*1 = patternAssignments.*1
  ∧ length (filter early result)
    = (length (filter early patternAssignments) - length closingPatterns)%nat
  ∧ Forall2 (fun old new =>
               new.2 = old.2
               ∨ (early old ∧ new.2 ∈ patterns ∧ worksUntilClosing rules new.2 = true))
            patternAssignments result.
Proof.
  intros result early closingPatterns. subst result. unfold fixClosingTimeCoverage.
  fold closingPatterns.
  assert (Hok : Forall (fun p => worksUntilClosing rules p = true) closingPatterns).
  { apply Forall_forall. intros p Hp. by apply list_elem_of_filter in Hp as [? _]. }
  destruct (reassignToClosing_spec rules closingPatterns Hok patternAssignments 0)
    as (H1 & H2 & H3).
  split; [done|]. split; [unfold early; cbv zeta in H2; rewrite H2; lia|].
  eapply Forall2_impl; [exact H3|]. intros old new [Hsame|[Hearly Hin]]; [by left|right].
  apply list_elem_of_filter in Hin as [Hworks Hin]. by repeat split.
Qed.

(** ** Re-timing part-time shifts for warnings *)

Lemma isDigit_spec (c : ascii) :
  isDigit c = true → 0 <= Js.digit c <= 9 ∧ Ascii.eqb c ":" = false.
Proof.
  unfold isDigit, Js.digit. intros H. apply andb_true_iff in H as [H1 H2].
  apply Nat.leb_le in H1, H2. split; [lia|].
  destruct (Ascii.eqb_spec c ":") as [->|]; [|done]. vm_compute in H2. lia.
Qed.

Lemma digits_time (a b d e : ascii) :
  isDigit a = true → isDigit b = true → isDigit d = true → isDigit e = true →
  timeToMinutes (String a (String b (String ":" (String d (String e "")))))
  = (10 * Js.digit a + Js.digit b) * 60 + (10 * Js.digit d + Js.digit e).
Proof.
  intros Ha Hb Hd He.
  destruct (isDigit_spec a Ha) as [_ Ha'], (isDigit_spec b Hb) as [_ Hb'],
           (isDigit_spec d Hd) as [_ Hd'], (isDigit_spec e He) as [_ He'].
  unfold timeToMinutes, Js.split. cbn [Js.splitColon].
  rewrite Ha', Hb', Hd', He'. change (Ascii.eqb ":" ":") with true. cbv iota.
  cbn [fmap list_fmap nth String.rev String.rev_app Js.Number Js.parseDigits]. lia.
Qed.

Lemma timeRangeAt_times (s from to : string) :
  timeRangeAt s = Some (from, to) → 0 <= timeToMinutes from ∧ 0 <= timeToMinutes to.
Proof.
  unfold timeRangeAt.
  destruct s as [|a [|b [|c [|d [|e [|f [|g [|h [|i [|j [|k s]]]]]]]]]]]; try done.
  destruct (isDigit a) eqn:Ha; [|done]. destruct (isDigit b) eqn:Hb; [|done].
  destruct (Ascii.eqb_spec c ":") as [->|]; [|done].
  destruct (isDigit d) eqn:Hd; [|done]. destruct (isDigit e) eqn:He; [|done].
  destruct (Ascii.eqb f "-"); [|done].
  destruct (isDigit g) eqn:Hg; [|done]. destruct (isDigit h) eqn:Hh; [|done].
  destruct (Ascii.eqb_spec i ":") as [->|]; [|done].
  destruct (isDigit j) eqn:Hj; [|done]. destruct (isDigit k) eqn:Hk; [|done].
  cbn [andb]. intros [= <- <-]. rewrite !digits_time by done.
  pose proof (isDigit_spec a Ha). pose proof (isDigit_spec b Hb).
  pose proof (isDigit_spec d Hd). pose proof (isDigit_spec e He).
  pose proof (isDigit_spec g Hg). pose proof (isDigit_spec h Hh).
  pose proof (isDigit_spec j Hj). pose proof (isDigit_spec k Hk). lia.
Qed.

Lemma matchTimeRange_times (s from to : string) :
  matchTimeRange s = Some (from, to) → 0 <= timeToMinutes from ∧ 0 <= timeToMinutes to.
Proof.
  induction s as [|c s IH].
  - intros H. discriminate H.
  - cbn [matchTimeRange]. destruct (timeRangeAt (String c s)) as [[a b]|] eqn:Hat.
    + intros [= <- <-]. by eapply timeRangeAt_times.
    + apply IH.
Qed.

Section Retiming.
Context (g : ScheduleGenerator.t) (dateStr : Z).

Let rules := ScheduleGenerator.pharmacyRules g.
Let within := retimedWithin g dateStr.

Lemma sameButTimes_refl (s : Shift.t) : sameButTimes s s.
Proof. by repeat split. Qed.

Lemma within_refl (s : Shift.t) : within s s.
Proof. unfold within, retimedWithin. split; [apply sameButTimes_refl|]. split; [done|]. lia. Qed.

Lemma within_trans (a b c : Shift.t) : within a b → within b c → within a c.
Proof.
  unfold within, retimedWithin.
  intros ((A1 & A2 & A3 & A4 & A5) & Afix & Abounds)
         ((B1 & B2 & B3 & B4 & B5) & Bfix & Bbounds).
  split; [|split].
  - repeat split; congruence.
  - intros Hcond. rewrite <-(Afix Hcond). apply Bfix.
    by rewrite A1, A2, A3.
  - lia.
Qed.

Lemma within_all_refl (l : list Shift.t) : Forall2 within l l.
Proof. apply Forall_Forall2_diag, Forall_forall. intros s _. apply within_refl. Qed.

Lemma within_all_trans (l1 l2 l3 : list Shift.t) :
  Forall2 within l1 l2 → Forall2 within l2 l3 → Forall2 within l1 l3.
Proof.
  intros H12. revert l3. induction H12 as [|a b l1 l2 Hab _ IH]; intros l3 H23.
  - by apply Forall2_nil_inv_l in H23 as ->.
  - apply Forall2_cons_inv_l in H23 as (c & l3' & Hbc & H23 & ->).
    constructor; [by eapply within_trans|by apply IH].
Qed.

Lemma within_insert (l : list Shift.t) (i : nat) (s s' : Shift.t) :
  l !! i = Some s → within s s' → Forall2 within l (<[ i := s' ]> l).
Proof.
  intros Hi Hs. apply Forall2_same_length_lookup. split; [by rewrite length_insert|].
  intros j x y Hx Hy. destruct (decide (i = j)) as [->|Hne].
  - rewrite list_lookup_insert_eq in Hy by (by eapply lookup_lt_Some). congruence.
  - rewrite list_lookup_insert_ne in Hy by done. replace y with x by congruence.
    apply within_refl.
Qed.

(** Positions that hold a shift of part-time pharmacist [ph] on the day. *)
Let ofPharmacist := fun (ph : Pharmacist.t) (l : list Shift.t) (i : nat) =>
  PartTime.isShiftOf ph dateStr (l !! i) = true.

Lemma ofPharmacist_within (ph : Pharmacist.t) (l l' : list Shift.t) (i : nat) :
  Forall2 within l l' → ofPharmacist ph l i → ofPharmacist ph l' i.
Proof.
  intros Hall. unfold ofPharmacist, PartTime.isShiftOf.
  destruct (l !! i) as [s|] eqn:Hs; [|done].
  destruct (Forall2_lookup_l _ _ _ _ _ Hall Hs) as (s' & -> & ((H1 & H2 & _) & _)).
  by rewrite H1, H2.
Qed.

Lemma adjustShift_within (ph : Pharmacist.t) (reqStart reqEnd : Z) (phShifts : list nat)
    (l : list Shift.t) (i : nat) :
  0 <= reqStart →
  ph ∈ filter (fun p => isPartTime p = true) (ScheduleGenerator.pharmacists g) →
  Forall (ofPharmacist ph l) phShifts → ofPharmacist ph l i →
  Forall2 within l (PartTime.adjustShift rules reqStart reqEnd phShifts l i).
Proof.
  intros Hreq Hph Hall Hi. unfold PartTime.adjustShift.
  destruct (l !! i) as [shift|] eqn:Hshift; [|apply within_all_refl].
  assert (Hpart : ∀ j s, ofPharmacist ph l j → l !! j = Some s →
            Shift.type s = afternoon →
            ¬ (Shift.type s ≠ afternoon ∨ Shift.date s ≠ dateStr
               ∨ Shift.pharmacistId s
                 ∉ Pharmacist.id <$> filter (fun p => isPartTime p = true)
                                            (ScheduleGenerator.pharmacists g))).
  { intros j s Hj Hs Hty. unfold ofPharmacist, PartTime.isShiftOf in Hj. rewrite Hs in Hj.
    apply bool_decide_eq_true in Hj as [Hid Hdate]. intros [?|[?|Hnot]]; [done..|].
    apply Hnot. rewrite Hid. apply list_elem_of_fmap. by exists ph. }
  case_bool_decide as Hafternoon.
  - destruct Hafternoon as (Hty & Hlt & Hge). case_bool_decide as Hnew; [|apply within_all_refl].
    apply (within_insert _ _ shift); [done|].
    unfold within, retimedWithin, setEndTime, setTimes, sameButTimes. cbn.
    split; [done|]. split.
    + intros Hcond. exfalso. by eapply (Hpart i shift).
    + fold rules. rewrite timeToMinutes_minutesToTime by lia. lia.
  - case_bool_decide as Hmorning; [|apply within_all_refl].
    destruct (list_find _ phShifts) as [[n j]|] eqn:Hfind; [|apply within_all_refl].
    apply list_find_Some in Hfind as (Hn & Hj & _).
    destruct (l !! j) as [afternoonShift|] eqn:Hjs; [|apply within_all_refl].
    case_bool_decide as Hnew; [|apply within_all_refl].
    apply (within_insert _ _ afternoonShift); [done|].
    assert (Hof : ofPharmacist ph l j).
    { rewrite Forall_forall in Hall. apply Hall. by eapply list_elem_of_lookup_2. }
    unfold within, retimedWithin, setStartTime, setTimes, sameButTimes. cbn.
    split; [done|]. split.
    + intros Hcond. exfalso. apply (Hpart j afternoonShift Hof Hjs); [|done].
      cbn in Hj. by injection Hj.
    + fold rules. rewrite timeToMinutes_minutesToTime by lia. lia.
Qed.

Lemma adjustPharmacist_within (reqStart reqEnd : Z) (l : list Shift.t) (ph : Pharmacist.t) :
  0 <= reqStart →
  ph ∈ filter (fun p => isPartTime p = true) (ScheduleGenerator.pharmacists g) →
  Forall2 within l (PartTime.adjustPharmacist rules dateStr reqStart reqEnd l ph).
Proof.
  intros Hreq Hph. unfold PartTime.adjustPharmacist.
  set (phShifts := filter _ (seq 0 (length l))).
  assert (Hall : Forall (ofPharmacist ph l) phShifts).
  { apply Forall_forall. intros i Hi. by apply list_elem_of_filter in Hi as [? _]. }
  assert (H : ∀ todo l',
            Forall2 within l l' → Forall (ofPharmacist ph l') phShifts →
            Forall (ofPharmacist ph l') todo →
            Forall2 within l (foldl (PartTime.adjustShift rules reqStart reqEnd phShifts) l' todo)).
  { induction todo as [|i todo IH]; intros l' Hl' Hall' Htodo; [done|].
    apply Forall_cons in Htodo as [Hi Htodo]. cbn [foldl].
    pose proof (adjustShift_within ph reqStart reqEnd phShifts l' i Hreq Hph Hall' Hi) as Hstep.
    apply IH.
    - by eapply within_all_trans.
    - eapply Forall_impl; [exact Hall'|]. intros j. by apply ofPharmacist_within.
    - eapply Forall_impl; [exact Htodo|]. intros j. by apply ofPharmacist_within. }
  apply H; [apply within_all_refl|done|done].
Qed.

Lemma adjustForWarning_within (l : list Shift.t) (warning : string) :
  Forall2 within l (PartTime.adjustForWarning g dateStr l warning).
Proof.
  unfold PartTime.adjustForWarning.
  destruct (matchTimeRange warning) as [[from to]|] eqn:Hmatch; [|apply within_all_refl].
  apply matchTimeRange_times in Hmatch as [Hfrom _].
  fold rules.
  assert (H : ∀ phs l',
            Forall (fun ph => ph ∈ filter (fun p => isPartTime p = true)
                                          (ScheduleGenerator.pharmacists g)) phs →
            Forall2 within l l' →
            Forall2 within l
              (foldl (PartTime.adjustPharmacist rules dateStr (timeToMinutes from)
                        (timeToMinutes to)) l' phs)).
  { induction phs as [|ph phs IH]; intros l' Hphs Hl'; [done|].
    apply Forall_cons in Hphs as [Hph Hphs]. cbn [foldl]. apply IH; [done|].
    eapply within_all_trans; [exact Hl'|]. by apply adjustPharmacist_within. }
  apply H; [by apply Forall_forall|apply within_all_refl].
Qed.

Lemma adjustPartTimeShiftsForWarnings_within (dayShifts : list Shift.t)
    (warnings : list string) :
  Forall2 within dayShifts
    (PartTime.adjustPartTimeShiftsForWarnings g dayShifts dateStr warnings).
Proof.
  unfold PartTime.adjustPartTimeShiftsForWarnings.
  assert (H : ∀ ws l', Forall2 within dayShifts l' →
            Forall2 within dayShifts (foldl (PartTime.adjustForWarning g dateStr) l' ws)).
  { induction ws as [|w ws IH]; intros l' Hl'; [done|]. cbn [foldl]. apply IH.
    eapply within_all_trans; [exact Hl'|]. apply adjustForWarning_within. }
  apply H, within_all_refl.
Qed.

End Retiming.

(** X23.  The re-timing for warnings keeps the array of shifts and, in each
    shift, everything but the times; it only touches afternoon shifts of
    part-time pharmacists dated the given day, which it may start earlier
    (not before the end of the break) and end later (not after closing
    time). *)
Theorem adjustPartTimeShiftsForWarnings_bounds (g : ScheduleGenerator.t)
    (dayShifts : list Shift.t) (dateStr : Z) (warnings : list string) :
  Forall2 (retimedWithin g dateStr) dayShifts
    (PartTime.adjustPartTimeShiftsForWarnings g dayShifts dateStr warnings).
Proof. apply adjustPartTimeShiftsForWarnings_within. Qed.

(** The first pass of the week generation takes the re-timing for
    warnings as a function that assigns new times to the shifts of an
    array; [adjustPartTimeShiftsForWarnings] as the source computes it is
    such a function: with the times it produces, the two agree. *)
Lemma adjustPartTimeShiftsForWarnings_is_retiming (g : ScheduleGenerator.t) (o : Oracle.t)
    (dayShifts : list Shift.t) (dateStr : Z) (warnings : list string) :
  (∀ i, Oracle.timesForWarnings o dayShifts dateStr warnings i
        = keepTimes (PartTime.adjustPartTimeShiftsForWarnings g dayShifts dateStr warnings) i) →
  adjustPartTimeShiftsForWarnings o dayShifts dateStr warnings
  = PartTime.adjustPartTimeShiftsForWarnings g dayShifts dateStr warnings.
Proof.
  intros Htimes. unfold adjustPartTimeShiftsForWarnings.
  pose proof (adjustPartTimeShiftsForWarnings_within g dateStr dayShifts warnings) as Hall.
  set (result := PartTime.adjustPartTimeShiftsForWarnings g dayShifts dateStr warnings) in *.
  apply list_eq. intros i. rewrite list_lookup_imap, Htimes. unfold keepTimes.
  destruct (dayShifts !! i) as [old|] eqn:Hold.
  - destruct (Forall2_lookup_l _ _ _ _ _ Hall Hold) as (new & Hnew & (Hsame & _)).
    rewrite Hnew. cbn. f_equal. destruct Hsame as (H1 & H2 & H3 & H4 & H5).
    unfold setTimes. cbn. destruct new. cbn in *. congruence.
  - cbn. symmetry. apply lookup_ge_None. apply lookup_ge_None in Hold.
    by rewrite <-(Forall2_length _ _ _ Hall).
Qed.

(** ** Reading the validator's warnings back *)

Lemma two_digits (n : Z) :
  0 <= n < 100 →
  ∃ a b, Js.padStart2 (Js.toString n) = String a (String b "")
         ∧ isDigit a = true ∧ isDigit b = true.
Proof.
  intros Hn.
  assert (Hall : forallb (fun k => match Js.padStart2 (Js.toString (Z.of_nat k)) with
                                   | String a (String b EmptyString) => isDigit a && isDigit b
                                   | _ => false
                                   end)
                         (seq 0 100) = true) by (vm_compute; reflexivity).
  rewrite forallb_forall in Hall. specialize (Hall (Z.to_nat n)).
  rewrite Z2Nat.id in Hall by lia.
  destruct (Js.padStart2 (Js.toString n)) as [|a [|b [|c s]]];
    try (discriminate Hall; apply in_seq; lia).
  exists a, b. split; [done|]. apply andb_true_iff, Hall, in_seq. lia.
Qed.

Lemma minutesToTime_shape (m : Z) :
  0 <= m < 6000 →
  ∃ a b d e,
    minutesToTime m = String a (String b (String ":" (String d (String e ""))))
    ∧ isDigit a = true ∧ isDigit b = true ∧ isDigit d = true ∧ isDigit e = true.
Proof.
  intros Hm. unfold minutesToTime.
  destruct (two_digits (m / 60)) as (a & b & -> & Ha & Hb).
  { split; [apply Z.div_pos; lia|apply Z.div_lt_upper_bound; lia]. }
  destruct (two_digits (Z.rem m 60)) as (d & e & -> & Hd & He).
  { rewrite Z.rem_mod_nonneg by lia. pose proof (Z.mod_pos_bound m 60). lia. }
  by exists a, b, d, e.
Qed.

Lemma timeRangeAt_nondigit (c : ascii) (s : string) :
  isDigit c = false → timeRangeAt (String c s) = None.
Proof.
  intros Hc. unfold timeRangeAt.
  destruct s as [|b [|c' [|d [|e [|f [|g [|h [|i [|j [|k s]]]]]]]]]]; try done.
  by rewrite Hc.
Qed.

Lemma matchTimeRange_skip (c : ascii) (s : string) :
  isDigit c = false → matchTimeRange (String c s) = matchTimeRange s.
Proof. intros Hc. cbn [matchTimeRange]. by rewrite timeRangeAt_nondigit. Qed.

(** X24.  The time range that the re-timing pass reads out of an
    insufficient-coverage warning is the period the validator wrote into
    it (for periods within the first hundred hours). *)
Theorem matchTimeRange_coverageMessage (periodStart periodEnd minCount required reqStart reqEnd : Z) :
  0 <= periodStart < 6000 → 0 <= periodEnd < 6000 →
  ∃ from to,
    matchTimeRange (coverageMessage periodStart periodEnd minCount required reqStart reqEnd)
    = Some (from, to)
    ∧ timeToMinutes from = periodStart ∧ timeToMinutes to = periodEnd.
Proof.
  intros Hs He.
  exists (minutesToTime periodStart), (minutesToTime periodEnd).
  split; [|split; apply timeToMinutes_minutesToTime; lia].
  unfold coverageMessage.
  destruct (minutesToTime_shape periodStart Hs) as (a & b & d & e & -> & Ha & Hb & Hd & He').
  destruct (minutesToTime_shape periodEnd He) as (g & h & j & k & -> & Hg & Hh & Hj & Hk).
  cbv [String.append].
  repeat (rewrite matchTimeRange_skip by (vm_compute; reflexivity)).
  cbn [matchTimeRange timeRangeAt]. rewrite Ha, Hb, Hd, He', Hg, Hh, Hj, Hk.
  reflexivity.
Qed.

Lemma matchTimeRange_coverageMessage_witness :
  ∃ from to,
    matchTimeRange (coverageMessage 1020 1170 2 3 540 1170) = Some (from, to)
    ∧ timeToMinutes from = 1020 ∧ timeToMinutes to = 1170.
Proof. apply matchTimeRange_coverageMessage; lia. Defined.

(** ** The full-time stage of [createShiftAssignments] *)

Section SortByComparator.
Context {A : Type} (compare : A → A → Z).

Lemma insertByComparator_Permutation (x : A) (l : list A) :
  insertByComparator compare x l ≡ₚ x :: l.
Proof.
  induction l as [|y l IH]; [done|]. cbn [insertByComparator].
  case_bool_decide; [done|]. rewrite IH. apply perm_swap.
Qed.

Lemma sortByComparator_Permutation (l : list A) : sortByComparator compare l ≡ₚ l.
Proof.
  induction l as [|x l IH]; [done|]. unfold sortByComparator in *. cbn [foldr].
  by rewrite insertByComparator_Permutation, IH.
Qed.

Lemma head_sortByComparator_cons (x : A) (l : list A) :
  head (sortByComparator compare (x :: l))
  = match head (sortByComparator compare l) with
    | None => Some x
    | Some y => if bool_decide (compare x y <= 0) then Some x else Some y
    end.
Proof.
  unfold sortByComparator. cbn [foldr].
  destruct (foldr (insertByComparator compare) [] l) as [|y s]; [done|].
  cbn [insertByComparator head]. by case_bool_decide.
Qed.

Lemma head_sortByComparator_elem (l : list A) (x : A) :
  head (sortByComparator compare l) = Some x → x ∈ l.
Proof.
  intros Hhead. rewrite <-(sortByComparator_Permutation l).
  destruct (sortByComparator compare l); [done|]. injection Hhead as ->. by left.
Qed.

Lemma head_sortByComparator_is_Some (l : list A) :
  l ≠ [] → is_Some (head (sortByComparator compare l)).
Proof.
  intros Hl. pose proof (sortByComparator_Permutation l) as Hperm.
  destruct (sortByComparator compare l); [|by eexists].
  by apply Permutation_nil_l in Hperm as <-.
Qed.

End SortByComparator.

Lemma insertByComparator_ext {A : Type} (c1 c2 : A → A → Z) (x : A) (l : list A) :
  (∀ y, y ∈ l → c1 x y = c2 x y) →
  insertByComparator c1 x l = insertByComparator c2 x l.
Proof.
  induction l as [|y l IH]; intros Hext; [done|]. cbn [insertByComparator].
  rewrite (Hext y) by by left. rewrite IH; [done|]. intros z Hz. apply Hext. by right.
Qed.

Lemma sortByComparator_ext {A : Type} (c1 c2 : A → A → Z) (l : list A) :
  (∀ x y, x ∈ l → y ∈ l → c1 x y = c2 x y) →
  sortByComparator c1 l = sortByComparator c2 l.
Proof.
  induction l as [|x l IH]; intros Hext; [done|].
  unfold sortByComparator in *. cbn [foldr].
  rewrite IH by (intros y z Hy Hz; apply Hext; by right).
  apply insertByComparator_ext. intros y Hy. apply Hext; [by left|right].
  by rewrite <-(sortByComparator_Permutation c2 l).
Qed.

(** With a comparator that is the difference of a key, the head of the
    sorted list is the first element of least key. *)
Lemma head_sortByComparator_first_min {A : Type} (key : A → Z) (l : list A) (i : nat) (x : A) :
  l !! i = Some x →
  (∀ j y, l !! j = Some y → key x <= key y ∧ ((j < i)%nat → key x < key y)) →
  head (sortByComparator (fun a b => key a - key b) l) = Some x.
Proof.
  revert i. induction l as [|z l IH]; intros i Hi Hmin; [done|].
  rewrite head_sortByComparator_cons. destruct i as [|i].
  - injection Hi as ->.
    destruct (head (sortByComparator _ l)) as [y|] eqn:Hhead; [|done].
    apply head_sortByComparator_elem, list_elem_of_lookup in Hhead as [j Hj].
    destruct (Hmin (S j) y Hj) as [Hle _]. rewrite bool_decide_eq_true_2; [done|lia].
  - cbn in Hi. rewrite (IH i Hi).
    + destruct (Hmin 0%nat z eq_refl) as [_ Hlt]. specialize (Hlt ltac:(lia)).
      rewrite bool_decide_eq_false_2; [done|lia].
    + intros j y Hj. destruct (Hmin (S j) y Hj) as [Hle Hlt]. split; [done|].
      intros Hji. apply Hlt. lia.
Qed.

(** *** Choosing a pattern *)

Lemma chooseForUnmet_Some (patterns : list FixedShiftPattern.t)
    (unmet : list StaffingRequirement.t) (patternUsageCount : list Z) (patternIndex : nat)
    (pattern : FixedShiftPattern.t) (index : nat) :
  chooseForUnmet patterns unmet patternUsageCount patternIndex = Some (pattern, index) →
  patterns !! index = Some pattern.
Proof.
  unfold chooseForUnmet, choosePatternForUnmet.
  set (items := imap (fun i p => (i, p)) patterns).
  assert (Hitems : ∀ i p, (i, p) ∈ items → patterns !! i = Some p).
  { intros i p. unfold items. rewrite elem_of_lookup_imap.
    by intros (i' & p' & [= -> ->] & Hl). }
  destruct (patterns !! patternIndex) as [start|] eqn:Hstart.
  - destruct (scoreFold_spec unmet patternUsageCount items (start, 0, patternIndex))
      as (_ & _ & Hwhich).
    destruct (foldl _ _ items) as [[bp bs] bi]. intros [= <- <-].
    destruct Hwhich as [[= -> _ ->]|[Hin _]]; [done|]. by apply Hitems.
  - destruct patterns as [|placeholder rest] eqn:Hpatterns; [done|]. rewrite <-Hpatterns in *.
    destruct (scoreFold_spec unmet patternUsageCount items (placeholder, 0, patternIndex))
      as (_ & _ & Hwhich).
    destruct (foldl _ _ items) as [[bp bs] bi]. case_bool_decide as Hpos; [|done].
    intros [= <- <-]. destruct Hwhich as [[= _ -> _]|[Hin _]]; [lia|]. by apply Hitems.
Qed.

Lemma chooseForUnmet_is_Some (patterns : list FixedShiftPattern.t)
    (unmet : list StaffingRequirement.t) (patternUsageCount : list Z) (patternIndex : nat) :
  (patternIndex < length patterns)%nat →
  is_Some (chooseForUnmet patterns unmet patternUsageCount patternIndex).
Proof.
  intros Hlt. apply lookup_lt_is_Some in Hlt as [start Hstart].
  unfold chooseForUnmet. rewrite Hstart.
  by destruct (choosePatternForUnmet _ _ _ _ _) as [[bp bs] bi].
Qed.

Lemma pharmacistPatternCounts_lookup (patterns : list FixedShiftPattern.t)
    (usage : option (gmap string (gmap string Z))) (patternUsageCount : list Z)
    (pharmacist : Pharmacist.t) (c : PatternCount.t) :
  c ∈ pharmacistPatternCounts patterns usage patternUsageCount pharmacist →
  patterns !! PatternCount.index c = Some (PatternCount.pattern c).
Proof.
  unfold pharmacistPatternCounts. rewrite elem_of_lookup_imap.
  by intros (i & p & -> & Hp).
Qed.

Lemma selectBalanced_elem (patterns : list FixedShiftPattern.t)
    (usage : option (gmap string (gmap string Z))) (patternUsageCount : list Z)
    (fullTimePharmacists : list Pharmacist.t) (pharmacist : Pharmacist.t)
    (selected : PatternCount.t) :
  selectBalanced patterns usage patternUsageCount fullTimePharmacists pharmacist
  = Some selected →
  patterns !! PatternCount.index selected = Some (PatternCount.pattern selected).
Proof.
  unfold selectBalanced. intros Hhead. apply head_sortByComparator_elem in Hhead.
  apply (pharmacistPatternCounts_lookup patterns usage patternUsageCount pharmacist).
  case_bool_decide; [|done]. by apply list_elem_of_filter in Hhead as [_ ?].
Qed.

Lemma selectBalanced_is_Some (patterns : list FixedShiftPattern.t)
    (usage : option (gmap string (gmap string Z))) (patternUsageCount : list Z)
    (fullTimePharmacists : list Pharmacist.t) (pharmacist : Pharmacist.t) :
  patterns ≠ [] →
  is_Some (selectBalanced patterns usage patternUsageCount fullTimePharmacists pharmacist).
Proof.
  intros Hne. unfold selectBalanced. apply head_sortByComparator_is_Some.
  case_bool_decide as Hlen.
  - intros Heq. rewrite Heq in Hlen. cbn in Hlen. lia.
  - unfold pharmacistPatternCounts. destruct patterns; [done|]. by rewrite imap_cons.
Qed.

(** *** The two loops *)

Lemma fixedPatternOfDay_lookup (patterns : list FixedShiftPattern.t) (dayName : string)
    (pharmacist : Pharmacist.t) (index : nat) (pattern : FixedShiftPattern.t) :
  fixedPatternOfDay patterns dayName pharmacist = Some (index, pattern) →
  patterns !! index = Some pattern.
Proof.
  unfold fixedPatternOfDay.
  destruct (_ ≫= list_find _) as [[_ dp]|]; [|done].
  destruct (list_find _ patterns) as [[k fp]|] eqn:Hfind; [|done].
  destruct (list_find (fun p => FixedShiftPattern.id p = FixedShiftPattern.id fp) patterns)
    as [[i p]|] eqn:Hindex; [|done].
  intros [= <- <-].
  apply list_find_Some in Hfind as (Hk & Hid & Hfirst).
  apply list_find_Some in Hindex as (Hi & Hid' & Hfirst').
  destruct (lt_eq_lt_dec i k) as [[Hlt| ->]|Hlt]; [| |].
  - exfalso. apply (Hfirst i p Hi Hlt). congruence.
  - done.
  - exfalso. by apply (Hfirst' k fp Hk Hlt).
Qed.

Lemma assignByRotation_Some (rules : PharmacyRules.t) (patterns : list FixedShiftPattern.t)
    (fullTimePharmacists : list Pharmacist.t) (st st' : FullTimeStage.t)
    (pharmacist : Pharmacist.t) :
  assignByRotation rules patterns fullTimePharmacists st pharmacist = Some st' →
  ∃ tracker pattern index,
    FullTimeStage.patternRotationTracker st !! Pharmacist.id pharmacist = Some tracker
    ∧ patterns !! index = Some pattern
    ∧ st' = recordAssignment rules st pharmacist pattern index tracker
              ((TrackerEntry.patternIndex tracker + 1) mod length patterns)%nat.
Proof.
  unfold assignByRotation.
  destruct (FullTimeStage.patternRotationTracker st !! Pharmacist.id pharmacist)
    as [tracker|]; [|done].
  case_bool_decide.
  - destruct (chooseForUnmet _ _ _ _) as [[pattern index]|] eqn:Hchoose; [|done].
    intros [= <-]. exists tracker, pattern, index. split; [done|]. split; [|done].
    by eapply chooseForUnmet_Some.
  - destruct (selectBalanced _ _ _ _ _) as [selected|] eqn:Hselect; [|done].
    intros [= <-]. eexists tracker, _, _. split; [done|]. split; [|done].
    by eapply selectBalanced_elem.
Qed.

Lemma assignByRotation_is_Some (rules : PharmacyRules.t) (patterns : list FixedShiftPattern.t)
    (fullTimePharmacists : list Pharmacist.t) (st : FullTimeStage.t)
    (pharmacist : Pharmacist.t) (tracker : TrackerEntry.t) :
  FullTimeStage.patternRotationTracker st !! Pharmacist.id pharmacist = Some tracker →
  (TrackerEntry.patternIndex tracker < length patterns)%nat →
  is_Some (assignByRotation rules patterns fullTimePharmacists st pharmacist).
Proof.
  intros Htracker Hrange. unfold assignByRotation. rewrite Htracker.
  case_bool_decide.
  - destruct (chooseForUnmet_is_Some patterns (unmetRequirements rules
                (FullTimeStage.coverageTracker st)) (FullTimeStage.patternUsageCount st)
                (TrackerEntry.patternIndex tracker) Hrange) as [[pattern index] ->].
    by eexists.
  - destruct (selectBalanced_is_Some patterns (FullTimeStage.pharmacistPatternUsage st)
                (FullTimeStage.patternUsageCount st) fullTimePharmacists pharmacist)
      as [selected ->]; [|by eexists].
    intros ->. cbn in Hrange. lia.
Qed.

Section StageLoop.
Context (rules : PharmacyRules.t) (patterns : list FixedShiftPattern.t).
Context {J : Type} (body : FullTimeStage.t → J → option FullTimeStage.t).
Context (who : J → Pharmacist.t) (next : TrackerEntry.t → nat).
Context (valid : J → Prop) (ok : J → FixedShiftPattern.t → Prop).

Hypothesis body_Some : ∀ st j st',
  valid j → body st j = Some st' →
  ∃ tracker pattern index,
    FullTimeStage.patternRotationTracker st !! Pharmacist.id (who j) = Some tracker
    ∧ patterns !! index = Some pattern ∧ ok j pattern
    ∧ st' = recordAssignment rules st (who j) pattern index tracker (next tracker).
Hypothesis body_is_Some : ∀ st j tracker,
  FullTimeStage.patternRotationTracker st !! Pharmacist.id (who j) = Some tracker →
  (TrackerEntry.patternIndex tracker < length patterns)%nat →
  is_Some (body st j).
Hypothesis next_range : ∀ tracker,
  (TrackerEntry.patternIndex tracker < length patterns)%nat →
  (next tracker < length patterns)%nat.

Let tracked := fun (st : FullTimeStage.t) (id : string) =>
  ∃ tracker, FullTimeStage.patternRotationTracker st !! id = Some tracker
             ∧ (TrackerEntry.patternIndex tracker < length patterns)%nat.

Lemma recordAssignment_tracked (st : FullTimeStage.t) (pharmacist : Pharmacist.t)
    (pattern : FixedShiftPattern.t) (index : nat) (tracker : TrackerEntry.t) (id : string) :
  (TrackerEntry.patternIndex tracker < length patterns)%nat →
  tracked st id →
  tracked (recordAssignment rules st pharmacist pattern index tracker (next tracker)) id.
Proof.
  intros Hrange (t & Ht & Hlt). unfold tracked, recordAssignment.
  cbn [FullTimeStage.patternRotationTracker].
  destruct (decide (Pharmacist.id pharmacist = id)) as [<-|Hne].
  - rewrite lookup_insert_eq. eexists. split; [done|]. cbn. by apply next_range.
  - rewrite lookup_insert_ne by done. by exists t.
Qed.

Lemma stageLoop_runs (l : list J) (st : FullTimeStage.t) (ids : list string) :
  Forall (tracked st) ids → Forall (fun j => valid j ∧ Pharmacist.id (who j) ∈ ids) l →
  ∃ st', forEachOrThrow body st l = Some st' ∧ Forall (tracked st') ids.
Proof.
  revert st. induction l as [|j l IH]; intros st Hids Hl; [by exists st|].
  apply Forall_cons in Hl as [[Hvalid Hj] Hl]. cbn [forEachOrThrow].
  rewrite Forall_forall in Hids. destruct (Hids _ Hj) as (tracker & Htracker & Hrange).
  destruct (body_is_Some st j tracker Htracker Hrange) as [st1 Hst1]. rewrite Hst1.
  apply body_Some in Hst1 as (t & pattern & index & Ht & _ & _ & ->); [|done].
  assert (t = tracker) as -> by congruence.
  apply IH; [|done]. apply Forall_forall. intros id Hid.
  apply recordAssignment_tracked; [done|]. by apply Hids.
Qed.

Lemma stageLoop_spec (l : list J) (st st' : FullTimeStage.t) :
  Forall valid l →
  forEachOrThrow body st l = Some st' →
  ∃ chosen,
    FullTimeStage.patternAssignments st'
    = FullTimeStage.patternAssignments st ++ zip (who <$> l) chosen
    ∧ Forall2 (fun j pattern => ok j pattern ∧ pattern ∈ patterns) l chosen
    ∧ (∀ id, id ∉ (fun j => Pharmacist.id (who j)) <$> l →
         FullTimeStage.patternRotationTracker st' !! id
         = FullTimeStage.patternRotationTracker st !! id)
    ∧ (NoDup ((fun j => Pharmacist.id (who j)) <$> l) →
       ∀ i j pattern, l !! i = Some j → chosen !! i = Some pattern →
         ∃ tracker,
           FullTimeStage.patternRotationTracker st !! Pharmacist.id (who j) = Some tracker
           ∧ FullTimeStage.patternRotationTracker st' !! Pharmacist.id (who j)
             = Some (TrackerEntry.mk (TrackerEntry.pharmacist tracker) (next tracker)
                       (TrackerEntry.dailyPatterns tracker
                        ++ [FixedShiftPattern.name pattern]))).
Proof.
  revert st. induction l as [|j l IH]; intros st Hvalid Hrun.
  - injection Hrun as <-. exists []. split; [by rewrite app_nil_r|].
    split; [constructor|]. split; [done|]. intros _ i j pattern Hi. done.
  - apply Forall_cons in Hvalid as [Hj Hvalid].
    cbn [forEachOrThrow] in Hrun. destruct (body st j) as [st1|] eqn:Hst1; [|done].
    apply body_Some in Hst1
      as (tracker & pattern & index & Htracker & Hpattern & Hok & ->); [|done].
    destruct (IH _ Hvalid Hrun) as (chosen & Hassigned & Hall & Hframe & Hkeys).
    exists (pattern :: chosen). split; [|split; [|split]].
    + rewrite Hassigned. cbn [recordAssignment FullTimeStage.patternAssignments].
      by rewrite <-app_assoc.
    + constructor; [|done]. split; [done|]. by eapply list_elem_of_lookup_2.
    + intros id Hid. rewrite fmap_cons in Hid. apply not_elem_of_cons in Hid as [Hne Hid].
      rewrite (Hframe id Hid). cbn [recordAssignment FullTimeStage.patternRotationTracker].
      by rewrite lookup_insert_ne.
    + rewrite fmap_cons. intros [Hfresh Hnodup]%NoDup_cons [|i] j' pattern' Hlj Hp.
      * injection Hlj as <-. injection Hp as <-. exists tracker. split; [done|].
        rewrite (Hframe _ Hfresh).
        cbn [recordAssignment FullTimeStage.patternRotationTracker].
        by rewrite lookup_insert_eq.
      * cbn in Hlj, Hp. destruct (Hkeys Hnodup i j' pattern' Hlj Hp) as (t & Ht & Ht').
        exists t. split; [|done].
        cbn [recordAssignment FullTimeStage.patternRotationTracker] in Ht.
        rewrite lookup_insert_ne in Ht; [done|]. intros Heq. apply Hfresh.
        rewrite Heq. apply list_elem_of_fmap. exists j'. split; [done|].
        by eapply list_elem_of_lookup_2.
Qed.

End StageLoop.

Lemma NoDup_fmap_elem_eq {A B : Type} (f : A → B) (l : list A) (x y : A) :
  NoDup (f <$> l) → x ∈ l → y ∈ l → f x = f y → x = y.
Proof.
  induction l as [|z l IH]; intros Hnodup Hx Hy Heq; [by apply elem_of_nil in Hx|].
  rewrite fmap_cons in Hnodup. apply NoDup_cons in Hnodup as [Hfresh Hnodup].
  apply elem_of_cons in Hx as [->|Hx], Hy as [->|Hy]; [done| | |by apply IH].
  - exfalso. apply Hfresh. rewrite Heq. by apply list_elem_of_fmap_2.
  - exfalso. apply Hfresh. rewrite <-Heq. by apply list_elem_of_fmap_2.
Qed.

Section AssignPatterns.
Context (rules : PharmacyRules.t) (patterns : list FixedShiftPattern.t).
Context (fullTimePharmacists : list Pharmacist.t) (dayName : string).
Context (patternRotationTracker : gmap string TrackerEntry.t).
Context (pharmacistPatternUsage : option (gmap string (gmap string Z))).

Let fixedOf := fixedPatternOfDay patterns dayName.
Let fixedJobs :=
  omap (fun ph => (fun fixed => (ph, fixed)) <$> fixedOf ph) fullTimePharmacists.
Let rotationJobs := filter (fun ph => fixedOf ph = None) fullTimePharmacists.

Hypothesis trackers_ready : ∀ ph,
  ph ∈ fullTimePharmacists →
  ∃ tracker, patternRotationTracker !! Pharmacist.id ph = Some tracker
             ∧ (TrackerEntry.patternIndex tracker < length patterns)%nat.

Lemma fixedJobs_elem (job : Pharmacist.t * (nat * FixedShiftPattern.t)) :
  job ∈ fixedJobs ↔ job.1 ∈ fullTimePharmacists ∧ fixedOf job.1 = Some job.2.
Proof.
  unfold fixedJobs. rewrite list_elem_of_omap. split.
  - intros (ph & Hph & Hjob). destruct (fixedOf ph) as [fixed|] eqn:Hfixed; [|done].
    injection Hjob as <-. by split.
  - intros [Hin Hfixed]. exists job.1. split; [done|]. rewrite Hfixed. by destruct job.
Qed.

Lemma fixedJobs_fst :
  fixedJobs.*1 = filter (fun ph => is_Some (fixedOf ph)) fullTimePharmacists.
Proof.
  unfold fixedJobs. induction fullTimePharmacists as [|ph l IH]; [done|].
  cbn [omap list_omap]. rewrite filter_cons. destruct (fixedOf ph) as [fixed|] eqn:Hfixed.
  - cbn [fmap option_fmap option_map]. rewrite decide_True by by eexists.
    rewrite fmap_cons. cbn [fst]. f_equal. apply IH. intros. apply trackers_ready. by right.
  - cbn [fmap option_fmap option_map]. rewrite decide_False by by intros [? ?].
    apply IH. intros. apply trackers_ready. by right.
Qed.

(** What the two loops leave behind. *)
Lemma assignPatterns_spec :
  ∃ st fixedChosen rotationChosen,
    assignPatterns rules patterns fullTimePharmacists dayName patternRotationTracker
                   pharmacistPatternUsage = Some st
    ∧ FullTimeStage.patternAssignments st
      = zip (fixedJobs.*1) fixedChosen ++ zip rotationJobs rotationChosen
    ∧ Forall2 (fun job pattern => pattern = job.2.2 ∧ pattern ∈ patterns)
              fixedJobs fixedChosen
    ∧ Forall2 (fun _ pattern => True ∧ pattern ∈ patterns) rotationJobs rotationChosen
    ∧ (∀ id, id ∉ Pharmacist.id <$> fullTimePharmacists →
         FullTimeStage.patternRotationTracker st !! id = patternRotationTracker !! id)
    ∧ (NoDup (Pharmacist.id <$> fullTimePharmacists) →
       (∀ i job pattern, fixedJobs !! i = Some job → fixedChosen !! i = Some pattern →
          ∃ tracker,
            patternRotationTracker !! Pharmacist.id job.1 = Some tracker
            ∧ FullTimeStage.patternRotationTracker st !! Pharmacist.id job.1
              = Some (TrackerEntry.mk (TrackerEntry.pharmacist tracker)
                        (TrackerEntry.patternIndex tracker)
                        (TrackerEntry.dailyPatterns tracker
                         ++ [FixedShiftPattern.name pattern])))
       ∧ (∀ i ph pattern, rotationJobs !! i = Some ph → rotationChosen !! i = Some pattern →
            ∃ tracker,
              patternRotationTracker !! Pharmacist.id ph = Some tracker
              ∧ FullTimeStage.patternRotationTracker st !! Pharmacist.id ph
                = Some (TrackerEntry.mk (TrackerEntry.pharmacist tracker)
                          ((TrackerEntry.patternIndex tracker + 1) mod length patterns)%nat
                          (TrackerEntry.dailyPatterns tracker
                           ++ [FixedShiftPattern.name pattern])))).
Proof.
  set (start := FullTimeStage.mk [] (replicate (length patterns) 0)
                  (createCoverageTracker rules) patternRotationTracker
                  pharmacistPatternUsage).
  set (ids := Pharmacist.id <$> fullTimePharmacists).
  set (validFixed := fun job : Pharmacist.t * (nat * FixedShiftPattern.t) =>
                       fixedOf job.1 = Some job.2).
  assert (HfixedSome : ∀ st job st',
    validFixed job → assignFixed rules st job = Some st' →
    ∃ tracker pattern index,
      FullTimeStage.patternRotationTracker st !! Pharmacist.id job.1 = Some tracker
      ∧ patterns !! index = Some pattern ∧ pattern = job.2.2
      ∧ st' = recordAssignment rules st job.1 pattern index tracker
                (TrackerEntry.patternIndex tracker)).
  { intros st [ph [index pattern]] st' Hvalid. cbn [assignFixed fst snd].
    destruct (FullTimeStage.patternRotationTracker st !! Pharmacist.id ph)
      as [tracker|]; [|done].
    intros [= <-]. exists tracker, pattern, index. split; [done|].
    split; [|done]. by eapply fixedPatternOfDay_lookup. }
  assert (HfixedIs : ∀ st job tracker,
    FullTimeStage.patternRotationTracker st !! Pharmacist.id job.1 = Some tracker →
    (TrackerEntry.patternIndex tracker < length patterns)%nat →
    is_Some (assignFixed rules st job)).
  { intros st [ph [index pattern]] tracker Htracker _. cbn [assignFixed fst] in *.
    rewrite Htracker. by eexists. }
  assert (HrotationSome : ∀ st ph st',
    True → assignByRotation rules patterns fullTimePharmacists st ph = Some st' →
    ∃ tracker pattern index,
      FullTimeStage.patternRotationTracker st !! Pharmacist.id ph = Some tracker
      ∧ patterns !! index = Some pattern ∧ True
      ∧ st' = recordAssignment rules st ph pattern index tracker
                ((TrackerEntry.patternIndex tracker + 1) mod length patterns)%nat).
  { intros st ph st' _ Hrun.
    destruct (assignByRotation_Some _ _ _ _ _ _ Hrun) as (t & p & i & ? & ? & ?).
    by exists t, p, i. }
  assert (Hmod : ∀ tracker : TrackerEntry.t,
    (TrackerEntry.patternIndex tracker < length patterns)%nat →
    ((TrackerEntry.patternIndex tracker + 1) mod length patterns < length patterns)%nat).
  { intros tracker Hlt. apply Nat.mod_upper_bound. lia. }
  assert (HfixedValid : Forall validFixed fixedJobs).
  { apply Forall_forall. intros job Hjob. by apply fixedJobs_elem in Hjob as [_ ?]. }
  assert (Hstart : Forall (fun id => ∃ tracker,
             FullTimeStage.patternRotationTracker start !! id = Some tracker
             ∧ (TrackerEntry.patternIndex tracker < length patterns)%nat) ids).
  { apply Forall_forall. intros id Hid. apply list_elem_of_fmap in Hid as (ph & -> & Hph).
    by apply trackers_ready. }
  destruct (stageLoop_runs rules patterns (assignFixed rules) fst TrackerEntry.patternIndex
              validFixed (fun job pattern => pattern = job.2.2) HfixedSome HfixedIs
              (fun _ H => H) fixedJobs start ids Hstart) as (st1 & Hst1 & Htracked1).
  { apply Forall_forall. intros job Hjob. apply fixedJobs_elem in Hjob as [Hin Hfixed].
    split; [done|]. by apply list_elem_of_fmap_2. }
  destruct (stageLoop_runs rules patterns
              (assignByRotation rules patterns fullTimePharmacists) id
              (fun tracker => ((TrackerEntry.patternIndex tracker + 1) mod length patterns)%nat)
              (fun _ => True) (fun _ _ => True) HrotationSome
              (assignByRotation_is_Some rules patterns fullTimePharmacists) Hmod
              rotationJobs st1 ids Htracked1) as (st2 & Hst2 & _).
  { apply Forall_forall. intros ph Hph. apply list_elem_of_filter in Hph as [_ Hph].
    split; [done|]. by apply list_elem_of_fmap_2. }
  destruct (stageLoop_spec rules patterns (assignFixed rules) fst TrackerEntry.patternIndex
              validFixed (fun job pattern => pattern = job.2.2) HfixedSome
              fixedJobs start st1 HfixedValid Hst1)
    as (fixedChosen & Hassigned1 & Hall1 & Hframe1 & Hkeys1).
  destruct (stageLoop_spec rules patterns
              (assignByRotation rules patterns fullTimePharmacists) id
              (fun tracker => ((TrackerEntry.patternIndex tracker + 1) mod length patterns)%nat)
              (fun _ => True) (fun _ _ => True) HrotationSome
              rotationJobs st1 st2 (Forall_true _ _ (fun _ => I)) Hst2)
    as (rotationChosen & Hassigned2 & Hall2 & Hframe2 & Hkeys2).
  assert (HfixedIds : ∀ job, job ∈ fixedJobs → Pharmacist.id job.1 ∈ ids).
  { intros job Hjob. apply fixedJobs_elem in Hjob as [Hin _]. by apply list_elem_of_fmap_2. }
  assert (HrotationIds : ∀ ph, ph ∈ rotationJobs → Pharmacist.id ph ∈ ids).
  { intros ph Hph. apply list_elem_of_filter in Hph as [_ Hph]. by apply list_elem_of_fmap_2. }
  exists st2, fixedChosen, rotationChosen. split; [|split; [|split; [|split; [|split]]]].
  - unfold assignPatterns. fold fixedOf. fold fixedJobs. fold rotationJobs. fold start.
    by rewrite Hst1.
  - rewrite Hassigned2, Hassigned1. by rewrite list_fmap_id.
  - done.
  - done.
  - intros id Hid. rewrite Hframe2, Hframe1; [done| |].
    + intros Hin. apply Hid. apply list_elem_of_fmap in Hin as (job & -> & Hjob).
      by apply HfixedIds.
    + intros Hin. apply Hid. apply list_elem_of_fmap in Hin as (ph & -> & Hph).
      by apply HrotationIds.
  - intros Hnodup. split.
    + intros i job pattern Hjob Hpattern.
      destruct (Hkeys1) with (i := i) (j := job) (pattern := pattern)
        as (tracker & Htracker & Htracker'); [|done|done|].
      { change (fun j : Pharmacist.t * (nat * FixedShiftPattern.t) => Pharmacist.id j.1)
          with (Pharmacist.id ∘ (fst : Pharmacist.t * (nat * FixedShiftPattern.t) → _)).
        rewrite list_fmap_compose, fixedJobs_fst.
        eapply sublist_NoDup; [exact Hnodup|]. apply fmap_sublist, sublist_filter. }
      exists tracker. split; [done|]. rewrite Hframe2; [done|].
      intros Hin. apply list_elem_of_fmap in Hin as (ph & Heq & Hph).
      apply list_elem_of_filter in Hph as [Hnone Hph].
      apply list_elem_of_lookup_2, fixedJobs_elem in Hjob as [Hin Hfixed].
      assert (job.1 = ph) as Hsame by by eapply (NoDup_fmap_elem_eq Pharmacist.id).
      rewrite Hsame in Hfixed. congruence.
    + intros i ph pattern Hph Hpattern.
      destruct (Hkeys2) with (i := i) (j := ph) (pattern := pattern)
        as (tracker & Htracker & Htracker'); [|done|done|].
      { eapply sublist_NoDup; [exact Hnodup|]. apply fmap_sublist, sublist_filter. }
      exists tracker. split; [|done]. rewrite Hframe1 in Htracker; [done|].
      intros Hin. apply list_elem_of_fmap in Hin as (job & Heq & Hjob).
      apply fixedJobs_elem in Hjob as [Hin Hfixed].
      apply list_elem_of_lookup_2, list_elem_of_filter in Hph as [Hnone Hph].
      assert (ph = job.1) as Hsame by by eapply (NoDup_fmap_elem_eq Pharmacist.id).
      rewrite Hsame in Hnone. congruence.
Qed.

End AssignPatterns.

(** X25.  Every full-time pharmacist of the day gets exactly one pattern of the
    list, those with a fixed pattern for the day first, and gets the fixed
    pattern when there is one: provided the rotation tracker has, for each
    of them, an entry whose pattern index is within the list (without such
    an entry the call ends in a [TypeError]). *)
Theorem assignPatterns_everyone (rules : PharmacyRules.t) (patterns : list FixedShiftPattern.t)
    (fullTimePharmacists : list Pharmacist.t) (dayName : string)
    (patternRotationTracker : gmap string TrackerEntry.t)
    (pharmacistPatternUsage : option (gmap string (gmap string Z))) :
  (∀ ph, ph ∈ fullTimePharmacists →
     ∃ tracker, patternRotationTracker !! Pharmacist.id ph = Some tracker
                ∧ (TrackerEntry.patternIndex tracker < length patterns)%nat) →
  ∃ st,
    assignPatterns rules patterns fullTimePharmacists dayName patternRotationTracker
                   pharmacistPatternUsage = Some st
    ∧ (FullTimeStage.patternAssignments st).*1
      = filter (fun ph => is_Some (fixedPatternOfDay patterns dayName ph)) fullTimePharmacists
        ++ filter (fun ph => fixedPatternOfDay patterns dayName ph = None) fullTimePharmacists
    ∧ ∀ ph pattern, (ph, pattern) ∈ FullTimeStage.patternAssignments st →
        pattern ∈ patterns
        ∧ ∀ index fixed, fixedPatternOfDay patterns dayName ph = Some (index, fixed) →
                         pattern = fixed.
Proof.
  intros Hready.
  destruct (assignPatterns_spec rules patterns fullTimePharmacists dayName
              patternRotationTracker pharmacistPatternUsage Hready)
    as (st & fixedChosen & rotationChosen & Hrun & Hassigned & Hfixed & Hrotation & _).
  exists st. split; [done|]. rewrite Hassigned. split.
  - rewrite fmap_app, !fst_zip.
    + by rewrite (fixedJobs_fst patterns fullTimePharmacists dayName patternRotationTracker).
    + by rewrite (Forall2_length _ _ _ Hrotation).
    + by rewrite length_fmap, (Forall2_length _ _ _ Hfixed).
  - intros ph pattern Hin. apply elem_of_app in Hin as [Hin|Hin];
      apply elem_of_lookup_zip_with in Hin as (i & x & y & [= <- <-] & Hx & Hy).
    + apply list_lookup_fmap_Some in Hx as (job & -> & Hjob).
      destruct (Forall2_lookup_lr _ _ _ _ _ _ Hfixed Hjob Hy) as [-> Hpattern].
      split; [done|]. intros index fixed Hfixedday.
      apply list_elem_of_lookup_2 in Hjob.
      apply (fixedJobs_elem patterns fullTimePharmacists dayName) in Hjob as [_ Hjob].
      rewrite Hfixedday in Hjob. by injection Hjob as <-.
    + destruct (Forall2_lookup_lr _ _ _ _ _ _ Hrotation Hx Hy) as [_ Hpattern].
      split; [done|]. intros index fixed Hfixedday.
      apply list_elem_of_lookup_2, list_elem_of_filter in Hx as [Hnone _]. congruence.
Qed.

Lemma assignPatterns_everyone_witness :
  ∃ st,
    assignPatterns scenarioRules [patternA; patternB] swapPharmacists "Monday"
                   (rotationTrackerFor swapPharmacists swapPharmacists 2 0) None = Some st
    ∧ (FullTimeStage.patternAssignments st).*1
      = filter (fun ph => is_Some (fixedPatternOfDay [patternA; patternB] "Monday" ph))
               swapPharmacists
        ++ filter (fun ph => fixedPatternOfDay [patternA; patternB] "Monday" ph = None)
                  swapPharmacists
    ∧ ∀ ph pattern, (ph, pattern) ∈ FullTimeStage.patternAssignments st →
        pattern ∈ [patternA; patternB]
        ∧ ∀ index fixed,
            fixedPatternOfDay [patternA; patternB] "Monday" ph = Some (index, fixed) →
            pattern = fixed.
Proof.
  apply assignPatterns_everyone. intros ph Hph.
  repeat (apply elem_of_cons in Hph as [->|Hph]); [| |by apply elem_of_nil in Hph];
    (eexists; split; [vm_compute; reflexivity|cbn; lia]).
Defined.

(** X26.  What the stage does to the rotation tracker (the pharmacists having
    different ids and tracker entries with a pattern index within the
    list): the entry of a full-time pharmacist of the day gets the name of
    the assigned pattern appended to its daily patterns, and its pattern
    index grows by one (modulo the number of patterns) unless the pattern
    was a fixed one; every other entry is left alone. *)
Theorem assignPatterns_tracker (rules : PharmacyRules.t) (patterns : list FixedShiftPattern.t)
    (fullTimePharmacists : list Pharmacist.t) (dayName : string)
    (patternRotationTracker : gmap string TrackerEntry.t)
    (pharmacistPatternUsage : option (gmap string (gmap string Z))) :
  NoDup (Pharmacist.id <$> fullTimePharmacists) →
  (∀ ph, ph ∈ fullTimePharmacists →
     ∃ tracker, patternRotationTracker !! Pharmacist.id ph = Some tracker
                ∧ (TrackerEntry.patternIndex tracker < length patterns)%nat) →
  ∃ st,
    assignPatterns rules patterns fullTimePharmacists dayName patternRotationTracker
                   pharmacistPatternUsage = Some st
    ∧ (∀ id, id ∉ Pharmacist.id <$> fullTimePharmacists →
         FullTimeStage.patternRotationTracker st !! id = patternRotationTracker !! id)
    ∧ ∀ ph, ph ∈ fullTimePharmacists →
        ∃ tracker pattern,
          patternRotationTracker !! Pharmacist.id ph = Some tracker
          ∧ (ph, pattern) ∈ FullTimeStage.patternAssignments st
          ∧ FullTimeStage.patternRotationTracker st !! Pharmacist.id ph
            = Some (TrackerEntry.mk (TrackerEntry.pharmacist tracker)
                      (match fixedPatternOfDay patterns dayName ph with
                       | Some _ => TrackerEntry.patternIndex tracker
                       | None =>
                           ((TrackerEntry.patternIndex tracker + 1) mod length patterns)%nat
                       end)
                      (TrackerEntry.dailyPatterns tracker ++ [FixedShiftPattern.name pattern])).
Proof.
  intros Hnodup Hready.
  destruct (assignPatterns_spec rules patterns fullTimePharmacists dayName
              patternRotationTracker pharmacistPatternUsage Hready)
    as (st & fixedChosen & rotationChosen & Hrun & Hassigned & Hfixed & Hrotation
        & Hframe & Hkeys).
  destruct (Hkeys Hnodup) as [Hkeys1 Hkeys2].
  exists st. split; [done|]. split; [done|]. intros ph Hph. rewrite Hassigned.
  destruct (fixedPatternOfDay patterns dayName ph) as [fixed|] eqn:Hfixedday.
  - assert (Hjob : (ph, fixed) ∈ omap (fun ph => (fun fixed => (ph, fixed))
                      <$> fixedPatternOfDay patterns dayName ph) fullTimePharmacists).
    { by apply (fixedJobs_elem patterns fullTimePharmacists dayName). }
    apply list_elem_of_lookup in Hjob as [i Hi].
    destruct (Forall2_lookup_l _ _ _ _ _ Hfixed Hi) as (pattern & Hpattern & _).
    destruct (Hkeys1 i _ pattern Hi Hpattern) as (tracker & Htracker & Htracker').
    exists tracker, pattern. split; [done|]. split; [|done].
    apply elem_of_app. left. apply elem_of_lookup_zip_with.
    exists i, ph, pattern. split; [done|]. split; [|done].
    by rewrite list_lookup_fmap, Hi.
  - assert (Hjob : ph ∈ filter (fun ph => fixedPatternOfDay patterns dayName ph = None)
                               fullTimePharmacists).
    { by apply list_elem_of_filter. }
    apply list_elem_of_lookup in Hjob as [i Hi].
    destruct (Forall2_lookup_l _ _ _ _ _ Hrotation Hi) as (pattern & Hpattern & _).
    destruct (Hkeys2 i _ pattern Hi Hpattern) as (tracker & Htracker & Htracker').
    exists tracker, pattern. split; [done|]. split; [|done].
    apply elem_of_app. right. apply elem_of_lookup_zip_with.
    by exists i, ph, pattern.
Qed.

Lemma assignPatterns_tracker_witness :
  let patternRotationTracker := rotationTrackerFor swapPharmacists swapPharmacists 2 0 in
  ∃ st,
    assignPatterns scenarioRules [patternA; patternB] swapPharmacists "Monday"
                   patternRotationTracker None = Some st
    ∧ (∀ id, id ∉ Pharmacist.id <$> swapPharmacists →
         FullTimeStage.patternRotationTracker st !! id = patternRotationTracker !! id)
    ∧ ∀ ph, ph ∈ swapPharmacists →
        ∃ tracker pattern,
          patternRotationTracker !! Pharmacist.id ph = Some tracker
          ∧ (ph, pattern) ∈ FullTimeStage.patternAssignments st
          ∧ FullTimeStage.patternRotationTracker st !! Pharmacist.id ph
            = Some (TrackerEntry.mk (TrackerEntry.pharmacist tracker)
                      (match fixedPatternOfDay [patternA; patternB] "Monday" ph with
                       | Some _ => TrackerEntry.patternIndex tracker
                       | None =>
                           ((TrackerEntry.patternIndex tracker + 1)
                              mod length [patternA; patternB])%nat
                       end)
                      (TrackerEntry.dailyPatterns tracker ++ [FixedShiftPattern.name pattern])).
Proof.
  intros patternRotationTracker. apply assignPatterns_tracker.
  - apply NoDup_cons. split; [by intros [=]%list_elem_of_singleton|].
    apply NoDup_cons. split; [by intros ?%elem_of_nil|apply NoDup_nil_2].
  - intros ph Hph.
    repeat (apply elem_of_cons in Hph as [->|Hph]); [| |by apply elem_of_nil in Hph];
      (eexists; split; [vm_compute; reflexivity|cbn; lia]).
Defined.

(** *** Balanced rotation without a usage map *)

Lemma foldl_min_lower (m : Z) (l : list Z) :
  Forall (fun x => m <= x) l → foldl Z.min m l = m.
Proof.
  induction 1 as [|x l Hx Hl IH]; [done|]. cbn [foldl]. by rewrite Z.min_l.
Qed.

Lemma foldl_max_upper (m : Z) (l : list Z) :
  Forall (fun x => x <= m) l → foldl Z.max m l = m.
Proof.
  induction 1 as [|x l Hx Hl IH]; [done|]. cbn [foldl]. by rewrite Z.max_l.
Qed.

Lemma filter_all {A : Type} (P : A → Prop) `{!∀ x, Decision (P x)} (l : list A) :
  Forall P l → filter P l = l.
Proof.
  induction 1 as [|x l Hx Hl IH]; [done|]. rewrite filter_cons, decide_True by done.
  by rewrite IH.
Qed.

Section NoUsage.
Context (patterns : list FixedShiftPattern.t) (patternUsageCount : list Z).
Context (fullTimePharmacists : list Pharmacist.t) (pharmacist : Pharmacist.t).

Let counts := pharmacistPatternCounts patterns None patternUsageCount pharmacist.

Lemma counts_zero : Forall (fun c => PatternCount.count c = 0) counts.
Proof.
  apply Forall_forall. intros c Hc. unfold counts, pharmacistPatternCounts in Hc.
  apply elem_of_lookup_imap in Hc as (i & p & -> & _). done.
Qed.

Lemma counts_min : minOf (PatternCount.count <$> counts) = 0.
Proof.
  pose proof counts_zero as Hzero. destruct counts as [|c l]; [done|].
  apply Forall_cons in Hzero as [Hc Hl]. cbn [fmap list_fmap minOf]. rewrite Hc.
  apply foldl_min_lower, Forall_fmap. eapply Forall_impl; [exact Hl|].
  intros x Hx. unfold compose. rewrite Hx. lia.
Qed.

Lemma counts_balanced :
  filter (fun p => keepsBalance counts (minOf (PatternCount.count <$> counts)) p = true) counts
  = counts.
Proof.
  apply filter_all. rewrite counts_min. apply Forall_forall. intros c Hc.
  pose proof counts_zero as Hzero. rewrite Forall_forall in Hzero.
  unfold keepsBalance. rewrite (Hzero c Hc).
  rewrite foldl_min_lower, foldl_max_upper; [by apply bool_decide_eq_true_2| |].
  - apply Forall_fmap, Forall_forall. intros x Hx.
    apply list_elem_of_filter in Hx as [_ Hx]. cbn. rewrite (Hzero x Hx). lia.
  - apply Forall_fmap, Forall_forall. intros x Hx.
    apply list_elem_of_filter in Hx as [_ Hx]. cbn. rewrite (Hzero x Hx). lia.
Qed.

Lemma global_zero (patternId : string) :
  globalPatternDistribution None fullTimePharmacists patternId = None
  ∨ globalPatternDistribution None fullTimePharmacists patternId = Some (0, 0).
Proof.
  unfold globalPatternDistribution. cbn [usageCount].
  case_bool_decide; [right|by left].
  destruct fullTimePharmacists as [|ph l]; [cbn in *; lia|].
  cbn [fmap list_fmap minOf maxUsage]. f_equal. f_equal.
  - apply foldl_min_lower, Forall_fmap, Forall_true. intros x. cbn. lia.
  - apply foldl_max_upper, Forall_fmap, Forall_true. intros x. cbn. lia.
Qed.

Lemma compareCandidates_dayUsage (a b : PatternCount.t) :
  a ∈ counts → b ∈ counts →
  compareCandidates (globalPatternDistribution None fullTimePharmacists) counts a b
  = PatternCount.dayUsage a - PatternCount.dayUsage b.
Proof.
  intros Ha Hb. pose proof counts_zero as Hzero. rewrite Forall_forall in Hzero.
  unfold compareCandidates.
  assert (Hmember : ∀ c, c ∈ counts →
            existsb (fun p => bool_decide (PatternCount.index p = PatternCount.index c)) counts
            = true).
  { intros c Hc. apply existsb_exists. exists c. split; [by apply list_elem_of_In|].
    by apply bool_decide_eq_true_2. }
  rewrite (Hmember a Ha), (Hmember b Hb). cbn [eqb negb].
  rewrite (Hzero a Ha), (Hzero b Hb). rewrite (bool_decide_eq_false_2 (0 ≠ 0)) by lia.
  destruct (global_zero (FixedShiftPattern.id (PatternCount.pattern a))) as [->| ->]; [done|].
  destruct (global_zero (FixedShiftPattern.id (PatternCount.pattern b))) as [->| ->]; [done|].
  by rewrite bool_decide_eq_false_2 by lia.
Qed.

(** Without a usage map the balanced branch selects the first of the
    patterns least used today. *)
Lemma selectBalanced_least_used (i : nat) (p : FixedShiftPattern.t) (c : Z) :
  length patternUsageCount = length patterns →
  patterns !! i = Some p → patternUsageCount !! i = Some c →
  (∀ j d, patternUsageCount !! j = Some d → c <= d ∧ ((j < i)%nat → c < d)) →
  selectBalanced patterns None patternUsageCount fullTimePharmacists pharmacist
  = Some (PatternCount.mk p i 0 c).
Proof.
  intros Hlen Hp Hc Hmin. unfold selectBalanced. fold counts.
  rewrite counts_balanced.
  assert (Hcandidates : (if bool_decide (0 < length counts)%nat then counts else counts)
                        = counts) by by case_bool_decide.
  rewrite Hcandidates.
  rewrite (sortByComparator_ext _ (fun a b => PatternCount.dayUsage a - PatternCount.dayUsage b))
    by (intros; by apply compareCandidates_dayUsage).
  apply (head_sortByComparator_first_min PatternCount.dayUsage counts i).
  - unfold counts, pharmacistPatternCounts. rewrite list_lookup_imap, Hp. cbn.
    by rewrite Hc.
  - intros j y Hy. unfold counts, pharmacistPatternCounts in Hy.
    rewrite list_lookup_imap in Hy. destruct (patterns !! j) as [pj|] eqn:Hpj; [|done].
    injection Hy as <-. cbn [PatternCount.dayUsage].
    destruct (patternUsageCount !! j) as [d|] eqn:Hd.
    + cbn [default]. by apply Hmin.
    + apply lookup_ge_None in Hd. apply lookup_lt_Some in Hpj. lia.
Qed.

End NoUsage.

Section RoundRobin.
Context (rules : PharmacyRules.t) (patterns : list FixedShiftPattern.t).
Context (fullTimePharmacists : list Pharmacist.t).
Hypothesis no_requirements : PharmacyRules.staffingRequirements rules = [].

Lemma rotationLoop_round_robin (l : list Pharmacist.t) (st : FullTimeStage.t) (q : Z) (r : nat) :
  FullTimeStage.pharmacistPatternUsage st = None →
  FullTimeStage.patternUsageCount st
  = replicate r (q + 1) ++ replicate (length patterns - r) q →
  (r < length patterns)%nat →
  (∀ ph, ph ∈ l →
     is_Some (FullTimeStage.patternRotationTracker st !! Pharmacist.id ph)) →
  ∃ st',
    forEachOrThrow (assignByRotation rules patterns fullTimePharmacists) st l = Some st'
    ∧ length (FullTimeStage.patternAssignments st')
      = (length (FullTimeStage.patternAssignments st) + length l)%nat
    ∧ (∀ k x, FullTimeStage.patternAssignments st !! k = Some x →
              FullTimeStage.patternAssignments st' !! k = Some x)
    ∧ ∀ k ph, l !! k = Some ph →
        ∃ p, patterns !! ((r + k) mod length patterns)%nat = Some p
             ∧ FullTimeStage.patternAssignments st'
                 !! (length (FullTimeStage.patternAssignments st) + k)%nat
               = Some (ph, p).
Proof.
  revert st q r. induction l as [|ph l IH]; intros st q r Husage Hcounts Hr Htrackers.
  - exists st. split; [done|]. split; [cbn; lia|]. split; [done|]. intros k ph Hk. done.
  - destruct (Htrackers ph ltac:(by left)) as [tracker Htracker].
    destruct (lookup_lt_is_Some_2 patterns r Hr) as [p Hp].
    assert (Hlen : length (FullTimeStage.patternUsageCount st) = length patterns).
    { rewrite Hcounts, length_app, !length_replicate. lia. }
    assert (Hselect :
      selectBalanced patterns None (FullTimeStage.patternUsageCount st) fullTimePharmacists ph
      = Some (PatternCount.mk p r 0 q)).
    { apply selectBalanced_least_used; [done|done| |].
      - rewrite Hcounts, lookup_app_r by (rewrite length_replicate; lia).
        rewrite length_replicate. apply lookup_replicate_2. lia.
      - intros j d Hd. rewrite Hcounts in Hd. apply lookup_app_Some in Hd as [Hd|[Hge Hd]].
        + apply lookup_replicate in Hd as [-> _]. lia.
        + apply lookup_replicate in Hd as [-> _]. rewrite length_replicate in Hge.
          split; [lia|]. lia. }
    set (st1 := recordAssignment rules st ph p r tracker
                  ((TrackerEntry.patternIndex tracker + 1) mod length patterns)%nat).
    assert (Hstep : assignByRotation rules patterns fullTimePharmacists st ph = Some st1).
    { unfold assignByRotation. rewrite Htracker. unfold unmetRequirements.
      rewrite no_requirements. cbn [filter list_filter length].
      rewrite bool_decide_eq_false_2 by lia. rewrite Husage, Hselect. done. }
    cbn [forEachOrThrow]. rewrite Hstep.
    assert (Hcounts1 : ∃ q' r',
              FullTimeStage.patternUsageCount st1
              = replicate r' (q' + 1) ++ replicate (length patterns - r') q'
              ∧ (r' < length patterns)%nat
              ∧ ∀ k, ((r' + k) mod length patterns = (r + S k) mod length patterns)%nat).
    { unfold st1. cbn [recordAssignment FullTimeStage.patternUsageCount]. rewrite Hcounts.
      rewrite alter_app_r_alt by (rewrite length_replicate; lia).
      rewrite length_replicate, Nat.sub_diag.
      destruct (length patterns - r)%nat as [|m] eqn:Hm; [lia|].
      cbn [replicate alter list_alter].
      destruct (decide (r + 1 < length patterns)%nat) as [Hlt|Hge].
      - exists q, (r + 1)%nat. split; [|split; [done|]].
        + rewrite Nat.add_1_r, replicate_S_end, <-app_assoc. cbn [app].
          replace (length patterns - S r)%nat with m by lia. done.
        + intros k. f_equal. lia.
      - exists (q + 1), 0%nat. split; [|split; [lia|]].
        + cbn [replicate app]. rewrite Nat.sub_0_r.
          assert (m = 0%nat) as -> by lia. cbn [replicate].
          replace (length patterns) with (S r) by lia.
          by rewrite replicate_S_end.
        + intros k. replace (r + S k)%nat with (k + 1 * length patterns)%nat by lia.
          by rewrite Nat.Div0.mod_add. }
    destruct Hcounts1 as (q' & r' & Hcounts1 & Hr' & Hshift).
    destruct (IH st1 q' r') as (st' & Hrun & Hlength & Hkeep & Hassigned);
      [unfold st1; cbn; by rewrite Husage|done|done| |].
    { intros ph' Hph'. unfold st1.
      cbn [recordAssignment FullTimeStage.patternRotationTracker].
      destruct (decide (Pharmacist.id ph = Pharmacist.id ph')) as [->|Hne].
      - rewrite lookup_insert_eq. by eexists.
      - rewrite lookup_insert_ne by done. apply Htrackers. by right. }
    assert (Hlen1 : length (FullTimeStage.patternAssignments st1)
                    = S (length (FullTimeStage.patternAssignments st))).
    { unfold st1. cbn [recordAssignment FullTimeStage.patternAssignments].
      rewrite length_app. cbn. lia. }
    exists st'. split; [done|]. split; [rewrite Hlength, Hlen1; cbn; lia|]. split.
    + intros k x Hx. apply Hkeep. unfold st1.
      cbn [recordAssignment FullTimeStage.patternAssignments].
      by apply lookup_app_l_Some.
    + intros [|k] ph' Hk.
      * injection Hk as <-. exists p. rewrite Nat.add_0_r, Nat.mod_small by done.
        split; [done|]. apply Hkeep. unfold st1.
        cbn [recordAssignment FullTimeStage.patternAssignments].
        by apply list_lookup_middle.
      * cbn in Hk. destruct (Hassigned k ph' Hk) as (p' & Hp' & Hat).
        exists p'. rewrite <-Hshift. split; [done|].
        rewrite Hlen1 in Hat. by replace (length (FullTimeStage.patternAssignments st) + S k)%nat
          with (S (length (FullTimeStage.patternAssignments st)) + k)%nat by lia.
Qed.

End RoundRobin.

(** X27.  Without staffing requirements and without a usage map, the
    full-time pharmacists of a day, none of them with a fixed pattern for
    the day, get the patterns in turn: the pharmacist at position [k]
    (from 0) gets pattern number [k mod n] of the [n] patterns, whatever
    pattern index the rotation tracker holds for that pharmacist. *)
Theorem assignPatterns_round_robin (rules : PharmacyRules.t)
    (patterns : list FixedShiftPattern.t) (fullTimePharmacists : list Pharmacist.t)
    (dayName : string) (patternRotationTracker : gmap string TrackerEntry.t) :
  PharmacyRules.staffingRequirements rules = [] →
  patterns ≠ [] →
  (∀ ph, ph ∈ fullTimePharmacists →
     fixedPatternOfDay patterns dayName ph = None
     ∧ is_Some (patternRotationTracker !! Pharmacist.id ph)) →
  ∃ st,
    assignPatterns rules patterns fullTimePharmacists dayName patternRotationTracker None
    = Some st
    ∧ length (FullTimeStage.patternAssignments st) = length fullTimePharmacists
    ∧ ∀ k ph, fullTimePharmacists !! k = Some ph →
        ∃ p, patterns !! (k mod length patterns)%nat = Some p
             ∧ FullTimeStage.patternAssignments st !! k = Some (ph, p).
Proof.
  intros Hnone Hpatterns Hall. unfold assignPatterns.
  assert (Hfixed : omap (fun ph => (fun fixed => (ph, fixed))
                           <$> fixedPatternOfDay patterns dayName ph) fullTimePharmacists
                   = []).
  { clear -Hall. induction fullTimePharmacists as [|ph l IH]; [done|].
    cbn [omap list_omap]. destruct (Hall ph ltac:(by left)) as [-> _].
    cbn. apply IH. intros. apply Hall. by right. }
  rewrite Hfixed. cbn [forEachOrThrow].
  rewrite filter_all by (apply Forall_forall; intros ph Hph; by apply Hall).
  destruct (rotationLoop_round_robin rules patterns fullTimePharmacists Hnone
              fullTimePharmacists
              (FullTimeStage.mk [] (replicate (length patterns) 0)
                 (createCoverageTracker rules) patternRotationTracker None) 0 0)
    as (st & Hrun & Hlength & _ & Hassigned).
  - done.
  - cbn. by rewrite Nat.sub_0_r.
  - destruct patterns; [done|]. cbn. lia.
  - intros ph Hph. by apply Hall.
  - exists st. split; [done|]. split; [done|]. intros k ph Hk.
    destruct (Hassigned k ph Hk) as (p & Hp & Hat). by exists p.
Qed.

Lemma assignPatterns_round_robin_witness :
  ∃ st,
    assignPatterns swapRules [patternA; patternB] swapPharmacists "Tuesday"
                   (rotationTrackerFor swapPharmacists swapPharmacists 2 1) None
    = Some st
    ∧ length (FullTimeStage.patternAssignments st) = length swapPharmacists
    ∧ ∀ k ph, swapPharmacists !! k = Some ph →
        ∃ p, [patternA; patternB] !! (k mod length [patternA; patternB])%nat = Some p
             ∧ FullTimeStage.patternAssignments st !! k = Some (ph, p).
Proof.
  apply assignPatterns_round_robin; [reflexivity|discriminate|].
  intros ph Hph.
  repeat (apply elem_of_cons in Hph as [->|Hph]); [| |by apply elem_of_nil in Hph];
    (split; [vm_compute; reflexivity|eexists; vm_compute; reflexivity]).
Defined.

(** *** From pattern assignments to shifts *)

Lemma synthStep_pattern_day (rules : PharmacyRules.t) (dateStr : Z)
    (pharmacist : Pharmacist.t) (pattern : FixedShiftPattern.t)
    (shifts : list Shift.t) (weeklyHours : gmap string Qc) :
  timeToMinutes (SubShift.startTime (FixedShiftPattern.afternoonShift pattern))
  > timeToMinutes (SubShift.endTime (FixedShiftPattern.morningShift pattern)) →
  (Js.ofZ 2 <= morningHoursOf pattern)%Qc →
  (Js.ofZ 2 <= afternoonHoursOf pattern)%Qc →
  ∃ weeklyHours',
    foldl (synthStep rules dateStr) (shifts, weeklyHours)
          (assignmentsOfPattern (pharmacist, pattern))
    = (shifts
       ++ [ mkShift pharmacist dateStr
              (SubShift.startTime (FixedShiftPattern.morningShift pattern))
              (SubShift.endTime (FixedShiftPattern.morningShift pattern))
              morning (Some (FixedShiftPattern.id pattern));
            mkShift pharmacist dateStr
              (SubShift.startTime (FixedShiftPattern.afternoonShift pattern))
              (SubShift.endTime (FixedShiftPattern.afternoonShift pattern))
              afternoon (Some (FixedShiftPattern.id pattern)) ],
       weeklyHours')
    ∧ weeklyHours' !! Pharmacist.id pharmacist
      = (fun h => h - morningHoursOf pattern - afternoonHoursOf pattern)%Qc
          <$> weeklyHours !! Pharmacist.id pharmacist
    ∧ ∀ id, id ≠ Pharmacist.id pharmacist → weeklyHours' !! id = weeklyHours !! id.
Proof.
  intros Hbreak Hmorning Hafternoon. unfold assignmentsOfPattern.
  rewrite bool_decide_eq_true_2 by done. cbn [foldl].
  unfold synthStep at 2. unfold synthesize. cbn [Assignment.shiftType].
  unfold synthMorning. cbn [Assignment.startTime Assignment.endTime Assignment.pharmacist
                            Assignment.patternId].
  fold (morningHoursOf pattern).
  rewrite (bool_decide_eq_false_2 (morningHoursOf pattern < Js.ofZ 2)%Qc)
    by by apply Qcle_not_lt.
  rewrite (bool_decide_eq_true_2 (0 < morningHoursOf pattern)%Qc)
    by (eapply Qclt_le_trans; [|exact Hmorning]; done).
  unfold synthStep. unfold synthesize. cbn [Assignment.shiftType].
  unfold synthAfternoon. cbn [Assignment.startTime Assignment.endTime Assignment.pharmacist
                              Assignment.patternId].
  fold (afternoonHoursOf pattern).
  rewrite (bool_decide_eq_false_2 (afternoonHoursOf pattern < Js.ofZ 2)%Qc)
    by by apply Qcle_not_lt.
  rewrite (bool_decide_eq_true_2 (0 < afternoonHoursOf pattern)%Qc)
    by (eapply Qclt_le_trans; [|exact Hafternoon]; done).
  eexists. split; [by rewrite <-app_assoc|]. split.
  - rewrite !lookup_alter_eq. by destruct (weeklyHours !! Pharmacist.id pharmacist).
  - intros id Hid. by rewrite !lookup_alter_ne.
Qed.



(** *** The coverage seen by the part-time stage *)

Lemma forEachOrThrow_coverage (rules : PharmacyRules.t) {J : Type}
    (body : FullTimeStage.t → J → option FullTimeStage.t) (l : list J)
    (st st' : FullTimeStage.t) :
  (∀ st j st', body st j = Some st' →
     ∃ ph p i t new, st' = recordAssignment rules st ph p i t new) →
  forEachOrThrow body st l = Some st' →
  ∃ added,
    FullTimeStage.patternAssignments st' = FullTimeStage.patternAssignments st ++ added
    ∧ FullTimeStage.coverageTracker st'
      = foldl (updateCoverageTracker rules) (FullTimeStage.coverageTracker st) added.*2.
Proof.
  intros Hbody. revert st. induction l as [|j l IH]; intros st Hrun.
  - injection Hrun as <-. exists []. by rewrite app_nil_r.
  - cbn [forEachOrThrow] in Hrun. destruct (body st j) as [st1|] eqn:Hst1; [|done].
    destruct (Hbody _ _ _ Hst1) as (ph & p & i & t & new & ->).
    destruct (IH _ Hrun) as (added & Hassigned & Hcoverage).
    exists ((ph, p) :: added). split.
    + rewrite Hassigned. cbn [recordAssignment FullTimeStage.patternAssignments].
      by rewrite <-app_assoc.
    + by rewrite Hcoverage.
Qed.

Lemma assignPatterns_coverage (rules : PharmacyRules.t) (patterns : list FixedShiftPattern.t)
    (fullTimePharmacists : list Pharmacist.t) (dayName : string)
    (patternRotationTracker : gmap string TrackerEntry.t)
    (pharmacistPatternUsage : option (gmap string (gmap string Z))) (st : FullTimeStage.t) :
  assignPatterns rules patterns fullTimePharmacists dayName patternRotationTracker
                 pharmacistPatternUsage = Some st →
  FullTimeStage.coverageTracker st
  = foldl (updateCoverageTracker rules) (createCoverageTracker rules)
          (FullTimeStage.patternAssignments st).*2.
Proof.
  unfold assignPatterns.
  destruct (forEachOrThrow (assignFixed rules) _ _) as [st1|] eqn:Hst1; [|done].
  intros Hst2.
  apply (forEachOrThrow_coverage rules) in Hst1 as (added1 & Hassigned1 & Hcoverage1).
  2:{ intros s [ph [i p]] s'. cbn [assignFixed].
      destruct (FullTimeStage.patternRotationTracker s !! Pharmacist.id ph) as [t|]; [|done].
      intros [= <-]. by eexists ph, p, i, t, _. }
  apply (forEachOrThrow_coverage rules) in Hst2 as (added2 & Hassigned2 & Hcoverage2).
  2:{ intros s ph s' Hrun. apply assignByRotation_Some in Hrun as (t & p & i & _ & _ & ->).
      by eexists ph, p, i, t, _. }
  cbn [FullTimeStage.patternAssignments FullTimeStage.coverageTracker] in *.
  rewrite Hassigned2, Hassigned1, Hcoverage2, Hcoverage1. cbn [app].
  by rewrite fmap_app, foldl_app.
Qed.

(** What one update adds to an entry depends on the pattern only. *)
Lemma updateCoverageTracker_adds (rules : PharmacyRules.t) (pattern : FixedShiftPattern.t)
    (k : string) :
  ∃ share : Qc, ∀ tracker,
    updateCoverageTracker rules tracker pattern !! k
    = (fun c => c + share)%Qc <$> tracker !! k.
Proof.
  unfold updateCoverageTracker.
  induction (PharmacyRules.staffingRequirements rules) as [|req reqs IH].
  - exists 0%Qc. intros tracker. cbn [foldl]. destruct (tracker !! k) as [c|]; [|done].
    cbn. f_equal. qc_to_q. lra.
  - destruct IH as (rest & Hrest). cbn [foldl]. cbv zeta.
    assert (Hadd : ∀ sub : SubShift.t, ∃ share : Qc, ∀ t : gmap string Qc,
              match overlapMinutes sub req with
              | Some overlap =>
                  alter (fun c => c + (Js.ofZ overlap
                                       / Js.ofZ (timeToMinutes (StaffingRequirement.endTime req)
                                                 - timeToMinutes
                                                     (StaffingRequirement.startTime req)))
                                      * Js.ofZ 100 / Js.ofZ 100)%Qc
                        (requirementKey req) t
              | None => t
              end !! k
              = (fun c => c + share)%Qc <$> t !! k).
    { intros sub. destruct (overlapMinutes sub req) as [overlap|].
      - destruct (decide (k = requirementKey req)) as [->|Hk].
        + eexists. intros t. by rewrite lookup_alter_eq.
        + exists 0%Qc. intros t. rewrite lookup_alter_ne by done.
          destruct (t !! k) as [c|]; [|done]. cbn. f_equal. qc_to_q. lra.
      - exists 0%Qc. intros t. destruct (t !! k) as [c|]; [|done].
        cbn. f_equal. qc_to_q. lra. }
    destruct (Hadd (FixedShiftPattern.morningShift pattern)) as (s1 & Hs1).
    destruct (Hadd (FixedShiftPattern.afternoonShift pattern)) as (s2 & Hs2).
    exists (s1 + s2 + rest)%Qc. intros tracker. rewrite Hrest, Hs2, Hs1.
    destruct (tracker !! k) as [c|]; [|done]. cbn. f_equal. qc_to_q. lra.
Qed.

Lemma countAssignment_pattern (rules : PharmacyRules.t) (patterns : list FixedShiftPattern.t)
    (tracker : gmap string Qc) (a : Assignment.t) (pattern : FixedShiftPattern.t) :
  NoDup (FixedShiftPattern.id <$> patterns) → pattern ∈ patterns →
  Assignment.patternId a = Some (FixedShiftPattern.id pattern) →
  countAssignment rules patterns tracker a = updateCoverageTracker rules tracker pattern.
Proof.
  intros Hnodup Hin Hid. unfold countAssignment. rewrite Hid. cbn [mbind option_bind].
  destruct (list_find _ patterns) as [[i p]|] eqn:Hfind.
  - apply list_find_Some in Hfind as (Hp & Hsame & _).
    apply list_elem_of_lookup_2 in Hp.
    by rewrite (NoDup_fmap_elem_eq FixedShiftPattern.id patterns p pattern).
  - apply list_find_None in Hfind. rewrite Forall_forall in Hfind. by destruct (Hfind _ Hin).
Qed.

Lemma partTimeCoverage_twice (rules : PharmacyRules.t) (patterns : list FixedShiftPattern.t)
    (assigned : list (Pharmacist.t * FixedShiftPattern.t)) (k : string) :
  NoDup (FixedShiftPattern.id <$> patterns) →
  Forall (fun pa =>
            pa.2 ∈ patterns
            ∧ timeToMinutes (SubShift.startTime (FixedShiftPattern.afternoonShift pa.2))
              > timeToMinutes (SubShift.endTime (FixedShiftPattern.morningShift pa.2)))
         assigned →
  ∃ total : Qc, ∀ tracker,
    foldl (updateCoverageTracker rules) tracker assigned.*2 !! k
    = (fun c => c + total)%Qc <$> tracker !! k
    ∧ foldl (countAssignment rules patterns) tracker (flat_map assignmentsOfPattern assigned) !! k
      = (fun c => c + (total + total))%Qc <$> tracker !! k.
Proof.
  intros Hnodup. induction 1 as [|[ph p] assigned [Hin Hbreak] Hall IH].
  - exists 0%Qc. intros tracker. cbn. destruct (tracker !! k) as [c|]; [|done].
    cbn. split; f_equal; qc_to_q; lra.
  - destruct IH as (rest & Hrest). cbn [snd] in *.
    destruct (updateCoverageTracker_adds rules p k) as (share & Hshare).
    exists (share + rest)%Qc. intros tracker. rewrite fmap_cons. cbn [foldl snd flat_map].
    rewrite foldl_app. unfold assignmentsOfPattern at 1.
    rewrite bool_decide_eq_true_2 by done. cbn [foldl].
    rewrite !(countAssignment_pattern rules patterns _ _ p) by done.
    destruct (Hrest (updateCoverageTracker rules tracker p)) as [-> _].
    destruct (Hrest (updateCoverageTracker rules (updateCoverageTracker rules tracker p) p))
      as [_ ->].
    rewrite !Hshare. destruct (tracker !! k) as [c|]; [|done].
    cbn. split; f_equal; qc_to_q; lra.
Qed.


